(** * QIE-NEXUS backend services: oracle cache, feature builder, confidence predictor

    A shallow embedding of [backend/services/ai_inference.py] and
    [backend/services/oracle.py], and what holds of them.

    - Python floats are IEEE binary64 values ([spec_float], precision 53),
      with Python's own exceptions on top: [**] raises [OverflowError] where
      the product would be infinite, [int] refuses nan and infinities.
    - An exception is the [Raise] case of [result]; [try]/[except] is
      [try_except], and [try_catch] where state is threaded.
    - A dictionary that is iterated is an association list in insertion
      order; the per-market prediction cache is a finite map.
    - [hashlib.md5] and NumPy's MT19937 generator, its seeding and its uniform
      draw are written out; ONNX Runtime, the file system, the network and
      NumPy's Gaussian draw are parameters ([Runtime], [network]). *)

From Stdlib Require Import ZArith List String Ascii Bool Lia DecimalString.
From Stdlib.Floats Require Import SpecFloat.
From stdpp Require Import base option gmap.

Import ListNotations.
Set Warnings "-register-all".
Local Open Scope string_scope.
Local Open Scope Z_scope.
Local Open Scope list_scope.

(** ** Binary64 arithmetic *)

Module F64.

Definition prec : Z := 53.
Definition emax : Z := 1024.

Definition float := spec_float.

Definition add : float -> float -> float := SFadd prec emax.
Definition sub : float -> float -> float := SFsub prec emax.
Definition mul : float -> float -> float := SFmul prec emax.
Definition div : float -> float -> float := SFdiv prec emax.
Definition sqrt : float -> float := SFsqrt prec emax.
Definition ltb : float -> float -> bool := SFltb.
Definition eqb : float -> float -> bool := SFeqb.

Definition zero : float := S754_zero false.
Definition inf : float := S754_infinity false.
Definition nan : float := S754_nan.

(** The integer [n], rounded to nearest even. *)
Definition of_Z (n : Z) : float := binary_normalize prec emax n 0 false.

(** The decimal literal [m / 10^k], for [m] and [10^k] below [2^53]. *)
Definition dec (m : Z) (k : nat) : float := div (of_Z m) (of_Z (10 ^ Z.of_nat k)).

Definition one : float := of_Z 1.

Definition is_nan (x : float) : bool :=
  match x with S754_nan => true | _ => false end.

Definition is_inf (x : float) : bool :=
  match x with S754_infinity _ => true | _ => false end.

(** Sign bit clear, or not a number. *)
Definition nonneg (x : float) : bool :=
  match x with
  | S754_zero s | S754_infinity s | S754_finite s _ _ => negb s
  | S754_nan => true
  end.

(** Truncation toward zero of a finite value; [None] for nan and infinities. *)
Definition trunc (x : float) : option Z :=
  match x with
  | S754_zero _ => Some 0
  | S754_finite s m e =>
      Some (cond_Zopp s (if 0 <=? e then Z.pos m * 2 ^ e else Z.pos m / 2 ^ (- e)))
  | _ => None
  end.

(** C's [fmod x y] for a finite positive [y]: the remainder of the exact
    quotient truncated toward zero, with the sign of [x]; it is exact. *)
Definition fmod (x y : float) : float :=
  match x, y with
  | S754_nan, _ | _, S754_nan => S754_nan
  | S754_infinity _, _ => S754_nan
  | _, S754_zero _ => S754_nan
  | _, S754_infinity _ => x
  | S754_zero _, _ => x
  | S754_finite sx mx ex, S754_finite _ my ey =>
      let e0 := Z.min ex ey in
      let r := (Z.pos mx * 2 ^ (ex - e0)) mod (Z.pos my * 2 ^ (ey - e0)) in
      binary_normalize prec emax (cond_Zopp sx r) e0 sx
  end.

End F64.

Abbreviation float := F64.float.

(** ** Python values, exceptions and dictionaries *)

Inductive exn :=
| OverflowError
| ValueError
| TypeError
| KeyError
| AttributeError
| ZeroDivisionError
| IndexError
| ImportError
| RequestException.

Inductive result (A : Type) :=
| Ok (a : A)
| Raise (e : exn).

Arguments Ok {A} a.
Arguments Raise {A} e.

#[global] Instance result_ret : MRet result := fun _ a => Ok a.
#[global] Instance result_bind : MBind result := fun _ _ f r =>
  match r with
  | Ok a => f a
  | Raise e => Raise e
  end.

(** [try: body / except Exception: handler] *)
Definition try_except {A} (body : result A) (handler : exn -> result A) : result A :=
  match body with
  | Ok a => Ok a
  | Raise e => handler e
  end.

(** What a JSON document decodes to, and what a price table may hold. *)
Inductive pyval :=
| PyNone
| PyBool (b : bool)
| PyInt (n : Z)
| PyFloat (x : float)
| PyStr (s : string)
| PyList (l : list pyval)
| PyDict (d : list (string * pyval)).

(** A [dict] with string keys, in insertion order. *)
Abbreviation dict := (list (string * pyval)).

(** [d.get(key)] *)
Fixpoint dict_get (d : dict) (key : string) : option pyval :=
  match d with
  | [] => None
  | (k, v) :: rest => if String.eqb k key then Some v else dict_get rest key
  end.

(** [d[key] = v]: an existing key keeps its position, a new one goes last. *)
Fixpoint dict_set (d : dict) (key : string) (v : pyval) : dict :=
  match d with
  | [] => [(key, v)]
  | (k, v0) :: rest =>
      if String.eqb k key then (k, v) :: rest else (k, v0) :: dict_set rest key v
  end.

(** A number as a feature vector holds it: the adjacent-pair counts are
    Python ints and the other slots floats.  [NComplex] is a complex number,
    its value not represented: what [**] gives for a negative base and a
    fractional exponent. *)
Inductive pynum :=
| NInt (n : Z)
| NFloat (x : float)
| NComplex.

(** [isinstance(value, (int, float))]; [bool] is a subclass of [int]. *)
Definition isinstance_int_float (value : pyval) : bool :=
  match value with
  | PyBool _ | PyInt _ | PyFloat _ => true
  | _ => false
  end.

(** [float(n)] for an int: [OverflowError] when it rounds out of range. *)
Definition float_of_int (n : Z) : result float :=
  let x := F64.of_Z n in
  if F64.is_inf x then Raise OverflowError else Ok x.

(** [float(value)] *)
Definition py_float (value : pyval) : result float :=
  match value with
  | PyFloat x => Ok x
  | PyInt n => float_of_int n
  | PyBool b => Ok (if b then F64.one else F64.zero)
  | PyNone | PyList _ | PyDict _ => Raise TypeError
  | PyStr _ => Raise ValueError
  end.

(** [int(x)] for a float. *)
Definition int_of_float (x : float) : result Z :=
  match F64.trunc x with
  | Some n => Ok n
  | None => if F64.is_nan x then Raise ValueError else Raise OverflowError
  end.

(** [x != 0] *)
Definition float_ne_0 (x : float) : bool := negb (F64.eqb x F64.zero).

(** [x / y] on floats: [ZeroDivisionError] for a divisor equal to zero. *)
Definition float_div (x y : float) : result float :=
  if F64.eqb y F64.zero then Raise ZeroDivisionError else Ok (F64.div x y).

(** [x ** 2] as CPython's [float_pow] computes it: the special cases first
    (nan, infinities, zeros, a base of magnitude one), then the C library's
    [pow] on the magnitude, taken as correctly rounded, and [OverflowError]
    when that result is out of range. *)
Definition float_pow_2 (x : float) : result float :=
  match x with
  | S754_nan => Ok F64.nan
  | S754_infinity _ => Ok F64.inf
  | S754_zero _ => Ok F64.zero
  | S754_finite _ _ _ =>
      let iv := SFabs x in
      if F64.eqb iv F64.one then Ok F64.one
      else
        let ix := F64.mul iv iv in
        if F64.is_inf ix then Raise OverflowError else Ok ix
  end.

(** [x ** 0.5], by the same special cases; a negative finite base goes to
    complex arithmetic, and the C library's [pow] at one half is taken as the
    correctly rounded square root. *)
Definition float_pow_half (x : float) : pynum :=
  match x with
  | S754_nan => NFloat F64.nan
  | S754_infinity _ => NFloat F64.inf
  | S754_zero _ => NFloat F64.zero
  | S754_finite true _ _ => NComplex
  | S754_finite false _ _ =>
      if F64.eqb x F64.one then NFloat F64.one else NFloat (F64.sqrt x)
  end.

(** [sum(xs)] over floats: the running total starts from the int [0] and the
    items are added from left to right, each addition rounded (as CPython
    does up to 3.11; later versions carry a compensation term besides, which
    can move the last bit of a sum). *)
Definition float_sum (xs : list float) : float := fold_left F64.add xs F64.zero.

(** [max(xs)] and [min(xs)]: the first item, replaced by a later one only when
    the comparison holds. *)
Definition py_max (xs : list float) : result float :=
  match xs with
  | [] => Raise ValueError
  | x :: rest => Ok (fold_left (fun m y => if F64.ltb m y then y else m) rest x)
  end.

Definition py_min (xs : list float) : result float :=
  match xs with
  | [] => Raise ValueError
  | x :: rest => Ok (fold_left (fun m y => if F64.ltb y m then y else m) rest x)
  end.

(** [xs[i]], a negative index counting from the end. *)
Definition py_index (xs : list float) (i : Z) : result float :=
  let n := Z.of_nat (length xs) in
  let j := if i <? 0 then i + n else i in
  if (j <? 0) || (n <=? j) then Raise IndexError
  else match nth_error xs (Z.to_nat j) with
       | Some x => Ok x
       | None => Raise IndexError
       end.

(** ** The feature builder ([AIInferenceService.prepare_features]) *)

Definition categories : list string := ["forex"; "commodities"; "crypto"].

(** [oracle_prices.get(category, {}).items()] *)
Definition category_items (oracle_prices : dict) (category : string) : result dict :=
  match dict_get oracle_prices category with
  | None => Ok []
  | Some (PyDict d) => Ok d
  | Some _ => Raise AttributeError
  end.

(** The inner loop: every int or float value of one category, in order. *)
Fixpoint append_numeric (items : dict) (oracle_values : list float) : result (list float) :=
  match items with
  | [] => Ok oracle_values
  | (_, value) :: rest =>
      if isinstance_int_float value
      then x ← py_float value; append_numeric rest (oracle_values ++ [x])
      else append_numeric rest oracle_values
  end.

(** The outer loop over the categories. *)
Fixpoint extract_oracle_values (oracle_prices : dict) (cats : list string)
    (oracle_values : list float) : result (list float) :=
  match cats with
  | [] => Ok oracle_values
  | category :: rest =>
      items ← category_items oracle_prices category;
      oracle_values ← append_numeric items oracle_values;
      extract_oracle_values oracle_prices rest oracle_values
  end.

(** [(oracle_values + [0.0] * 7)[:7]] *)
Definition pad_window (oracle_values : list float) : list float :=
  firstn 7 (oracle_values ++ repeat F64.zero 7).

(** [sum((x - mean) ** 2 for x in oracle_values)] *)
Fixpoint sum_squares (xs : list float) (mean total : float) : result float :=
  match xs with
  | [] => Ok total
  | x :: rest =>
      sq ← float_pow_2 (F64.sub x mean);
      sum_squares rest mean (F64.add total sq)
  end.

(** [sum(1 for i in range(len(xs) - 1) if rel(xs[i], xs[i+1]))] *)
Fixpoint count_adjacent (rel : float -> float -> bool) (xs : list float) : Z :=
  match xs with
  | x :: ((y :: _) as rest) => (if rel x y then 1 else 0) + count_adjacent rel rest
  | _ => 0
  end.

Definition float_gt (x y : float) : bool := F64.ltb y x.
Definition float_lt (x y : float) : bool := F64.ltb x y.

(** [oracle_values[0] / oracle_values[-1] if oracle_values[-1] != 0 else 1.0] *)
Definition price_ratio (first last : float) : result float :=
  if float_ne_0 last then float_div first last else Ok F64.one.

(** [(max - min) / max if max != 0 else 0.0] *)
Definition price_range (hi lo : float) : result float :=
  if float_ne_0 hi then float_div (F64.sub hi lo) hi else Ok F64.zero.

(** The fourteen indicators of the branch [len(oracle_values) >= 7]. *)
Definition technical_indicators (oracle_values : list float) : result (list pynum) :=
  let n := F64.of_Z (Z.of_nat (length oracle_values)) in
  moving_average ← float_div (float_sum oracle_values) n;
  first ← py_index oracle_values 0;
  last ← py_index oracle_values (-1);
  let momentum := F64.sub first last in
  mean ← float_div (float_sum oracle_values) n;
  squares ← sum_squares oracle_values mean F64.zero;
  variance ← float_div squares n;
  let volatility := float_pow_half variance in
  hi ← py_max oracle_values;
  lo ← py_min oracle_values;
  let up_days := count_adjacent float_gt oracle_values in
  let down_days := count_adjacent float_lt oracle_values in
  ratio ← price_ratio first last;
  range ← price_range hi lo;
  Ok [NFloat moving_average; NFloat momentum; volatility;
      NFloat hi; NFloat lo; NFloat first; NFloat last;
      NInt up_days; NInt down_days; NFloat ratio; NFloat range;
      NFloat F64.zero; NFloat F64.zero; NFloat F64.zero].

Definition prepare_features (oracle_prices market_data : dict) : result (list pynum) :=
  oracle_values ← extract_oracle_values oracle_prices categories [];
  let oracle_values := pad_window oracle_values in
  let features := map NFloat oracle_values in
  features ←
    (if (7 <=? length oracle_values)%nat
     then indicators ← technical_indicators oracle_values; Ok (features ++ indicators)
     else Ok (features ++ repeat (NFloat F64.zero) 14));
  Ok (firstn 21 features).

(** *** Snapshots within range *)

(** A float of moderate size: zero, or finite with a mantissa of at most 53
    bits and an exponent of at most [E], so of magnitude below [2^(E+53)]. *)
Definition moderate (E : Z) (x : float) : bool :=
  match x with
  | S754_zero _ => true
  | S754_finite _ m e => (Z.pos (digits2_pos m) <=? 53) && (e <=? E)
  | _ => false
  end.

(** A price the builder can take: any value that is not a number, a float
    below [2^453] in magnitude, an int below [2^400]. *)
Definition moderate_value (v : pyval) : bool :=
  match v with
  | PyFloat x => moderate 400 x
  | PyInt n => Z.abs n <? 2 ^ 400
  | _ => true
  end.

(** The category is absent or a mapping of such prices. *)
Definition moderate_category (oracle_prices : dict) (category : string) : bool :=
  match dict_get oracle_prices category with
  | None => true
  | Some (PyDict d) => forallb (fun kv => moderate_value (snd kv)) d
  | Some _ => false
  end.

Definition moderate_prices (oracle_prices : dict) : bool :=
  forallb (moderate_category oracle_prices) categories.

(** ** MD5 ([hashlib.md5]), over bytes as integers below 256 *)

Module MD5.

Definition mask32 (x : Z) : Z := x mod 2 ^ 32.

Definition not32 (x : Z) : Z := Z.lxor x 4294967295.

Definition rotl32 (x c : Z) : Z :=
  mask32 (Z.lor (Z.shiftl x c) (Z.shiftr x (32 - c))).

(** [floor (2^32 * abs (sin (i + 1)))] for [i] from 0 to 63. *)
Definition K : list Z :=
  [3614090360; 3905402710; 606105819; 3250441966; 4118548399; 1200080426;
   2821735955; 4249261313; 1770035416; 2336552879; 4294925233; 2304563134;
   1804603682; 4254626195; 2792965006; 1236535329; 4129170786; 3225465664;
   643717713; 3921069994; 3593408605; 38016083; 3634488961; 3889429448;
   568446438; 3275163606; 4107603335; 1163531501; 2850285829; 4243563512;
   1735328473; 2368359562; 4294588738; 2272392833; 1839030562; 4259657740;
   2763975236; 1272893353; 4139469664; 3200236656; 681279174; 3936430074;
   3572445317; 76029189; 3654602809; 3873151461; 530742520; 3299628645;
   4096336452; 1126891415; 2878612391; 4237533241; 1700485571; 2399980690;
   4293915773; 2240044497; 1873313359; 4264355552; 2734768916; 1309151649;
   4149444226; 3174756917; 718787259; 3951481745].

Definition shifts : list Z :=
  [7; 12; 17; 22; 7; 12; 17; 22; 7; 12; 17; 22; 7; 12; 17; 22;
   5; 9; 14; 20; 5; 9; 14; 20; 5; 9; 14; 20; 5; 9; 14; 20;
   4; 11; 16; 23; 4; 11; 16; 23; 4; 11; 16; 23; 4; 11; 16; 23;
   6; 10; 15; 21; 6; 10; 15; 21; 6; 10; 15; 21; 6; 10; 15; 21].

(** [n] as [count] little-endian bytes. *)
Fixpoint le_bytes (count : nat) (n : Z) : list Z :=
  match count with
  | O => []
  | S c => n mod 256 :: le_bytes c (n / 256)
  end.

Fixpoint le_word (bytes : list Z) : Z :=
  match bytes with
  | [] => 0
  | b :: rest => b + 256 * le_word rest
  end.

Definition pad (msg : list Z) : list Z :=
  let len := Z.of_nat (length msg) in
  msg ++ [128] ++ repeat 0 (Z.to_nat ((55 - len) mod 64)) ++ le_bytes 8 (8 * len).

(** The sixteen message words of a 64-byte block. *)
Fixpoint words (count : nat) (block : list Z) : list Z :=
  match count with
  | O => []
  | S c => le_word (firstn 4 block) :: words c (skipn 4 block)
  end.

Definition step (M : list Z) (st : Z * Z * Z * Z) (i : nat) : Z * Z * Z * Z :=
  let '(A, B, C, D) := st in
  let iz := Z.of_nat i in
  let '(F, g) :=
    if iz <? 16 then (Z.lor (Z.land B C) (Z.land (not32 B) D), iz)
    else if iz <? 32 then (Z.lor (Z.land D B) (Z.land (not32 D) C), (5 * iz + 1) mod 16)
    else if iz <? 48 then (Z.lxor (Z.lxor B C) D, (3 * iz + 5) mod 16)
    else (Z.lxor C (Z.lor B (not32 D)), (7 * iz) mod 16) in
  let F := mask32 (F + A + nth i K 0 + nth (Z.to_nat g) M 0) in
  (D, mask32 (B + rotl32 F (nth i shifts 0)), B, C).

Definition compress (h : Z * Z * Z * Z) (block : list Z) : Z * Z * Z * Z :=
  let '(a0, b0, c0, d0) := h in
  let '(A, B, C, D) := fold_left (step (words 16 block)) (seq 0 64) h in
  (mask32 (a0 + A), mask32 (b0 + B), mask32 (c0 + C), mask32 (d0 + D)).

Fixpoint blocks (count : nat) (h : Z * Z * Z * Z) (data : list Z) : Z * Z * Z * Z :=
  match count with
  | O => h
  | S c => blocks c (compress h (firstn 64 data)) (skipn 64 data)
  end.

Definition digest (msg : list Z) : list Z :=
  let data := pad msg in
  let '(a, b, c, d) :=
    blocks (length data / 64) (1732584193, 4023233417, 2562383102, 271733878) data in
  le_bytes 4 a ++ le_bytes 4 b ++ le_bytes 4 c ++ le_bytes 4 d.

Definition hex_digit (n : Z) : ascii :=
  nth (Z.to_nat n) (list_ascii_of_string "0123456789abcdef") "0"%char.

Fixpoint hex_of_bytes (bytes : list Z) : string :=
  match bytes with
  | [] => EmptyString
  | b :: rest => String (hex_digit (b / 16)) (String (hex_digit (b mod 16)) (hex_of_bytes rest))
  end.

Definition hexdigest (msg : list Z) : string := hex_of_bytes (digest msg).

End MD5.

(** [s.encode()] for a string of ASCII characters. *)
Definition encode (s : string) : list Z :=
  map (fun c => Z.of_N (N_of_ascii c)) (list_ascii_of_string s).

(** [str(n)] for an int. *)
Definition py_str (n : Z) : string := NilZero.string_of_int (Z.to_int n).

(** [s[:n]] *)
Fixpoint str_prefix (n : nat) (s : string) : string :=
  match n, s with
  | S n', String c rest => String c (str_prefix n' rest)
  | _, _ => EmptyString
  end.

Definition hex_value (c : ascii) : option Z :=
  let n := Z.of_N (N_of_ascii c) in
  if (48 <=? n) && (n <=? 57) then Some (n - 48)
  else if (97 <=? n) && (n <=? 102) then Some (n - 87)
  else if (65 <=? n) && (n <=? 70) then Some (n - 55)
  else None.

(** [int(s, 16)] for a non-empty string of hexadecimal digits. *)
Fixpoint int_base16 (s : string) (acc : Z) : result Z :=
  match s with
  | EmptyString => Ok acc
  | String c rest =>
      match hex_value c with
      | Some d => int_base16 rest (16 * acc + d)
      | None => Raise ValueError
      end
  end.

(** ** NumPy's global [RandomState]: the MT19937 generator *)

Record rng_state := {
  key : list Z;
  pos : nat;
  has_gauss : bool;
  gauss : float
}.

Module MT19937.

Definition N : nat := 624.
Definition M : nat := 397.
Definition MATRIX_A : Z := 2567483615.
Definition UPPER_MASK : Z := 2147483648.
Definition LOWER_MASK : Z := 2147483647.

(** [mt19937_seed]: Knuth's generator fills the 624 words. *)
Fixpoint init_key (count : nat) (position : Z) (seed : Z) : list Z :=
  match count with
  | O => []
  | S c =>
      seed :: init_key c (position + 1)
                ((1812433253 * Z.lxor seed (Z.shiftr seed 30) + position + 1) mod 2 ^ 32)
  end.

Definition seed_state (seed : Z) : rng_state :=
  {| key := init_key N 0 (Z.land seed 4294967295);
     pos := N; has_gauss := false; gauss := F64.zero |}.

(** One assignment [key[i] = key[src] ^ (y >> 1) ^ (-(y & 1) & MATRIX_A)]. *)
Definition twist (k : list Z) (i next src : nat) : list Z :=
  let y := Z.lor (Z.land (nth i k 0) UPPER_MASK) (Z.land (nth next k 0) LOWER_MASK) in
  <[ i := Z.lxor (Z.lxor (nth src k 0) (Z.shiftr y 1)) (if Z.odd y then MATRIX_A else 0) ]> k.

(** [mt19937_gen]: the three loops that regenerate the words in place. *)
Definition gen (k : list Z) : list Z :=
  let k := fold_left (fun k i => twist k i (i + 1) (i + M)) (seq 0 (N - M)) k in
  let k := fold_left (fun k i => twist k i (i + 1) (i + M - N)) (seq (N - M) (M - 1)) k in
  twist k (N - 1) 0 (M - 1).

Definition temper (y : Z) : Z :=
  let y := Z.lxor y (Z.shiftr y 11) in
  let y := Z.lxor y (Z.land (Z.shiftl y 7) 2636928640) in
  let y := Z.lxor y (Z.land (Z.shiftl y 15) 4022730752) in
  Z.lxor y (Z.shiftr y 18).

(** [mt19937_next]: the next 32-bit output. *)
Definition next (st : rng_state) : Z * rng_state :=
  let '(k, p) := if (N <=? pos st)%nat then (gen (key st), O) else (key st, pos st) in
  (temper (nth p k 0),
   {| key := k; pos := S p; has_gauss := has_gauss st; gauss := gauss st |}).

(** [mt19937_next_double]: 53 random bits as a float in [0, 1). *)
Definition next_double (st : rng_state) : float * rng_state :=
  let '(a, st) := next st in
  let '(b, st) := next st in
  let a := Z.shiftr a 5 in
  let b := Z.shiftr b 6 in
  (F64.div (F64.add (F64.mul (F64.of_Z a) (F64.of_Z 67108864)) (F64.of_Z b))
           (F64.of_Z 9007199254740992), st).

End MT19937.

(** [np.random.uniform(low, high)]: [low + (high - low) * next_double]. *)
Definition random_uniform (low high : float) (st : rng_state) : float * rng_state :=
  let range := F64.sub high low in
  let '(u, st) := MT19937.next_double st in
  (F64.add low (F64.mul range u), st).

(** ** Arithmetic on feature values *)

Definition signbit (x : float) : bool :=
  match x with
  | S754_zero s | S754_infinity s | S754_finite s _ _ => s
  | S754_nan => false
  end.

(** [vx % wx] on floats ([float_rem]): C's [fmod], then the sign of the divisor. *)
Definition float_rem (vx wx : float) : result float :=
  if F64.eqb wx F64.zero then Raise ZeroDivisionError
  else
    let m := F64.fmod vx wx in
    if float_ne_0 m
    then if xorb (F64.ltb wx F64.zero) (F64.ltb m F64.zero)
         then Ok (F64.add m wx) else Ok m
    else Ok (S754_zero (signbit wx)).

Definition py_add (a b : pynum) : result pynum :=
  match a, b with
  | NInt x, NInt y => Ok (NInt (x + y))
  | NInt x, NFloat y => fx ← float_of_int x; Ok (NFloat (F64.add fx y))
  | NFloat x, NInt y => fy ← float_of_int y; Ok (NFloat (F64.add x fy))
  | NFloat x, NFloat y => Ok (NFloat (F64.add x y))
  | NInt x, NComplex | NComplex, NInt x => _ ← float_of_int x; Ok NComplex
  | _, _ => Ok NComplex
  end.

Definition py_sub (a b : pynum) : result pynum :=
  match a, b with
  | NInt x, NInt y => Ok (NInt (x - y))
  | NInt x, NFloat y => fx ← float_of_int x; Ok (NFloat (F64.sub fx y))
  | NFloat x, NInt y => fy ← float_of_int y; Ok (NFloat (F64.sub x fy))
  | NFloat x, NFloat y => Ok (NFloat (F64.sub x y))
  | NInt x, NComplex | NComplex, NInt x => _ ← float_of_int x; Ok NComplex
  | _, _ => Ok NComplex
  end.

(** [a % n] for a non-zero int [n]. *)
Definition py_mod (a : pynum) (n : Z) : result pynum :=
  match a with
  | NInt x => if n =? 0 then Raise ZeroDivisionError else Ok (NInt (x mod n))
  | NFloat x => fn ← float_of_int n; r ← float_rem x fn; Ok (NFloat r)
  | NComplex => Raise TypeError
  end.

(** [int(a)] *)
Definition py_int (a : pynum) : result Z :=
  match a with
  | NInt x => Ok x
  | NFloat x => int_of_float x
  | NComplex => Raise TypeError
  end.

(** [sum(features)] *)
Fixpoint py_sum (xs : list pynum) (total : pynum) : result pynum :=
  match xs with
  | [] => Ok total
  | x :: rest => total ← py_add total x; py_sum rest total
  end.

(** The truth value of an optional list: neither [None] nor empty. *)
Definition truthy (features : option (list pynum)) : bool :=
  match features with
  | Some (_ :: _) => true
  | _ => false
  end.

(** [max(lo, min(hi, x))] *)
Definition clamp (lo hi x : Z) : Z := Z.max lo (Z.min hi x).

(** ** Stateful code: a state and exception monad *)

Definition py (S A : Type) : Type := S -> result A * S.

#[global] Instance py_ret {S} : MRet (py S) := fun _ a s => (Ok a, s).
#[global] Instance py_bind {S} : MBind (py S) := fun _ _ f m s =>
  match m s with
  | (Ok a, s') => f a s'
  | (Raise e, s') => (Raise e, s')
  end.

(** A pure computation, its exception included. *)
Definition lift {S A} (r : result A) : py S A := fun s => (r, s).

Definition get {S} : py S S := fun s => (Ok s, s).
Definition put {S} (s : S) : py S unit := fun _ => (Ok tt, s).

(** [try: body / except Exception: handler]; what the body did to the state
    before it raised stays done. *)
Definition try_catch {S A} (body : py S A) (handler : exn -> py S A) : py S A := fun s =>
  match body s with
  | (Ok a, s') => (Ok a, s')
  | (Raise e, s') => handler e s'
  end.

(** ** The confidence predictor ([AIInferenceService]) *)

(** What the service takes from its libraries: ONNX Runtime's sessions, the
    file system, and NumPy's Gaussian sampler (which draws from, and advances,
    the global generator). *)
Class Runtime := {
  onnx_session : Type;
  InferenceSession : string -> result onnx_session;
  (** [session.run(None, {name: input})[0][0]], or the exception on the way to it *)
  session_run : onnx_session -> list pynum -> result float;
  (** whether NumPy keeps that output's product with an int in float32
      (an array entry, or a scalar under NumPy 2) or widens it to float64 *)
  float32_output : bool;
  path_exists : string -> bool;
  random_normal : float -> float -> rng_state -> float * rng_state
}.

Section Predictor.
Context `{Runtime}.

Record AIInferenceService := {
  session : option onnx_session;
  model_path : string;
  model_loaded : bool;
  prediction_cache : gmap Z Z
}.

(** The service object together with NumPy's global generator. *)
Record world := {
  self : AIInferenceService;
  np_random : rng_state
}.

(** [__init__], with [AI_MODEL_PATH] resolved to [path]. *)
Definition __init__ (path : string) : AIInferenceService :=
  match try_except
          (if path_exists path
           then s ← InferenceSession path; Ok (Some s, true)
           else Ok (None, false))
          (fun _ => Ok (None, false)) with
  | Ok (s, loaded) =>
      {| session := s; model_path := path; model_loaded := loaded; prediction_cache := ∅ |}
  | Raise _ =>
      {| session := None; model_path := path; model_loaded := false; prediction_cache := ∅ |}
  end.

(** [np.random.seed(seed)] *)
Definition random_seed (seed : Z) : py rng_state unit :=
  if (seed <? 0) || (4294967295 <? seed) then lift (Raise ValueError)
  else put (MT19937.seed_state seed).

(** [int(hashlib.md5(str(market_id).encode()).hexdigest()[:8], 16)] *)
Definition market_seed (market_id : Z) : result Z :=
  int_base16 (str_prefix 8 (MD5.hexdigest (encode (py_str market_id)))) 0.

(** The heuristic of [_fallback_prediction], from the branch on the features
    to the final clamp. *)
Definition heuristic_confidence (features : option (list pynum)) : py rng_state Z :=
  confidence ←
    (if truthy features
     then
       feature_sum ← lift (py_sum (default [] features) (NInt 0));
       base_confidence ← lift (r ← py_mod feature_sum 30;
                               t ← py_add (NInt 50) r;
                               py_sub t (NInt 15));
       noise ← (fun rng => let '(x, rng) := random_normal F64.zero (F64.of_Z 10) rng in
                           (Ok x, rng));
       lift (t ← py_add base_confidence (NFloat noise); py_int t)
     else
       u ← (fun rng => let '(x, rng) := random_uniform (F64.of_Z 40) (F64.of_Z 80) rng in
                       (Ok x, rng));
       lift (int_of_float u));
  mret (clamp 5 95 confidence).

Definition _fallback_prediction (market_id : Z) (features : option (list pynum))
    : py rng_state Z :=
  seed ← lift (market_seed market_id);
  _ ← random_seed (seed mod 2 ^ 32);
  heuristic_confidence features.

(** [result[0][0] * 100] *)
Definition times_100 (raw : float) : float :=
  if float32_output
  then SFmul 24 128 raw (binary_normalize 24 128 100 0 false)
  else F64.mul raw (F64.of_Z 100).

Definition _run_onnx_inference (self : AIInferenceService) (features : list pynum) : Z :=
  match try_except
          (s ← match session self with Some s => Ok s | None => Raise AttributeError end;
           raw ← session_run s features;
           confidence ← int_of_float (times_100 raw);
           Ok (clamp 0 100 confidence))
          (fun _ => Ok 50) with
  | Ok confidence => confidence
  | Raise _ => 50
  end.

(** Run an action on the global generator inside the world. *)
Definition on_rng {A} (m : py rng_state A) : py world A := fun w =>
  let '(r, rng) := m (np_random w) in
  (r, {| self := self w; np_random := rng |}).

(** [self.prediction_cache[market_id] = confidence] *)
Definition cache_store (market_id confidence : Z) : py world unit := fun w =>
  let s := self w in
  (Ok tt,
   {| self := {| session := session s; model_path := model_path s;
                 model_loaded := model_loaded s;
                 prediction_cache := <[ market_id := confidence ]> (prediction_cache s) |};
      np_random := np_random w |}).

Definition uses_model (s : AIInferenceService) (features : option (list pynum)) : bool :=
  model_loaded s && bool_decide (is_Some (session s)) && truthy features.

Definition predict (market_id : Z) (features : option (list pynum)) : py world Z :=
  w ← get;
  match prediction_cache (self w) !! market_id with
  | Some cached => mret cached
  | None =>
      try_catch
        (confidence ←
           (if uses_model (self w) features
            then mret (_run_onnx_inference (self w) (default [] features))
            else on_rng (_fallback_prediction market_id features));
         _ ← cache_store market_id confidence;
         mret confidence)
        (fun _ => mret 50)
  end.

Definition update_model (path : string) : py world bool := fun w =>
  match InferenceSession path with
  | Ok new_session =>
      (Ok true,
       {| self := {| session := Some new_session; model_path := path;
                     model_loaded := true; prediction_cache := ∅ |};
          np_random := np_random w |})
  | Raise _ => (Ok false, w)
  end.

End Predictor.

(** ** The oracle cache ([OracleService]) *)

(** [value[key]] for a string key. *)
Definition subscript (value : pyval) (key : string) : result pyval :=
  match value with
  | PyDict d =>
      match dict_get d key with
      | Some v => Ok v
      | None => Raise KeyError
      end
  | _ => Raise TypeError
  end.

(** [value.get(key, fallback)] *)
Definition get_default (value : pyval) (key : string) (fallback : pyval) : result pyval :=
  match value with
  | PyDict d => Ok (default fallback (dict_get d key))
  | _ => Raise AttributeError
  end.

(** [requests.get(url, params=params, timeout=5).json()]: the decoded
    document, or the exception of the transport or of the decoder. *)
Definition network : Type := string -> list (string * string) -> result pyval.

Record OracleService := {
  cache : dict;
  cache_ttl : Z;
  last_update : option Z;
  use_fallback : bool
}.

(** The endpoint table of [__init__]: the configured assets of each category. *)
Definition oracles : list (string * list (string * string)) :=
  [("forex", [("USD_EUR", "https://api.qie.digital/oracle/forex/usd-eur");
              ("JPY_GBP", "https://api.qie.digital/oracle/forex/jpy-gbp")]);
   ("commodities", [("GOLD", "https://api.qie.digital/oracle/commodities/gold");
                    ("OIL", "https://api.qie.digital/oracle/commodities/oil")]);
   ("crypto", [("BTC", "https://api.qie.digital/oracle/crypto/btc");
               ("ETH", "https://api.qie.digital/oracle/crypto/eth");
               ("SOL", "https://api.qie.digital/oracle/crypto/sol")])].

Definition mock_prices : dict :=
  [("USD_EUR", PyFloat (F64.dec 92 2));
   ("JPY_GBP", PyFloat (F64.dec 56 4));
   ("GOLD", PyFloat (F64.dec 204530 2));
   ("OIL", PyFloat (F64.dec 7350 2));
   ("bitcoin", PyFloat (F64.dec 4325000 2));
   ("ethereum", PyFloat (F64.dec 228050 2));
   ("solana", PyFloat (F64.dec 9875 2))].

Definition _get_mock_price (asset : string) : pyval :=
  default (PyFloat (F64.dec 1000 1)) (dict_get mock_prices asset).

Definition forex_url (base : string) : string :=
  ("https://api.exchangerate-api.com/v4/latest/" ++ base)%string.

Definition _fetch_forex_price (net : network) (self : OracleService) (base quote : string)
    : result pyval :=
  let pair := (base ++ "_" ++ quote)%string in
  if use_fallback self
  then try_except
         (data ← net (forex_url base) [];
          rates ← subscript data "rates";
          get_default rates quote (PyFloat F64.zero))
         (fun _ => Ok (_get_mock_price pair))
  else Ok (_get_mock_price pair).

Definition commodity_mock_prices : dict :=
  [("GOLD", PyFloat (F64.dec 204530 2)); ("OIL", PyFloat (F64.dec 7350 2))].

Definition _fetch_commodity_price (self : OracleService) (commodity : string) : result pyval :=
  if use_fallback self
  then Ok (default (PyFloat F64.zero) (dict_get commodity_mock_prices commodity))
  else Ok (_get_mock_price commodity).

Definition coingecko_url : string := "https://api.coingecko.com/api/v3/simple/price".

Definition _fetch_crypto_price (net : network) (self : OracleService) (crypto_id : string)
    : result pyval :=
  if use_fallback self
  then try_except
         (data ← net coingecko_url [("ids", crypto_id); ("vs_currencies", "usd")];
          quote ← get_default data crypto_id (PyDict []);
          get_default quote "usd" (PyFloat F64.zero))
         (fun _ => Ok (_get_mock_price crypto_id))
  else Ok (_get_mock_price crypto_id).

(** [prices[category][key] = value], the value computed first. *)
Definition assign (category key : string) (value : result pyval) : py dict unit :=
  v ← lift value;
  prices ← get;
  inner ← lift (subscript (PyDict prices) category);
  match inner with
  | PyDict d => put (dict_set prices category (PyDict (dict_set d key v)))
  | _ => lift (Raise TypeError)
  end.

(** The body of the [try] block up to the cache update. *)
Definition fetch_each (net : network) (self : OracleService) : py dict unit :=
  _ ← assign "forex" "USD_EUR" (_fetch_forex_price net self "USD" "EUR");
  _ ← assign "forex" "JPY_GBP" (_fetch_forex_price net self "JPY" "GBP");
  _ ← assign "commodities" "GOLD" (_fetch_commodity_price self "GOLD");
  _ ← assign "commodities" "OIL" (_fetch_commodity_price self "OIL");
  _ ← assign "crypto" "BTC" (_fetch_crypto_price net self "bitcoin");
  _ ← assign "crypto" "ETH" (_fetch_crypto_price net self "ethereum");
  assign "crypto" "SOL" (_fetch_crypto_price net self "solana").

(** [fetch_all_prices]; [stamp] is [datetime.now().isoformat()] and [now] the
    clock reading stored as [last_update]. *)
Definition fetch_all_prices (net : network) (stamp : string) (now : Z)
    : py OracleService dict := fun self =>
  let prices : dict :=
    [("forex", PyDict []); ("commodities", PyDict []); ("crypto", PyDict []);
     ("timestamp", PyStr stamp)] in
  match fetch_each net self prices with
  | (Ok _, prices) =>
      (Ok prices,
       {| cache := prices; cache_ttl := cache_ttl self; last_update := Some now;
          use_fallback := use_fallback self |})
  | (Raise _, prices) =>
      match cache self with
      | _ :: _ => (Ok (cache self), self)
      | [] => (Ok prices, self)
      end
  end.

(** The upstream answer a configured asset's price is read from;
    commodities have no upstream. *)
Definition upstream (net : network) (key : string) : option (result pyval) :=
  if String.eqb key "USD_EUR" then Some (net (forex_url "USD") [])
  else if String.eqb key "JPY_GBP" then Some (net (forex_url "JPY") [])
  else if String.eqb key "BTC"
  then Some (net coingecko_url [("ids", "bitcoin"); ("vs_currencies", "usd")])
  else if String.eqb key "ETH"
  then Some (net coingecko_url [("ids", "ethereum"); ("vs_currencies", "usd")])
  else if String.eqb key "SOL"
  then Some (net coingecko_url [("ids", "solana"); ("vs_currencies", "usd")])
  else None.

(** The static price a configured asset falls back to: the entry of
    [_get_mock_price] under the name its fetcher is called with. *)
Definition static_default (key : string) : pyval :=
  if String.eqb key "BTC" then _get_mock_price "bitcoin"
  else if String.eqb key "ETH" then _get_mock_price "ethereum"
  else if String.eqb key "SOL" then _get_mock_price "solana"
  else _get_mock_price key.

(** ** Histories of the predictor *)

Section Histories.
Context `{Runtime}.

(** A call on the service from outside. *)
Inductive call :=
| Predict (market_id : Z) (features : option (list pynum))
| UpdateModel (path : string).

Definition step (w : world) (c : call) : world :=
  match c with
  | Predict market_id features => snd (predict market_id features w)
  | UpdateModel path => snd (update_model path w)
  end.

(** The world after [__init__] and a sequence of calls. *)
Definition run (path : string) (rng : rng_state) (calls : list call) : world :=
  fold_left step calls {| self := __init__ path; np_random := rng |}.

(** Every cached confidence lies in [0, 100]. *)
Definition cache_bounded (w : world) : Prop :=
  forall market_id c, prediction_cache (self w) !! market_id = Some c -> 0 <= c <= 100.

(** The call is answered by the fallback backend: the cache misses and the
    model is not used. *)
Definition uses_fallback (w : world) (market_id : Z) (features : option (list pynum))
    : bool :=
  match prediction_cache (self w) !! market_id with
  | Some _ => false
  | None => negb (uses_model (self w) features)
  end.

(** The call misses the cache and its fallback raises. *)
Definition computation_fails (w : world) (market_id : Z) (features : option (list pynum))
    : bool :=
  match prediction_cache (self w) !! market_id with
  | Some _ => false
  | None =>
      if uses_model (self w) features then false
      else match fst (_fallback_prediction market_id features (np_random w)) with
           | Ok _ => false
           | Raise _ => true
           end
  end.

End Histories.

(** ** The conversion the specification words: [round(raw * 100)], clamped *)

(** [round(x)] for a float: to the nearest integer, ties to the even one. *)
Definition py_round (x : float) : result Z :=
  match x with
  | S754_nan => Raise ValueError
  | S754_infinity _ => Raise OverflowError
  | S754_zero _ => Ok 0
  | S754_finite s m e =>
      if 0 <=? e then Ok (cond_Zopp s (Z.pos m * 2 ^ e))
      else
        let d := 2 ^ (- e) in
        let q := Z.pos m / d in
        let r := Z.pos m mod d in
        let up := match 2 * r ?= d with
                  | Lt => false
                  | Gt => true
                  | Eq => Z.odd q
                  end in
        Ok (cond_Zopp s (if up then q + 1 else q))
  end.

Definition rounded_confidence `{Runtime} (raw : float) : result Z :=
  c ← py_round (times_100 raw); Ok (clamp 0 100 c).

(** ** Concrete inputs *)

(** The snapshot of the specification's example, in its key order. *)
Definition example_snapshot : dict :=
  [("crypto", PyDict [("BTC", PyFloat (F64.dec 432500 1));
                      ("ETH", PyFloat (F64.dec 22805 1));
                      ("SOL", PyFloat (F64.dec 9875 2))]);
   ("forex", PyDict [("USD_EUR", PyFloat (F64.dec 92 2))]);
   ("commodities", PyDict [])].

Definition example_window : list float :=
  [F64.dec 92 2; F64.dec 432500 1; F64.dec 22805 1; F64.dec 9875 2;
   F64.zero; F64.zero; F64.zero].

(** The snapshot of a refresh with every source unreachable: seven prices. *)
Definition default_snapshot : dict :=
  [("forex", PyDict [("USD_EUR", PyFloat (F64.dec 92 2));
                     ("JPY_GBP", PyFloat (F64.dec 56 4))]);
   ("commodities", PyDict [("GOLD", PyFloat (F64.dec 204530 2));
                           ("OIL", PyFloat (F64.dec 7350 2))]);
   ("crypto", PyDict [("BTC", PyFloat (F64.dec 4325000 2));
                      ("ETH", PyFloat (F64.dec 228050 2));
                      ("SOL", PyFloat (F64.dec 9875 2))]);
   ("timestamp", PyStr "2024-01-01T00:00:00")].

(** Three numeric values (an int, a float and a bool) among values that are
    not numbers. *)
Definition mixed_snapshot : dict :=
  [("crypto", PyDict [("BTC", PyInt 67000); ("ETH", PyStr "n/a"); ("SOL", PyNone)]);
   ("forex", PyDict [("USD_EUR", PyFloat (F64.dec 92 2)); ("JPY_GBP", PyBool true)])].

(** Nine numeric values: the last two fall outside the window. *)
Definition long_snapshot : dict :=
  [("forex", PyDict [("A", PyInt 1); ("B", PyInt 2); ("C", PyInt 3); ("D", PyInt 4)]);
   ("crypto", PyDict [("E", PyInt 5); ("F", PyInt 6); ("G", PyInt 7); ("H", PyInt 8);
                      ("I", PyInt 9)])].

(** One forex quote of [1e200]. *)
Definition huge_snapshot : dict :=
  [("forex", PyDict [("USD_EUR", PyFloat (F64.of_Z (10 ^ 200)))])].

(** A host without ONNX Runtime: no session can be created.  The Gaussian
    sampler returns its location and leaves the generator alone. *)
Definition no_onnx : Runtime :=
  {| onnx_session := Empty_set;
     InferenceSession := fun _ => Raise ImportError;
     session_run := fun s _ => match s with end;
     float32_output := false;
     path_exists := fun _ => false;
     random_normal := fun loc _ rng => (loc, rng) |}.

(** A host whose every model answers [raw] to every input. *)
Definition constant_model (raw : float) (single : bool) : Runtime :=
  {| onnx_session := unit;
     InferenceSession := fun _ => Ok tt;
     session_run := fun _ _ => Ok raw;
     float32_output := single;
     path_exists := fun _ => true;
     random_normal := fun loc _ rng => (loc, rng) |}.

(** All upstream sources unreachable. *)
Definition unreachable : network := fun _ _ => Raise RequestException.

Definition fresh_oracle : OracleService :=
  {| cache := []; cache_ttl := 60; last_update := None; use_fallback := true |}.

(** The positive double [x] is the one Python prints as the decimal
    [d / 10^k]: its exact value lies within half a unit of the last decimal
    place of [d / 10^k], in integer arithmetic. *)
Definition reads_as (x : float) (d : Z) (k : nat) : bool :=
  match x with
  | S754_finite false m e =>
      let scale := 10 ^ Z.of_nat k in
      if 0 <=? e
      then 2 * Z.abs (Z.pos m * 2 ^ e * scale - d) <=? 1
      else 2 * Z.abs (Z.pos m * scale - d * 2 ^ (- e)) <=? 2 ^ (- e)
  | _ => false
  end.

(** The builder's output on the example snapshot. *)
Definition example_features : list pynum :=
  Eval vm_compute in
    match prepare_features example_snapshot [] with
    | Ok features => features
    | Raise _ => []
    end.

(** ** The oracle cache, continued: cached reads and lookups *)

Module Oracle.

(** [OracleService.__init__], with [ORACLE_CACHE_TTL] resolved to [ttl]:
    nothing cached, no refresh recorded. *)
Definition __init__ (ttl : Z) : OracleService :=
  {| cache := []; cache_ttl := ttl; last_update := None; use_fallback := true |}.

End Oracle.

(** [delta.total_seconds()] for a difference of [d] microseconds: the
    quotient [d / 10**6] of two ints, rounded to the nearest float. *)
Definition total_seconds (d : Z) : float :=
  match d with
  | 0 => F64.zero
  | _ => F64.div (S754_finite (d <? 0) (Z.to_pos (Z.abs d)) 0) (F64.of_Z 1000000)
  end.

(** [x > n] for a float and an int, which Python compares exactly. *)
Definition float_gt_int (x : float) (n : Z) : bool :=
  match x with
  | S754_nan => false
  | S754_infinity s => negb s
  | S754_zero _ => n <? 0
  | S754_finite s m e =>
      if 0 <=? e then n <? cond_Zopp s (Z.pos m * 2 ^ e)
      else n * 2 ^ (- e) <? cond_Zopp s (Z.pos m)
  end.

(** The staleness test of [get_cached_prices]: a refresh is on record and
    lies more than [cache_ttl] seconds before [now]. *)
Definition is_stale (now : Z) (self : OracleService) : bool :=
  match last_update self with
  | Some updated => float_gt_int (total_seconds (now - updated)) (cache_ttl self)
  | None => false
  end.

(** [get_cached_prices]; [now] is the clock reading of the staleness test,
    [stamp] and [refreshed] the two readings of a refresh. *)
Definition get_cached_prices (net : network) (now : Z) (stamp : string) (refreshed : Z)
    : py OracleService dict := fun self =>
  if is_stale now self then fetch_all_prices net stamp refreshed self
  else match cache self with
       | _ :: _ => (Ok (cache self), self)
       | [] => fetch_all_prices net stamp refreshed self
       end.

(** [needle in s] for two strings. *)
Fixpoint is_substring (needle s : string) : bool :=
  String.prefix needle s ||
  match s with
  | EmptyString => false
  | String _ rest => is_substring needle rest
  end.

(** [name in value] for a string [name]. *)
Definition contains (value : pyval) (name : string) : result bool :=
  match value with
  | PyDict d => Ok (bool_decide (is_Some (dict_get d name)))
  | PyList l =>
      Ok (existsb (fun v => match v with PyStr s => String.eqb s name | _ => false end) l)
  | PyStr s => Ok (is_substring name s)
  | PyNone | PyBool _ | PyInt _ | PyFloat _ => Raise TypeError
  end.

(** The search loop of [get_consensus_price]. *)
Fixpoint search_categories (prices : dict) (cats : list string) (oracle_name : string)
    : result pyval :=
  match cats with
  | [] => Ok PyNone
  | category :: rest =>
      found ← contains (default (PyDict []) (dict_get prices category)) oracle_name;
      if found : bool
      then inner ← subscript (PyDict prices) category; subscript inner oracle_name
      else search_categories prices rest oracle_name
  end.

Definition get_consensus_price (net : network) (now : Z) (stamp : string) (refreshed : Z)
    (oracle_name : string) : py OracleService pyval :=
  prices ← get_cached_prices net now stamp refreshed;
  lift (search_categories prices categories oracle_name).

(** *** Histories of the oracle cache *)

Inductive oracle_call :=
| FetchAllPrices (net : network) (stamp : string) (now : Z)
| GetCachedPrices (net : network) (now : Z) (stamp : string) (refreshed : Z)
| GetConsensusPrice (net : network) (now : Z) (stamp : string) (refreshed : Z)
    (oracle_name : string).

Definition oracle_step (self : OracleService) (c : oracle_call) : OracleService :=
  match c with
  | FetchAllPrices net stamp now => snd (fetch_all_prices net stamp now self)
  | GetCachedPrices net now stamp refreshed =>
      snd (get_cached_prices net now stamp refreshed self)
  | GetConsensusPrice net now stamp refreshed oracle_name =>
      snd (get_consensus_price net now stamp refreshed oracle_name self)
  end.

(** The service after [__init__] and a sequence of calls. *)
Definition oracle_run (ttl : Z) (calls : list oracle_call) : OracleService :=
  fold_left oracle_step calls (Oracle.__init__ ttl).

(** The keys of a snapshot: of each entry its key and, for a mapping, the
    keys inside, in order. *)
Definition layout (prices : dict) : list (string * option (list string)) :=
  map (fun kv => (fst kv, match snd kv with
                          | PyDict d => Some (map fst d)
                          | _ => None
                          end)) prices.

(** The keys of the endpoint table, and the timestamp. *)
Definition full_layout : list (string * option (list string)) :=
  map (fun entry => (fst entry, Some (map fst (snd entry)))) oracles
  ++ [("timestamp", None)].

(** A complete snapshot: the three categories with exactly their configured
    assets, and a timestamp that is a string. *)
Definition complete (prices : dict) : bool :=
  bool_decide (layout prices = full_layout) &&
  match dict_get prices "timestamp" with
  | Some (PyStr _) => true
  | _ => false
  end.

(** What holds of the service at every point of a history: before the first
    refresh nothing is cached, and afterwards the cache is a complete
    snapshot. *)
Definition settled (self : OracleService) : Prop :=
  match last_update self with
  | None => cache self = []
  | Some _ => complete (cache self) = true
  end.

(** The category a configured asset is listed under. *)
Definition category_of (oracle_name : string) : option string :=
  fst <$> find (fun entry => existsb (fun asset => String.eqb (fst asset) oracle_name)
                                     (snd entry)) oracles.

(** ** The indicators of a price series ([OracleService.calculate_technical_indicators]) *)

Definition calculate_technical_indicators (prices : list float)
    : result (list (string * pynum)) :=
  if (length prices <? 14)%nat then Ok []
  else
    sma_7 ← float_div (float_sum (firstn 7 prices)) (F64.of_Z 7);
    sma_14 ← float_div (float_sum (firstn 14 prices)) (F64.of_Z 14);
    first ← py_index prices 0;
    seventh ← py_index prices 6;
    let momentum := F64.sub first seventh in
    mean ← float_div (float_sum (firstn 7 prices)) (F64.of_Z 7);
    squares ← sum_squares (firstn 7 prices) mean F64.zero;
    variance ← float_div squares (F64.of_Z 7);
    let volatility := float_pow_half variance in
    let trend := if float_gt first seventh then 1 else -1 in
    Ok [("sma_7", NFloat sma_7); ("sma_14", NFloat sma_14);
        ("momentum", NFloat momentum); ("volatility", volatility);
        ("trend", NInt trend)].

(** [indicators[name]] *)
Fixpoint indicator (indicators : list (string * pynum)) (name : string) : option pynum :=
  match indicators with
  | [] => None
  | (k, v) :: rest => if String.eqb k name then Some v else indicator rest name
  end.

(** ** The predictor's report ([AIInferenceService.get_model_info]) *)

Definition get_model_info `{Runtime} (self : AIInferenceService) : dict :=
  [("loaded", PyBool (model_loaded self));
   ("path", PyStr (model_path self));
   ("type", PyStr (if model_loaded self then "ONNX" else "Fallback"));
   ("cache_size", PyInt (Z.of_nat (size (prediction_cache self))))].

(** The session is held exactly when the flag is set. *)
Definition flag_agrees `{Runtime} (s : AIInferenceService) : Prop :=
  model_loaded s = bool_decide (is_Some (session s)).

(** ** The feature window, in closed form *)

(** [float(value)] where it does not overflow. *)
Definition as_float (value : pyval) : float :=
  match value with
  | PyFloat x => x
  | PyInt n => F64.of_Z n
  | PyBool true => F64.one
  | _ => F64.zero
  end.

(** The numeric values of a category, in the order of its mapping; none for
    a category that is absent or not a mapping. *)
Definition numeric_values (oracle_prices : dict) (category : string) : list float :=
  match dict_get oracle_prices category with
  | Some (PyDict items) =>
      map as_float (List.filter isinstance_int_float (map snd items))
  | _ => []
  end.

(** The first seven numeric values, forex first, then commodities, then
    crypto, with zeros after them when they are fewer. *)
Definition window_of (oracle_prices : dict) : list float :=
  pad_window (concat (map (numeric_values oracle_prices) categories)).

(** The world after a sequence of [predict] calls, each a market identifier
    with the features passed, if any. *)
Definition predict_all `{Runtime} (queries : list (Z * option (list pynum))) (w : world)
    : world :=
  fold_left (fun w q => snd (predict (fst q) (snd q) w)) queries w.

(** What one [predict] call adds to the number of cached markets. *)
Definition cache_growth `{Runtime} (w : world) (market_id : Z)
    (features : option (list pynum)) : nat :=
  match prediction_cache (self w) !! market_id with
  | Some _ => O
  | None => if computation_fails w market_id features then O else 1%nat
  end.

(** A word of the generator: 32 bits. *)
Definition word32 (x : Z) : Prop := 0 <= x < 2 ^ 32.

(** An upstream that answers every request with an object that lists no
    price. *)
Definition empty_rates : network := fun _ _ => Ok (PyDict [("rates", PyDict [])]).

(** ** Request bodies *)

(** The truth value of a decoded document: [None], [False], zero and the
    empty string, list and object are false. *)
Definition truth (v : pyval) : bool :=
  match v with
  | PyNone => false
  | PyBool b => b
  | PyInt n => negb (n =? 0)
  | PyFloat x => float_ne_0 x
  | PyStr s => negb (String.eqb s EmptyString)
  | PyList l => match l with [] => false | _ :: _ => true end
  | PyDict d => match d with [] => false | _ :: _ => true end
  end.

(** The loop [for field in required_fields: if field not in data: return]:
    the first field that is not in the body, if any. *)
Fixpoint first_missing (data : pyval) (fields : list string) : result (option string) :=
  match fields with
  | [] => Ok None
  | field :: rest =>
      found ← contains data field;
      if found : bool then first_missing data rest else Ok (Some field)
  end.

(** The object has the key. *)
Definition has_key (d : dict) (name : string) : bool :=
  bool_decide (is_Some (dict_get d name)).

(** ** The HTTP routes ([routes/predictions.py], [routes/oracles.py],
    [routes/markets.py]) *)

Module Routes.
Section Globals.
Context `{Runtime}.

(** [str(e)] for a caught exception. *)
Variable message : exn -> string.

(** The services the route modules hold, each [None] or an object, and
    NumPy's global generator. *)
Record services := {
  ai_service : option AIInferenceService;
  oracle_service : option OracleService;
  generator : rng_state
}.

(** A response: the body handed to [jsonify] and the status code. *)
Definition response : Type := pyval * Z.

Definition error (text : string) (status : Z) : response :=
  (PyDict [("error", PyStr text)], status).

(** [not service] *)
Definition absent {A} (service : option A) : bool :=
  match service with
  | Some _ => false
  | None => true
  end.

(** A method call on [oracle_service]. *)
Definition on_oracle {A} (m : py OracleService A) : py services A := fun s =>
  match oracle_service s with
  | Some o =>
      let '(r, o) := m o in
      (r, {| ai_service := ai_service s; oracle_service := Some o;
             generator := generator s |})
  | None => (Raise AttributeError, s)
  end.

(** A method call on [ai_service]. *)
Definition on_ai {A} (m : py world A) : py services A := fun s =>
  match ai_service s with
  | Some a =>
      let '(r, w) := m {| self := a; np_random := generator s |} in
      (r, {| ai_service := Some (self w); oracle_service := oracle_service s;
             generator := np_random w |})
  | None => (Raise AttributeError, s)
  end.

(** [GET /api/ai/predict/<market_id>]; [chain] is
    [blockchain_service.get_market] when that service is there. *)
Definition get_ai_prediction (net : network) (now : Z) (stamp : string) (refreshed : Z)
    (chain : option (Z -> result pyval)) (market_id : Z) : py services response :=
  try_catch
    (s ← get;
     if absent (ai_service s) || absent (oracle_service s)
     then mret (error "AI service not available" 503)
     else
       oracle_prices ← on_oracle (get_cached_prices net now stamp refreshed);
       market_data ← lift (match chain with
                           | Some get_market => get_market market_id
                           | None => Ok (PyDict [])
                           end);
       features ← lift (prepare_features oracle_prices
                          (match market_data with PyDict d => d | _ => [] end));
       confidence ← on_ai (predict market_id (Some features));
       mret (PyDict [("confidence", PyInt confidence);
                     ("reasoning",
                      PyStr ("Based on " ++ py_str (Z.of_nat (length features))
                             ++ " features from 7 oracles")%string);
                     ("last_updated",
                      default PyNone (dict_get oracle_prices "timestamp"))],
             200))
    (fun e => mret (error (message e) 500)).

(** [GET /api/oracles/prices] *)
Definition get_oracle_prices (net : network) (now : Z) (stamp : string) (refreshed : Z)
    : py services response :=
  try_catch
    (s ← get;
     if absent (oracle_service s)
     then mret (error "Oracle service not available" 503)
     else
       prices ← on_oracle (get_cached_prices net now stamp refreshed);
       mret (PyDict prices, 200))
    (fun e => mret (error (message e) 500)).

(** [POST /api/markets]; [body] is [request.get_json()], the decoded
    document or the exception raised on the way to it. *)
Definition create_market (body : result pyval) : response :=
  match
    (data ← body;
     missing ← (if negb (truth data) then Ok true
                else found ← contains data "question"; Ok (negb found));
     if missing : bool then Ok (error "Missing required field: question" 400)
     else
       found ← contains data "deadline";
       if negb found then Ok (error "Missing required field: deadline" 400)
       else
         found ← contains data "oracle_address";
         if negb found then Ok (error "Missing required field: oracle_address" 400)
         else Ok (PyDict [("success", PyBool true);
                          ("message", PyStr "Market creation requires wallet signature");
                          ("market_id", PyNone);
                          ("tx_hash", PyNone)], 200))
  with
  | Ok r => r
  | Raise e => error (message e) 500
  end.

(** [POST /api/markets/<market_id>/stake] *)
Definition stake_on_market (market_id : Z) (body : result pyval) : response :=
  match
    (data ← body;
     missing ← first_missing data ["address"; "choice"; "amount"];
     match missing with
     | Some field => Ok (error ("Missing required field: " ++ field)%string 400)
     | None => Ok (PyDict [("success", PyBool true);
                           ("message", PyStr "Stake requires wallet signature");
                           ("tx_hash", PyNone)], 200)
     end)
  with
  | Ok r => r
  | Raise e => error (message e) 500
  end.

End Globals.
End Routes.

(** ** The value of a float, as a multiple of [2^-2200] *)

(** [x] is zero or positive and finite, of value [t * 2^-2200]. *)
Definition has_ticks (x : float) (t : Z) : Prop :=
  match x with
  | S754_zero _ => t = 0
  | S754_finite false m e => -1074 <= e /\ t = Z.pos m * 2 ^ (e + 2200)
  | _ => False
  end.

(** ** Proof automation *)

(** Decide the comparisons of two string literals in the goal. *)
Ltac decide_literals :=
  repeat match goal with
         | |- context [String.eqb ?a ?b] =>
             let v := eval vm_compute in (String.eqb a b) in
             match v with
             | true => change (String.eqb a b) with true
             | false => change (String.eqb a b) with false
             end
         end.

(** * Properties *)

(** ** The feature builder *)

Lemma pad_window_length (oracle_values : list float) :
  length (pad_window oracle_values) = 7%nat.
Proof.
  unfold pad_window.
  rewrite length_firstn, length_app, repeat_length. lia.
Qed.

Lemma seven_nonzero (x : float) :
  float_div x (F64.of_Z 7) = Ok (F64.div x (F64.of_Z 7)).
Proof. reflexivity. Qed.

(** On a window of seven values the indicator list has this shape. *)
Lemma technical_indicators_shape (w : list float) (indicators : list pynum) :
  length w = 7%nat ->
  technical_indicators w = Ok indicators ->
  exists first last hi lo average momentum volatility ups downs,
    py_index w 0 = Ok first /\ py_index w (-1) = Ok last /\
    py_max w = Ok hi /\ py_min w = Ok lo /\
    indicators =
      [NFloat average; NFloat momentum; volatility; NFloat hi; NFloat lo;
       NFloat first; NFloat last; NInt ups; NInt downs;
       NFloat (if F64.eqb last F64.zero then F64.one else F64.div first last);
       NFloat (if F64.eqb hi F64.zero then F64.zero else F64.div (F64.sub hi lo) hi);
       NFloat F64.zero; NFloat F64.zero; NFloat F64.zero].
Proof.
  intros Hlen Hind.
  destruct w as [|a [|b [|c [|d [|e [|f [|g [|? ?]]]]]]]]; try discriminate Hlen.
  unfold technical_indicators in Hind.
  change (F64.of_Z (Z.of_nat (length [a; b; c; d; e; f; g]))) with (F64.of_Z 7) in Hind.
  rewrite !seven_nonzero in Hind.
  change (py_index [a; b; c; d; e; f; g] 0) with (Ok a) in *.
  change (py_index [a; b; c; d; e; f; g] (-1)) with (Ok g) in *.
  cbn [mbind result_bind] in Hind.
  destruct (sum_squares _ _ _) as [squares|err]; [|discriminate Hind].
  cbn [mbind result_bind] in Hind. rewrite seven_nonzero in Hind.
  cbn [mbind result_bind py_max py_min] in Hind.
  set (hi := fold_left _ _ a) in Hind.
  set (lo := fold_left _ _ a) in Hind.
  unfold price_ratio, price_range, float_ne_0, float_div in Hind.
  exists a, g, hi, lo.
  destruct (F64.eqb g F64.zero), (F64.eqb hi F64.zero);
    cbn [negb mbind result_bind] in Hind; inversion Hind; subst indicators;
    do 5 eexists; repeat split; reflexivity.
Qed.

(** The builder's result, whenever it returns one, has exactly 21 entries. *)
Lemma prepare_features_length (oracle_prices market_data : dict) (features : list pynum) :
  prepare_features oracle_prices market_data = Ok features ->
  length features = 21%nat.
Proof.
  unfold prepare_features. intros Hf.
  destruct (extract_oracle_values _ _ _) as [values|err]; [|discriminate Hf].
  cbn [mbind result_bind] in Hf.
  pose proof (pad_window_length values) as Hlen.
  rewrite Hlen in Hf. cbn [Nat.leb] in Hf.
  destruct (technical_indicators _) as [indicators|err] eqn:Hind; [|discriminate Hf].
  cbn [mbind result_bind] in Hf. inversion Hf; subst features.
  destruct (technical_indicators_shape _ _ Hlen Hind)
    as (? & ? & ? & ? & ? & ? & ? & ? & ? & _ & _ & _ & _ & ->).
  rewrite length_firstn, length_app, length_map, Hlen. reflexivity.
Qed.

(** C10. On the example snapshot the window is
    0.92, 43250.0, 2280.5, 98.75, 0.0, 0.0, 0.0, these are the first seven
    slots, and the remaining fourteen are the indicators of that zero-padded
    window, each by its value: mean 6518.595714285714, momentum 0.92,
    volatility 15015.840693151691 (the double 8255045721476158 * 2^-39),
    maximum 43250.0, minimum 0.0, first 0.92, last 0.0, three decreasing and
    one increasing adjacent pair, ratio 1.0 (the last value is zero),
    range 1.0, and three zeros. *)
Theorem example_feature_vector (market_data : dict) :
  let mean := F64.dec 6518595714285714 12 in
  let volatility := S754_finite false 8255045721476158 (-39) in
  let indicators :=
    [NFloat mean; NFloat (F64.dec 92 2); NFloat volatility;
     NFloat (F64.dec 432500 1); NFloat F64.zero;
     NFloat (F64.dec 92 2); NFloat F64.zero;
     NInt 3; NInt 1; NFloat F64.one; NFloat F64.one;
     NFloat F64.zero; NFloat F64.zero; NFloat F64.zero] in
  prepare_features example_snapshot market_data
    = Ok (map NFloat
            [F64.dec 92 2; F64.dec 432500 1; F64.dec 22805 1; F64.dec 9875 2;
             F64.zero; F64.zero; F64.zero] ++ indicators) /\
  window_of example_snapshot = example_window /\
  technical_indicators example_window = Ok indicators /\
  reads_as mean 6518595714285714 12 = true /\
  reads_as volatility 15015840693151691 12 = true.
Proof.
  cbv zeta. repeat split; vm_compute; reflexivity.
Qed.

(** C9, at a snapshot with no price and at the example with four: the branch
    that would zero the indicators is never taken, because the length test
    follows the padding.  With no price at all slot 16 is 1.0, and with four
    prices slot 7 holds the mean of the padded window, which is not zero. *)
Theorem indicators_of_short_snapshots (market_data : dict) :
  prepare_features [] market_data =
    Ok (repeat (NFloat F64.zero) 14 ++
        [NInt 0; NInt 0; NFloat F64.one;
         NFloat F64.zero; NFloat F64.zero; NFloat F64.zero; NFloat F64.zero]) /\
  exists features mean,
    prepare_features example_snapshot market_data = Ok features /\
    nth 7 features NComplex = NFloat mean /\ F64.ltb F64.zero mean = true.
Proof.
  split; [vm_compute; reflexivity|].
  do 2 eexists. split; [vm_compute; reflexivity|].
  split; vm_compute; reflexivity.
Qed.

(** At a snapshot whose one price is 1e200, squaring the deviation from the
    mean overflows, and the builder raises instead of returning. *)
Lemma huge_price_overflows (market_data : dict) :
  prepare_features huge_snapshot market_data = Raise OverflowError.
Proof. vm_compute. reflexivity. Qed.

(** C1, as stated, fails twice: on the empty snapshot positions 14 and 15 of
    the vector hold the int 0, not a float, and on a snapshot whose one price
    is 1e200 no vector is returned. *)
Lemma feature_vector_counterexample :
  (exists features,
     prepare_features [] [] = Ok features /\
     nth 14 features NComplex = NInt 0 /\ nth 15 features NComplex = NInt 0) /\
  prepare_features huge_snapshot [] = Raise OverflowError.
Proof.
  split; [eexists; split; [vm_compute; reflexivity|split; reflexivity]|].
  vm_compute. reflexivity.
Qed.

(** The builder returns 21 entries on snapshots with none, three, four, seven
    and nine numeric values; of nine, the first seven fill the window. *)
Lemma prepare_features_examples :
  Forall (fun oracle_prices =>
            exists features,
              prepare_features oracle_prices [] = Ok features /\
              length features = 21%nat)
         [[]; mixed_snapshot; example_snapshot; default_snapshot; long_snapshot] /\
  (exists rest,
     prepare_features mixed_snapshot [] =
       Ok (map NFloat [F64.dec 92 2; F64.one; F64.of_Z 67000;
                       F64.zero; F64.zero; F64.zero; F64.zero] ++ rest)) /\
  (exists rest,
     prepare_features long_snapshot [] =
       Ok (map (fun n => NFloat (F64.of_Z n)) [1; 2; 3; 4; 5; 6; 7] ++ rest)).
Proof.
  split; [|split].
  - repeat constructor; eexists; (split; [vm_compute; reflexivity|reflexivity]).
  - eexists. vm_compute. reflexivity.
  - eexists. vm_compute. reflexivity.
Qed.

(** *** Signs: the variance is never negative *)

Lemma binary_round_aux_sign (sx : bool) (mx ex : Z) (lx : location) :
  let r := binary_round_aux F64.prec F64.emax sx mx ex lx in
  r = S754_nan \/ signbit r = sx.
Proof.
  unfold binary_round_aux.
  destruct (shr_fexp _ _ _ _ _) as [mrs e'].
  destruct (shr_fexp _ _ _ _ _) as [mrs' e''].
  destruct (shr_m mrs'); [right; reflexivity | | left; reflexivity].
  destruct (e'' <=? F64.emax - F64.prec); right; reflexivity.
Qed.

Lemma nonneg_round (mx ex : Z) (lx : location) :
  F64.nonneg (binary_round_aux F64.prec F64.emax false mx ex lx) = true.
Proof.
  destruct (binary_round_aux_sign false mx ex lx) as [E|E].
  - rewrite E. reflexivity.
  - destruct (binary_round_aux _ _ _ _ _ _); cbn in *; subst; reflexivity.
Qed.

Lemma nonneg_add (x y : float) :
  F64.nonneg x = true -> F64.nonneg y = true -> F64.nonneg (F64.add x y) = true.
Proof.
  destruct x as [[]|[]| |[] mx ex], y as [[]|[]| |[] my ey];
    try discriminate; try reflexivity; intros _ _.
  unfold F64.add, SFadd, cond_Zopp, binary_normalize.
  destruct (shl_align mx _ _) as [ax ?], (shl_align my _ _) as [ay ?].
  cbn [fst]. change (Z.pos ax + Z.pos ay) with (Z.pos (ax + ay)).
  cbv iota. unfold binary_round.
  destruct (shl_align _ _ _) as [mz ez].
  apply nonneg_round.
Qed.

Lemma nonneg_pow_2 (x y : float) : float_pow_2 x = Ok y -> F64.nonneg y = true.
Proof.
  destruct x as [s|s| |s m e]; unfold float_pow_2;
    try (intros [= <-]; reflexivity).
  destruct (F64.eqb _ F64.one); [intros [= <-]; reflexivity|].
  destruct (F64.is_inf _) eqn:E; [discriminate|]. intros [= <-].
  unfold F64.mul, SFmul, SFabs. cbn [xorb]. apply nonneg_round.
Qed.

Lemma nonneg_sum_squares (xs : list float) (mean total squares : float) :
  F64.nonneg total = true ->
  sum_squares xs mean total = Ok squares ->
  F64.nonneg squares = true.
Proof.
  revert total. induction xs as [|x xs IH]; intros total Htotal; cbn.
  - intros [= <-]. exact Htotal.
  - destruct (float_pow_2 _) as [sq|err] eqn:Hsq; [|discriminate].
    cbn. apply IH, nonneg_add; [exact Htotal|]. exact (nonneg_pow_2 _ _ Hsq).
Qed.

Lemma nonneg_div_7 (x : float) :
  F64.nonneg x = true -> F64.nonneg (F64.div x (F64.of_Z 7)) = true.
Proof.
  destruct x as [[]|[]| |[] m e]; try discriminate; try reflexivity; intros _.
  change (F64.of_Z 7) with (S754_finite false 7881299347898368 (-50)).
  unfold F64.div, SFdiv.
  destruct (SFdiv_core_binary _ _ _ _ _ _) as [[mz ez] lz].
  cbn [xorb]. apply nonneg_round.
Qed.

Lemma pow_half_real (x : float) :
  F64.nonneg x = true -> exists v, float_pow_half x = NFloat v.
Proof.
  destruct x as [s|s| |[] m e]; try discriminate; intros _; cbn; eauto.
  destruct (F64.eqb _ _); eauto.
Qed.

(** The volatility slot is a float: the complex branch of [**] is never taken. *)
Lemma volatility_real (w : list float) (indicators : list pynum) :
  length w = 7%nat ->
  technical_indicators w = Ok indicators ->
  exists v, nth 2 indicators NComplex = NFloat v.
Proof.
  intros Hlen Hind.
  unfold technical_indicators in Hind.
  rewrite Hlen in Hind. change (F64.of_Z (Z.of_nat 7)) with (F64.of_Z 7) in Hind.
  rewrite !seven_nonzero in Hind. cbn [mbind result_bind] in Hind.
  destruct (py_index w 0) as [first|]; [|discriminate Hind].
  cbn [mbind result_bind] in Hind.
  destruct (py_index w (-1)) as [last|]; [|discriminate Hind].
  cbn [mbind result_bind] in Hind.
  destruct (sum_squares _ _ _) as [squares|] eqn:Hsq; [|discriminate Hind].
  cbn [mbind result_bind] in Hind. rewrite seven_nonzero in Hind.
  cbn [mbind result_bind] in Hind.
  destruct (pow_half_real (F64.div squares (F64.of_Z 7))) as [v Hv].
  { apply nonneg_div_7. exact (nonneg_sum_squares _ _ F64.zero _ eq_refl Hsq). }
  rewrite Hv in Hind.
  destruct (py_max w); [|discriminate Hind]. cbn [mbind result_bind] in Hind.
  destruct (py_min w); [|discriminate Hind]. cbn [mbind result_bind] in Hind.
  destruct (price_ratio _ _); [|discriminate Hind]. cbn [mbind result_bind] in Hind.
  destruct (price_range _ _); [|discriminate Hind]. cbn [mbind result_bind] in Hind.
  inversion Hind. exists v. reflexivity.
Qed.

Lemma technical_indicators_real (w : list float) (indicators : list pynum) :
  length w = 7%nat ->
  technical_indicators w = Ok indicators ->
  Forall (fun a => a <> NComplex) indicators.
Proof.
  intros Hlen Hind.
  destruct (volatility_real _ _ Hlen Hind) as [v Hv].
  destruct (technical_indicators_shape _ _ Hlen Hind)
    as (? & ? & ? & ? & ? & ? & vol & ? & ? & _ & _ & _ & _ & ->).
  cbn in Hv. subst vol.
  repeat constructor; discriminate.
Qed.

(** The builder returns ints and floats only. *)
Lemma prepare_features_real (oracle_prices market_data : dict) (features : list pynum) :
  prepare_features oracle_prices market_data = Ok features ->
  Forall (fun a => a <> NComplex) features.
Proof.
  unfold prepare_features. intros Hf.
  destruct (extract_oracle_values _ _ _) as [values|err]; [|discriminate Hf].
  cbn [mbind result_bind] in Hf.
  pose proof (pad_window_length values) as Hlen.
  rewrite Hlen in Hf. cbn [Nat.leb] in Hf.
  destruct (technical_indicators _) as [indicators|err] eqn:Hind; [|discriminate Hf].
  cbn [mbind result_bind] in Hf. inversion Hf; subst features.
  apply Forall_take, Forall_app. split.
  - apply Forall_map, Forall_forall. intros; discriminate.
  - exact (technical_indicators_real _ _ Hlen Hind).
Qed.

(** *** The only ways the builder fails *)

Lemma append_numeric_raises (items : dict) (acc : list float) (e : exn) :
  append_numeric items acc = Raise e -> e = OverflowError.
Proof.
  revert acc. induction items as [|[k v] items IH]; intros acc; cbn; [discriminate|].
  destruct v as [|b|n|x|s|l|d]; cbn; try apply IH.
  unfold float_of_int. destruct (F64.is_inf _); cbn; [congruence|apply IH].
Qed.

Lemma extract_oracle_values_raises (oracle_prices : dict) (cats : list string)
    (acc : list float) (e : exn) :
  extract_oracle_values oracle_prices cats acc = Raise e ->
  e = OverflowError \/ e = AttributeError.
Proof.
  revert acc. induction cats as [|c cats IH]; intros acc; cbn; [discriminate|].
  unfold category_items.
  destruct (dict_get oracle_prices c) as [[| | | | | |d]|]; cbn;
    try (intros [= <-]; right; reflexivity).
  - destruct (append_numeric d acc) as [acc'|e'] eqn:E; cbn; [apply IH|].
    intros [= <-]. left. exact (append_numeric_raises _ _ _ E).
  - apply IH.
Qed.

Lemma sum_squares_raises (xs : list float) (mean total : float) (e : exn) :
  sum_squares xs mean total = Raise e -> e = OverflowError.
Proof.
  revert total. induction xs as [|x xs IH]; intros total; cbn; [discriminate|].
  destruct (float_pow_2 (F64.sub x mean)) as [sq|e'] eqn:E; cbn; [apply IH|].
  intros [= <-]. revert E. unfold float_pow_2.
  destruct (F64.sub x mean); try discriminate.
  destruct (F64.eqb _ _); [discriminate|].
  destruct (F64.is_inf _); [congruence|discriminate].
Qed.

(** The builder either returns a vector or raises: [OverflowError] for a
    price or a squared deviation out of the float range, [AttributeError] for
    a category that is not a mapping. *)
Lemma prepare_features_raises (oracle_prices market_data : dict) (e : exn) :
  prepare_features oracle_prices market_data = Raise e ->
  e = OverflowError \/ e = AttributeError.
Proof.
  unfold prepare_features.
  destruct (extract_oracle_values _ _ _) as [values|e'] eqn:E; cbn [mbind result_bind].
  2:{ intros [= <-]. exact (extract_oracle_values_raises _ _ _ _ E). }
  pose proof (pad_window_length values) as Hlen.
  rewrite Hlen. cbn [Nat.leb].
  destruct (pad_window values) as [|a [|b [|c [|d [|x [|f [|g [|? ?]]]]]]]];
    try discriminate Hlen.
  unfold technical_indicators.
  change (F64.of_Z (Z.of_nat (length [a; b; c; d; x; f; g]))) with (F64.of_Z 7).
  rewrite !seven_nonzero.
  change (py_index [a; b; c; d; x; f; g] 0) with (Ok a).
  change (py_index [a; b; c; d; x; f; g] (-1)) with (Ok g).
  cbn [mbind result_bind].
  destruct (sum_squares _ _ _) as [squares|e'] eqn:Hsq; cbn [mbind result_bind].
  2:{ intros [= <-]. left. exact (sum_squares_raises _ _ _ _ Hsq). }
  rewrite seven_nonzero. cbn [mbind result_bind py_max py_min].
  unfold price_ratio, price_range, float_ne_0, float_div.
  destruct (F64.eqb g F64.zero), (F64.eqb (fold_left _ _ a) F64.zero);
    cbn [negb mbind result_bind]; discriminate.
Qed.

(** *** Totality within range

    Rounding moves a result's exponent by at most one, so the exponents of
    the sum, the mean, the deviations and their squares stay below the
    overflow threshold when the prices start moderate. *)

(** The digit count of a mantissa and what it bounds. *)
Lemma digits2_log2 (p : positive) : Z.pos (digits2_pos p) = Z.log2 (Z.pos p) + 1.
Proof.
  assert (forall q, digits2_pos q = Pos.size q) as Hsize.
  { induction q; cbn; congruence. }
  destruct p; cbn [digits2_pos Z.log2]; rewrite ?Hsize; lia.
Qed.

Lemma Zdigits2_bound (m k : Z) : 0 <= m < 2 ^ k -> 0 <= k -> 0 <= Zdigits2 m <= k.
Proof.
  intros [Hm Hlt] Hk. destruct m as [|p|p]; cbn [Zdigits2]; [lia| |lia].
  rewrite digits2_log2.
  pose proof (Z.log2_nonneg (Z.pos p)).
  assert (Z.log2 (Z.pos p) < k) by (apply Z.log2_lt_pow2; lia).
  lia.
Qed.

Lemma Zdigits2_lt (m : Z) : 0 <= m -> m < 2 ^ Zdigits2 m.
Proof.
  intros Hm. destruct m as [|p|p]; cbn [Zdigits2]; [reflexivity| |lia].
  rewrite digits2_log2.
  pose proof (Z.log2_spec (Z.pos p) eq_refl) as [_ H]. exact H.
Qed.

(** Shifting a mantissa right by [n] places divides it by [2^n]. *)
Lemma shr_1_m (mrs : shr_record) : 0 <= shr_m mrs -> shr_m (shr_1 mrs) = shr_m mrs / 2.
Proof.
  destruct mrs as [m r s]. cbn [shr_m]. intros Hm.
  destruct m as [|[p|p|]|p]; cbn [shr_1 shr_m]; try reflexivity; try lia.
  - apply Z.div_unique with 1; lia.
  - apply Z.div_unique with 0; lia.
Qed.

Lemma iter_shr_m (p : positive) (mrs : shr_record) :
  0 <= shr_m mrs -> shr_m (SpecFloat.iter_pos shr_1 p mrs) = shr_m mrs / 2 ^ Z.pos p.
Proof.
  assert (forall q, 0 < 2 ^ Z.pos q) as Hpow by (intros; apply Z.pow_pos_nonneg; lia).
  assert (forall m q, 0 <= m -> 0 <= m / 2 ^ Z.pos q) as Hdiv
    by (intros; apply Z.div_pos; [lia|apply Hpow]).
  revert mrs. induction p as [p IH|p IH|]; intros mrs Hm; cbn [SpecFloat.iter_pos].
  - assert (0 <= shr_m (shr_1 mrs)) as H1 by (rewrite shr_1_m by lia; apply Z.div_pos; lia).
    rewrite IH by (rewrite IH by lia; apply Hdiv; lia).
    rewrite IH, shr_1_m by lia.
    rewrite !Z.div_div by (try apply Hpow; lia).
    f_equal.
    replace (Z.pos p~1) with (1 + Z.pos p + Z.pos p) by lia.
    rewrite !Z.pow_add_r by lia. lia.
  - rewrite IH by (rewrite IH by lia; apply Hdiv; lia).
    rewrite IH by lia.
    rewrite !Z.div_div by (try apply Hpow; lia).
    f_equal.
    replace (Z.pos p~0) with (Z.pos p + Z.pos p) by lia.
    rewrite !Z.pow_add_r by lia. lia.
  - rewrite shr_1_m by lia. reflexivity.
Qed.

(** The exponent a mantissa is shifted to, and the mantissa left. *)
Lemma shr_fexp_spec (m e : Z) (l : location) (mrs : shr_record) (e' : Z) :
  0 <= m ->
  shr_fexp 53 1024 m e l = (mrs, e') ->
  e' = Z.max e (Z.max (Zdigits2 m + e - 53) (-1074)) /\ shr_m mrs = m / 2 ^ (e' - e).
Proof.
  intros Hm. unfold shr_fexp, shr.
  assert (shr_m (shr_record_of_loc m l) = m) as Hrec by (destruct l as [|[]]; reflexivity).
  change (fexp 53 1024 (Zdigits2 m + e)) with (Z.max (Zdigits2 m + e - 53) (-1074)).
  destruct (Z.max (Zdigits2 m + e - 53) (-1074) - e) as [|p|p] eqn:Hn; intros [= <- <-].
  - split; [lia|]. replace (e - e) with 0 by lia.
    rewrite Hrec. symmetry. apply Z.div_1_r.
  - split; [lia|]. replace (e + Z.pos p - e) with (Z.pos p) by lia.
    rewrite iter_shr_m by lia. rewrite Hrec. reflexivity.
  - split; [lia|]. replace (e - e) with 0 by lia.
    rewrite Hrec. symmetry. apply Z.div_1_r.
Qed.

Lemma div_pow_small (m d n : Z) :
  0 <= m < 2 ^ d -> 0 <= n -> 0 <= d -> d <= 53 + n -> 0 <= m / 2 ^ n < 2 ^ 53.
Proof.
  intros [Hm Hlt] Hn Hd Hdn.
  assert (0 < 2 ^ n) by (apply Z.pow_pos_nonneg; lia).
  split; [apply Z.div_pos; lia|].
  apply Z.div_lt_upper_bound; [lia|].
  rewrite <- Z.pow_add_r by lia.
  apply Z.lt_le_trans with (2 ^ d); [exact Hlt|].
  apply Z.pow_le_mono_r; lia.
Qed.

Lemma round_nearest_even_bound (m : Z) (l : location) :
  m <= round_nearest_even m l <= m + 1.
Proof. destruct l as [|[]]; cbn; try destruct (Z.even m); lia. Qed.

(** Rounding a mantissa whose exponent, also once brought to 53 bits, is
    at most [B] gives zero or a finite float of exponent at most [B + 1]. *)
Lemma round_moderate (B : Z) (sx : bool) (mx ex : Z) (lx : location) :
  0 <= mx -> ex <= B -> Zdigits2 mx + ex - 53 <= B -> -1074 <= B -> B + 1 <= 971 ->
  moderate (B + 1) (binary_round_aux 53 1024 sx mx ex lx) = true.
Proof.
  intros Hmx Hex Hd Hlo Hhi. unfold binary_round_aux.
  destruct (shr_fexp 53 1024 mx ex lx) as [mrs1 e1] eqn:H1.
  apply shr_fexp_spec in H1 as [He1 Hm1]; [|exact Hmx].
  pose proof (Zdigits2_lt mx Hmx) as Hlt.
  assert (0 <= Zdigits2 mx) as Hdig by (destruct mx; cbn; lia).
  assert (0 <= shr_m mrs1 < 2 ^ 53) as Hb1.
  { rewrite Hm1. apply (div_pow_small mx (Zdigits2 mx)); lia. }
  pose proof (round_nearest_even_bound (shr_m mrs1) (loc_of_shr_record mrs1)) as Hr.
  set (m2 := round_nearest_even _ _) in *.
  destruct (shr_fexp 53 1024 m2 e1 loc_Exact) as [mrs2 e2] eqn:H2.
  apply shr_fexp_spec in H2 as [He2 Hm2]; [|lia].
  assert (0 <= Zdigits2 m2 <= 54) as Hd2.
  { apply Zdigits2_bound; [|lia]. change (2 ^ 54) with (2 * 2 ^ 53). lia. }
  assert (0 <= shr_m mrs2 < 2 ^ 53) as Hb2.
  { rewrite Hm2. apply (div_pow_small m2 (Zdigits2 m2)); try lia.
    split; [lia|]. apply Zdigits2_lt. lia. }
  destruct (shr_m mrs2) as [|p|p] eqn:Hp; [reflexivity| |lia].
  replace (e2 <=? 1024 - 53) with true by (symmetry; apply Z.leb_le; lia).
  cbn [moderate]. apply andb_true_intro. split; apply Z.leb_le; [|lia].
  apply (Zdigits2_bound (Z.pos p) 53); lia.
Qed.

Lemma moderate_mono (E E' : Z) (x : float) :
  E <= E' -> moderate E x = true -> moderate E' x = true.
Proof.
  intros HE. destruct x as [s|s| |s m e]; cbn; try easy.
  intros [Hd He]%andb_prop. apply andb_true_intro. split; [exact Hd|].
  apply Z.leb_le. apply Z.leb_le in He. lia.
Qed.

Lemma moderate_finite (E : Z) (s : bool) (m : positive) (e : Z) :
  moderate E (S754_finite s m e) = true -> Z.pos m < 2 ^ 53 /\ e <= E.
Proof.
  cbn. intros [Hd He]%andb_prop. apply Z.leb_le in Hd, He. split; [|exact He].
  pose proof (Zdigits2_lt (Z.pos m) ltac:(lia)) as Hlt. cbn [Zdigits2] in Hlt.
  eapply Z.lt_le_trans; [exact Hlt|]. apply Z.pow_le_mono_r; lia.
Qed.

(** The product, the sum, the difference and the seventh of moderate floats
    are moderate, for exponents a little higher. *)
Lemma mul_moderate (E1 E2 : Z) (x y : float) :
  moderate E1 x = true -> moderate E2 y = true ->
  -1074 <= E1 + E2 + 53 -> E1 + E2 + 54 <= 971 ->
  moderate (E1 + E2 + 54) (F64.mul x y) = true.
Proof.
  intros Hx Hy Hlo Hhi.
  destruct x as [sx|sx| |sx mx ex], y as [sy|sy| |sy my ey];
    try discriminate; try reflexivity.
  apply moderate_finite in Hx as [Hmx Hex], Hy as [Hmy Hey].
  unfold F64.mul, SFmul.
  replace (E1 + E2 + 54) with (E1 + E2 + 53 + 1) by lia.
  apply round_moderate; try lia.
  assert (0 <= Zdigits2 (Z.pos (mx * my)) <= 106); [|lia].
  apply Zdigits2_bound; [|lia]. rewrite Pos2Z.inj_mul.
  change (2 ^ 106) with (2 ^ 53 * 2 ^ 53). split; [lia|].
  apply Z.mul_lt_mono_nonneg; lia.
Qed.

Lemma shl_align_spec (mx : positive) (ex ex' : Z) :
  let '(m, e) := shl_align mx ex ex' in
  e = Z.min ex ex' /\ Z.pos m = Z.pos mx * 2 ^ (ex - e).
Proof.
  unfold shl_align. destruct (ex' - ex) as [|d|d] eqn:Hd.
  - split; [lia|]. replace (ex - ex) with 0 by lia. lia.
  - split; [lia|]. replace (ex - ex) with 0 by lia. lia.
  - split; [lia|]. replace (ex - ex') with (Z.pos d) by lia.
    clear Hd. induction d as [|d IH] using Pos.peano_ind.
    + cbn. lia.
    + rewrite Pos.iter_succ, Pos2Z.inj_xO, IH, Pos2Z.inj_succ, Z.pow_succ_r by lia. lia.
Qed.

Lemma normalize_moderate (B m e : Z) (szero : bool) :
  e <= B -> Z.abs m < 2 ^ (B + 53 - e) -> -1074 <= B -> B + 1 <= 971 ->
  moderate (B + 1) (binary_normalize 53 1024 m e szero) = true.
Proof.
  intros He Hm Hlo Hhi.
  assert (forall sx p, Z.pos p < 2 ^ (B + 53 - e) ->
                       moderate (B + 1) (binary_round 53 1024 sx p e) = true) as Hround.
  { intros sx p Hp. unfold binary_round.
    pose proof (shl_align_spec p e (fexp 53 1024 (Z.pos (digits2_pos p) + e))) as Hal.
    destruct (shl_align _ _ _) as [mz ez]. destruct Hal as [Hez Hmz].
    apply round_moderate; try lia.
    assert (0 <= Zdigits2 (Z.pos mz) <= B + 53 - ez); [|lia].
    apply Zdigits2_bound; [|lia]. split; [lia|]. rewrite Hmz.
    replace (B + 53 - ez) with ((B + 53 - e) + (e - ez)) by lia.
    rewrite Z.pow_add_r by lia.
    apply Z.mul_lt_mono_pos_r; [apply Z.pow_pos_nonneg; lia|exact Hp]. }
  destruct m as [|p|p]; cbn [binary_normalize]; [reflexivity| |]; apply Hround; lia.
Qed.

Lemma aligned_sum_bound (E : Z) (mx my : positive) (ex ey : Z) (a b : Z) :
  Z.pos mx < 2 ^ 53 -> Z.pos my < 2 ^ 53 -> ex <= E -> ey <= E ->
  Z.abs a = Z.pos (shl_align mx ex (Z.min ex ey)).1 ->
  Z.abs b = Z.pos (shl_align my ey (Z.min ex ey)).1 ->
  Z.abs (a + b) < 2 ^ (E + 1 + 53 - Z.min ex ey).
Proof.
  intros Hmx Hmy Hex Hey Ha Hb.
  pose proof (shl_align_spec mx ex (Z.min ex ey)) as Hx.
  pose proof (shl_align_spec my ey (Z.min ex ey)) as Hy.
  destruct (shl_align mx _ _) as [ax ex'], (shl_align my _ _) as [ay ey'].
  destruct Hx as [-> Hax], Hy as [-> Hay]. cbn [fst] in Ha, Hb.
  replace (Z.min ex (Z.min ex ey)) with (Z.min ex ey) in Hax by lia.
  replace (Z.min ey (Z.min ex ey)) with (Z.min ex ey) in Hay by lia.
  set (ez := Z.min ex ey) in *.
  assert (Z.pos ax < 2 ^ (E + 53 - ez)) as Hbx.
  { rewrite Hax. replace (E + 53 - ez) with (53 + (E - ez)) by lia.
    rewrite Z.pow_add_r by lia.
    apply Z.lt_le_trans with (2 ^ 53 * 2 ^ (ex - ez)).
    - apply Z.mul_lt_mono_pos_r; [apply Z.pow_pos_nonneg; lia|exact Hmx].
    - apply Z.mul_le_mono_nonneg_l; [lia|]. apply Z.pow_le_mono_r; lia. }
  assert (Z.pos ay < 2 ^ (E + 53 - ez)) as Hby.
  { rewrite Hay. replace (E + 53 - ez) with (53 + (E - ez)) by lia.
    rewrite Z.pow_add_r by lia.
    apply Z.lt_le_trans with (2 ^ 53 * 2 ^ (ey - ez)).
    - apply Z.mul_lt_mono_pos_r; [apply Z.pow_pos_nonneg; lia|exact Hmy].
    - apply Z.mul_le_mono_nonneg_l; [lia|]. apply Z.pow_le_mono_r; lia. }
  replace (E + 1 + 53 - ez) with (1 + (E + 53 - ez)) by lia.
  rewrite Z.pow_add_r by lia. change (2 ^ 1) with 2. lia.
Qed.

Lemma abs_cond_Zopp (s : bool) (p : positive) : Z.abs (cond_Zopp s (Z.pos p)) = Z.pos p.
Proof. destruct s; reflexivity. Qed.

Lemma abs_opp_cond_Zopp (s : bool) (p : positive) :
  Z.abs (- cond_Zopp s (Z.pos p)) = Z.pos p.
Proof. destruct s; reflexivity. Qed.

Lemma add_moderate (E : Z) (x y : float) :
  moderate E x = true -> moderate E y = true -> -1074 <= E -> E + 2 <= 971 ->
  moderate (E + 2) (F64.add x y) = true.
Proof.
  intros Hx Hy Hlo Hhi.
  destruct x as [sx|sx| |sx mx ex], y as [sy|sy| |sy my ey]; try discriminate.
  - destruct sx, sy; reflexivity.
  - cbn [F64.add SFadd]. apply (moderate_mono E); [lia|exact Hy].
  - cbn [F64.add SFadd]. apply (moderate_mono E); [lia|exact Hx].
  - apply moderate_finite in Hx as [Hmx Hex], Hy as [Hmy Hey].
    unfold F64.add, SFadd.
    replace (E + 2) with (E + 1 + 1) by lia.
    apply normalize_moderate; try lia.
    apply (aligned_sum_bound E mx my ex ey); try assumption;
      apply abs_cond_Zopp.
Qed.

Lemma sub_moderate (E : Z) (x y : float) :
  moderate E x = true -> moderate E y = true -> -1074 <= E -> E + 2 <= 971 ->
  moderate (E + 2) (F64.sub x y) = true.
Proof.
  intros Hx Hy Hlo Hhi.
  destruct x as [sx|sx| |sx mx ex], y as [sy|sy| |sy my ey]; try discriminate.
  - destruct sx, sy; reflexivity.
  - cbn [F64.sub SFsub]. apply (moderate_mono E); [lia|exact Hy].
  - cbn [F64.sub SFsub]. apply (moderate_mono E); [lia|exact Hx].
  - apply moderate_finite in Hx as [Hmx Hex], Hy as [Hmy Hey].
    unfold F64.sub, SFsub.
    replace (E + 2) with (E + 1 + 1) by lia.
    apply normalize_moderate; try lia.
    rewrite <- Z.add_opp_r.
    apply (aligned_sum_bound E mx my ex ey); try assumption;
      [apply abs_cond_Zopp|apply abs_opp_cond_Zopp].
Qed.

Lemma div_core_7 (E : Z) (mx : positive) (ex : Z) :
  Z.pos mx < 2 ^ 53 -> ex <= E -> -1074 <= E ->
  let '(q, e', l) := SFdiv_core_binary 53 1024 (Z.pos mx) ex 7881299347898368 (-50) in
  0 <= q /\ e' <= E /\ Zdigits2 q + e' - 53 <= E.
Proof.
  intros Hmx Hex Hlo. unfold SFdiv_core_binary.
  change (Zdigits2 7881299347898368) with 53.
  change (fexp 53 1024 (Zdigits2 (Z.pos mx) + ex - (53 + -50)))
    with (Z.max (Zdigits2 (Z.pos mx) + ex - (53 + -50) - 53) (-1074)).
  pose proof (Zdigits2_lt (Z.pos mx) ltac:(lia)) as Hlt.
  assert (0 <= Zdigits2 (Z.pos mx) <= 53) as Hd by (apply Zdigits2_bound; lia).
  set (d1 := Zdigits2 (Z.pos mx)) in *.
  set (e' := Z.min _ _).
  assert (e' <= ex + 50) as He1 by (subst e'; lia).
  assert (e' <= E) as He2 by (subst e'; lia).
  set (s := ex - -50 - e').
  assert (0 <= s) as Hs by (subst s; lia).
  set (m' := match s with Z0 => Z.pos mx | Z.pos _ => Z.shiftl (Z.pos mx) s | Z.neg _ => 0 end).
  assert (m' = Z.pos mx * 2 ^ s) as Hm'.
  { subst m'. destruct s as [|p|p] eqn:Hsp; [lia| |lia].
    apply Z.shiftl_mul_pow2. lia. }
  assert (0 <= m' < 2 ^ (d1 + s)) as Hb.
  { rewrite Hm', Z.pow_add_r by lia.
    assert (0 < 2 ^ s) by (apply Z.pow_pos_nonneg; lia).
    split; [lia|]. apply Z.mul_lt_mono_pos_r; lia. }
  pose proof (Z_div_mod m' 7881299347898368 eq_refl) as Hdm.
  destruct (Z.div_eucl m' 7881299347898368) as [q r]. destruct Hdm as [Hq Hr].
  assert (0 <= q) as Hq0 by nia.
  split; [exact Hq0|]. split; [exact He2|].
  set (k := Z.max 0 (d1 + s - 52)).
  assert (q < 2 ^ k) as Hqk.
  { assert (2 ^ (d1 + s) <= 2 ^ 52 * 2 ^ k) as Hpow.
    { rewrite <- Z.pow_add_r by lia. apply Z.pow_le_mono_r; lia. }
    assert (0 < 2 ^ k) by (apply Z.pow_pos_nonneg; lia).
    change (2 ^ 52) with 4503599627370496 in Hpow. nia. }
  assert (0 <= Zdigits2 q <= k) by (apply Zdigits2_bound; lia).
  lia.
Qed.

Lemma div_7_moderate (E : Z) (x : float) :
  moderate E x = true -> -1074 <= E -> E + 1 <= 971 ->
  moderate (E + 1) (F64.div x (F64.of_Z 7)) = true.
Proof.
  intros Hx Hlo Hhi.
  change (F64.of_Z 7) with (S754_finite false 7881299347898368 (-50)).
  destruct x as [sx|sx| |sx mx ex]; try discriminate; [reflexivity|].
  apply moderate_finite in Hx as [Hmx Hex].
  unfold F64.div, SFdiv.
  pose proof (div_core_7 E mx ex Hmx Hex Hlo) as Hcore.
  destruct (SFdiv_core_binary _ _ _ _ _ _) as [[q e'] l].
  destruct Hcore as (Hq & He & Hd).
  apply round_moderate; lia.
Qed.

Lemma float_sum_moderate (E0 E : Z) (xs : list float) (acc : float) :
  Forall (fun x => moderate E0 x = true) xs -> moderate E acc = true ->
  E0 <= E -> -1074 <= E -> E + 2 * Z.of_nat (length xs) <= 971 ->
  moderate (E + 2 * Z.of_nat (length xs)) (fold_left F64.add xs acc) = true.
Proof.
  intros Hxs. revert E acc. induction Hxs as [|x xs Hx Hxs IH]; intros E acc Hacc HE Hlo Hhi.
  - cbn [fold_left length]. replace (E + 2 * Z.of_nat 0) with E by lia. exact Hacc.
  - cbn [fold_left length]. cbn [length] in Hhi.
    replace (E + 2 * Z.of_nat (S (length xs))) with (E + 2 + 2 * Z.of_nat (length xs)) by lia.
    apply IH; try lia.
    apply add_moderate; try lia; [exact Hacc|].
    apply (moderate_mono E0); [lia|exact Hx].
Qed.

(** Squaring a moderate float does not overflow. *)
Lemma pow_2_moderate (E : Z) (x : float) :
  moderate E x = true -> -1074 <= 2 * E + 53 -> 2 * E + 54 <= 971 ->
  exists y, float_pow_2 x = Ok y.
Proof.
  intros Hx Hlo Hhi. destruct x as [s|s| |s m e]; try discriminate; cbn [float_pow_2]; eauto.
  destruct (F64.eqb _ F64.one); eauto.
  assert (moderate (E + E + 54) (F64.mul (SFabs (S754_finite s m e))
                                         (SFabs (S754_finite s m e))) = true) as Hm
    by (apply mul_moderate; try lia; exact Hx).
  destruct (F64.mul _ _); try discriminate Hm; cbn; eauto.
Qed.

Lemma sum_squares_total (E : Z) (xs : list float) (mean total : float) :
  Forall (fun x => moderate E x = true) xs -> moderate E mean = true ->
  0 <= E -> 2 * (E + 2) + 54 <= 971 ->
  exists squares, sum_squares xs mean total = Ok squares.
Proof.
  intros Hxs Hmean Hlo Hhi. revert total.
  induction Hxs as [|x xs Hx Hxs IH]; intros total; cbn [sum_squares]; eauto.
  destruct (pow_2_moderate (E + 2) (F64.sub x mean)) as [sq ->]; try lia.
  - apply sub_moderate; try lia; assumption.
  - cbn. apply IH.
Qed.

(** The indicators of a moderate window exist. *)
Lemma technical_indicators_total (w : list float) :
  length w = 7%nat -> Forall (fun x => moderate 400 x = true) w ->
  exists indicators, technical_indicators w = Ok indicators.
Proof.
  intros Hlen Hw.
  assert (moderate 415 (F64.div (float_sum w) (F64.of_Z 7)) = true) as Hmean.
  { apply (div_7_moderate 414); try lia.
    pose proof (float_sum_moderate 400 400 w F64.zero Hw eq_refl) as Hsum.
    rewrite Hlen in Hsum. apply Hsum; lia. }
  destruct (sum_squares_total 415 w (F64.div (float_sum w) (F64.of_Z 7)) F64.zero)
    as [squares Hsq]; try lia; try assumption.
  { eapply Forall_impl; [exact Hw|]. intros x Hx. apply (moderate_mono 400); [lia|exact Hx]. }
  destruct w as [|a [|b [|c [|d [|e [|f [|g [|? ?]]]]]]]]; try discriminate Hlen.
  unfold technical_indicators.
  change (F64.of_Z (Z.of_nat (length [a; b; c; d; e; f; g]))) with (F64.of_Z 7).
  rewrite !seven_nonzero.
  change (py_index [a; b; c; d; e; f; g] 0) with (Ok a).
  change (py_index [a; b; c; d; e; f; g] (-1)) with (Ok g).
  cbn [mbind result_bind]. rewrite Hsq.
  cbn [mbind result_bind]. rewrite seven_nonzero.
  cbn [mbind result_bind py_max py_min].
  unfold price_ratio, price_range, float_ne_0, float_div.
  destruct (F64.eqb g F64.zero), (F64.eqb (fold_left _ _ a) F64.zero);
    cbn [negb mbind result_bind]; eauto.
Qed.

(** The prices read from a snapshot within range are moderate floats. *)
Lemma py_float_moderate (v : pyval) :
  isinstance_int_float v = true -> moderate_value v = true ->
  exists x, py_float v = Ok x /\ moderate 400 x = true.
Proof.
  destruct v as [|b|n|x|s|l|d]; try discriminate; intros _ Hv.
  - exists (if b then F64.one else F64.zero). split; [reflexivity|]. destruct b; reflexivity.
  - cbn in Hv. apply Z.ltb_lt in Hv.
    assert (moderate (399 + 1) (F64.of_Z n) = true) as Hm.
    { apply normalize_moderate; lia. }
    exists (F64.of_Z n). split; [|exact Hm].
    cbn [py_float]. unfold float_of_int.
    destruct (F64.of_Z n); try discriminate Hm; reflexivity.
  - exists x. split; [reflexivity|exact Hv].
Qed.

Lemma append_numeric_moderate (items : dict) (acc : list float) :
  forallb (fun kv => moderate_value (snd kv)) items = true ->
  Forall (fun x => moderate 400 x = true) acc ->
  exists values, append_numeric items acc = Ok values /\
                 Forall (fun x => moderate 400 x = true) values.
Proof.
  revert acc. induction items as [|[k v] items IH]; intros acc Hitems Hacc.
  - exists acc. split; [reflexivity|exact Hacc].
  - cbn [forallb snd] in Hitems. apply andb_prop in Hitems as [Hv Hitems].
    cbn [append_numeric]. destruct (isinstance_int_float v) eqn:Hnum.
    + destruct (py_float_moderate v Hnum Hv) as (x & -> & Hx). cbn [mbind result_bind].
      apply IH; [exact Hitems|]. apply Forall_app. split; [exact Hacc|].
      constructor; [exact Hx|constructor].
    + apply IH; assumption.
Qed.

Lemma extract_moderate (oracle_prices : dict) (cats : list string) (acc : list float) :
  forallb (moderate_category oracle_prices) cats = true ->
  Forall (fun x => moderate 400 x = true) acc ->
  exists values, extract_oracle_values oracle_prices cats acc = Ok values /\
                 Forall (fun x => moderate 400 x = true) values.
Proof.
  revert acc. induction cats as [|c cats IH]; intros acc Hcats Hacc.
  - exists acc. split; [reflexivity|exact Hacc].
  - cbn [forallb] in Hcats. apply andb_prop in Hcats as [Hc Hcats].
    cbn [extract_oracle_values]. unfold moderate_category in Hc. unfold category_items.
    destruct (dict_get oracle_prices c) as [[| | | | | |d]|]; try discriminate Hc.
    + cbn [mbind result_bind].
      destruct (append_numeric_moderate d acc Hc Hacc) as (values & -> & Hvalues).
      cbn [mbind result_bind]. apply IH; assumption.
    + cbn [mbind result_bind append_numeric]. apply IH; assumption.
Qed.

Lemma pad_window_moderate (values : list float) :
  Forall (fun x => moderate 400 x = true) values ->
  Forall (fun x => moderate 400 x = true) (pad_window values).
Proof.
  intros Hvalues. unfold pad_window. apply Forall_take, Forall_app. split; [exact Hvalues|].
  repeat constructor.
Qed.

(** C1, within range. For every snapshot whose categories are absent or
    mappings and whose numeric prices are within range, whatever their
    number, and for every market metadata, the builder returns exactly 21
    numbers: the seven floats of the window, then the indicators, all of
    them floats except the two adjacent-pair counts at positions 14 and 15,
    which are integers. *)
Theorem prepare_features_total (oracle_prices market_data : dict) :
  moderate_prices oracle_prices = true ->
  exists features window average momentum volatility hi lo first last
         ups downs ratio range,
    prepare_features oracle_prices market_data = Ok features /\
    length features = 21%nat /\
    length window = 7%nat /\
    features =
      map NFloat window ++
      [NFloat average; NFloat momentum; NFloat volatility; NFloat hi; NFloat lo;
       NFloat first; NFloat last; NInt ups; NInt downs; NFloat ratio; NFloat range;
       NFloat F64.zero; NFloat F64.zero; NFloat F64.zero].
Proof.
  intros Hprices.
  destruct (extract_moderate oracle_prices categories [] Hprices)
    as (values & Hextract & Hvalues); [constructor|].
  pose proof (pad_window_length values) as Hlen.
  destruct (technical_indicators_total _ Hlen (pad_window_moderate _ Hvalues))
    as [indicators Hind].
  assert (prepare_features oracle_prices market_data
          = Ok (firstn 21 (map NFloat (pad_window values) ++ indicators))) as Hf.
  { unfold prepare_features. rewrite Hextract. cbn [mbind result_bind].
    rewrite Hlen. cbn [Nat.leb]. rewrite Hind. reflexivity. }
  destruct (volatility_real _ _ Hlen Hind) as [v Hv].
  destruct (technical_indicators_shape _ _ Hlen Hind)
    as (first & last & hi & lo & average & momentum & volatility & ups & downs
        & _ & _ & _ & _ & Hshape).
  rewrite Hshape in Hv. cbn in Hv. subst volatility.
  eexists _, (pad_window values), _, _, _, _, _, _, _, _, _, _, _.
  split; [exact Hf|]. split; [exact (prepare_features_length _ _ _ Hf)|].
  split; [exact Hlen|]. rewrite Hshape.
  apply firstn_all2. rewrite length_app, length_map, Hlen. cbn. lia.
Qed.

Lemma prepare_features_total_witness :
  exists features window average momentum volatility hi lo first last
         ups downs ratio range,
    prepare_features example_snapshot [] = Ok features /\
    length features = 21%nat /\
    length window = 7%nat /\
    features =
      map NFloat window ++
      [NFloat average; NFloat momentum; NFloat volatility; NFloat hi; NFloat lo;
       NFloat first; NFloat last; NInt ups; NInt downs; NFloat ratio; NFloat range;
       NFloat F64.zero; NFloat F64.zero; NFloat F64.zero].
Proof.
  apply (prepare_features_total example_snapshot []).
  vm_compute. reflexivity.
Defined.

(** ** The fallback backend *)

Lemma clamp_range (lo hi x : Z) : lo <= hi -> lo <= clamp lo hi x <= hi.
Proof. unfold clamp. lia. Qed.

Lemma py_bind_ok {S A B} (m : py S A) (f : A -> py S B) (s s' : S) (b : B) :
  (m ≫= f) s = (Ok b, s') ->
  exists a s1, m s = (Ok a, s1) /\ f a s1 = (Ok b, s').
Proof.
  unfold mbind, py_bind. destruct (m s) as [[a|e] s1]; [eauto|discriminate].
Qed.

Lemma hex_value_digit (n : Z) : 0 <= n < 16 -> hex_value (MD5.hex_digit n) = Some n.
Proof.
  intros Hn. rewrite <- (Z2Nat.id n) by lia.
  assert (Z.to_nat n < 16)%nat as Hk by lia.
  revert Hk. generalize (Z.to_nat n) as k. intros k Hk.
  do 16 (destruct k as [|k]; [reflexivity|]). lia.
Qed.

Lemma byte_digits (b : Z) : 0 <= b mod 256 / 16 < 16 /\ 0 <= (b mod 256) mod 16 < 16.
Proof.
  pose proof (Z.mod_pos_bound b 256 eq_refl).
  split; [|apply Z.mod_pos_bound; reflexivity].
  split; [apply Z.div_pos; lia | apply Z.div_lt_upper_bound; lia].
Qed.

(** Seeding never fails: the digest's first eight hexadecimal digits always
    parse, to a value below [2^32]. *)
Lemma market_seed_total (market_id : Z) :
  exists seed, market_seed market_id = Ok seed /\ 0 <= seed < 2 ^ 32.
Proof.
  unfold market_seed, MD5.hexdigest, MD5.digest.
  destruct (MD5.blocks _ _ _) as [[[a b] c] d].
  cbn [MD5.le_bytes app MD5.hex_of_bytes str_prefix int_base16].
  pose proof (byte_digits a) as [H1 H2].
  pose proof (byte_digits (a / 256)) as [H3 H4].
  pose proof (byte_digits (a / 256 / 256)) as [H5 H6].
  pose proof (byte_digits (a / 256 / 256 / 256)) as [H7 H8].
  rewrite !hex_value_digit by assumption.
  eexists. split; [reflexivity|]. lia.
Qed.

Section FallbackFacts.
Context `{Runtime}.

Lemma random_seed_in_range (seed : Z) (rng : rng_state) :
  0 <= seed < 2 ^ 32 ->
  random_seed (seed mod 2 ^ 32) rng = (Ok tt, MT19937.seed_state seed).
Proof.
  intros Hseed. rewrite Z.mod_small by exact Hseed. unfold random_seed.
  replace ((seed <? 0) || (4294967295 <? seed)) with false; [reflexivity|].
  symmetry. apply orb_false_intro; apply Z.ltb_ge; lia.
Qed.

(** Once seeded, the fallback is its heuristic run on the fresh generator. *)
Lemma fallback_prediction_seeded (market_id : Z) (features : option (list pynum))
    (rng : rng_state) (seed : Z) :
  market_seed market_id = Ok seed -> 0 <= seed < 2 ^ 32 ->
  _fallback_prediction market_id features rng
    = heuristic_confidence features (MT19937.seed_state seed).
Proof.
  intros Hseed Hrange. unfold _fallback_prediction.
  unfold mbind at 1, py_bind at 1. unfold lift at 1. rewrite Hseed.
  unfold mbind at 1, py_bind at 1. rewrite random_seed_in_range by exact Hrange.
  reflexivity.
Qed.

(** Whatever the fallback returns lies in [5, 95]. *)
Lemma fallback_prediction_range (market_id : Z) (features : option (list pynum))
    (rng rng' : rng_state) (c : Z) :
  _fallback_prediction market_id features rng = (Ok c, rng') -> 5 <= c <= 95.
Proof.
  unfold _fallback_prediction, heuristic_confidence. intros Hc.
  apply py_bind_ok in Hc as (seed & s1 & _ & Hc).
  apply py_bind_ok in Hc as (? & s2 & _ & Hc).
  apply py_bind_ok in Hc as (confidence & s3 & _ & Hc).
  injection Hc as <- _. apply clamp_range. lia.
Qed.

(** The generator's prior state does not matter: seeding replaces it. *)
Lemma fallback_ignores_generator (market_id : Z) (features : option (list pynum))
    (rng1 rng2 : rng_state) :
  _fallback_prediction market_id features rng1
    = _fallback_prediction market_id features rng2.
Proof.
  destruct (market_seed_total market_id) as (seed & Hseed & Hrange).
  rewrite (fallback_prediction_seeded _ _ rng1 seed Hseed Hrange).
  rewrite (fallback_prediction_seeded _ _ rng2 seed Hseed Hrange).
  reflexivity.
Qed.

(** C2. The fallback's outcome, the confidence (or exception) together with
    the generator state it leaves, is the same from every prior state of the
    global generator, and it is a function of the features and of the seed
    hashed from the market identifier, a 32-bit value that always exists. *)
Theorem fallback_deterministic :
  (forall market_id features rng1 rng2,
     _fallback_prediction market_id features rng1
       = _fallback_prediction market_id features rng2) /\
  (exists from_seed : Z -> option (list pynum) -> result Z * rng_state,
     forall market_id features rng,
       exists seed, market_seed market_id = Ok seed /\ 0 <= seed < 2 ^ 32 /\
                    _fallback_prediction market_id features rng = from_seed seed features).
Proof.
  split.
  - exact fallback_ignores_generator.
  - exists (fun seed features => heuristic_confidence features (MT19937.seed_state seed)).
    intros market_id features rng.
    destruct (market_seed_total market_id) as (seed & Hseed & Hrange).
    exists seed. repeat split; try assumption; try lia.
    exact (fallback_prediction_seeded _ _ rng seed Hseed Hrange).
Qed.

End FallbackFacts.

(** ** The confidence predictor *)

Section PredictorFacts.
Context `{Runtime}.

(** The three ways a call to [predict] goes. *)
Lemma predict_cases (market_id : Z) (features : option (list pynum)) (w : world) :
  predict market_id features w =
    match prediction_cache (self w) !! market_id with
    | Some cached => (Ok cached, w)
    | None =>
        if uses_model (self w) features
        then
          let c := _run_onnx_inference (self w) (default [] features) in
          (Ok c, snd (cache_store market_id c w))
        else
          match _fallback_prediction market_id features (np_random w) with
          | (Ok c, rng) =>
              (Ok c, snd (cache_store market_id c {| self := self w; np_random := rng |}))
          | (Raise _, rng) => (Ok 50, {| self := self w; np_random := rng |})
          end
    end.
Proof.
  unfold predict. unfold mbind at 1, py_bind at 1, get at 1.
  destruct (prediction_cache (self w) !! market_id) as [cached|]; [reflexivity|].
  unfold try_catch, mbind, py_bind, on_rng, mret, py_ret.
  destruct (uses_model (self w) features); [reflexivity|].
  destruct (_fallback_prediction _ _ _) as [[c|e] rng]; reflexivity.
Qed.

Lemma run_onnx_inference_range (s : AIInferenceService) (features : list pynum) :
  0 <= _run_onnx_inference s features <= 100.
Proof.
  unfold _run_onnx_inference, try_except.
  destruct (session s) as [sess|]; cbn [mbind result_bind]; [|lia].
  destruct (session_run sess features) as [raw|]; cbn [mbind result_bind]; [|lia].
  destruct (int_of_float _) as [c|]; cbn [mbind result_bind]; [|lia].
  apply clamp_range. lia.
Qed.

Lemma cache_store_bounded (market_id c : Z) (w : world) :
  cache_bounded w -> 0 <= c <= 100 -> cache_bounded (snd (cache_store market_id c w)).
Proof.
  intros Hw Hc m c'. cbn.
  destruct (decide (market_id = m)) as [->|Hne].
  - rewrite lookup_insert_eq. intros [= <-]. exact Hc.
  - rewrite lookup_insert_ne by exact Hne. apply Hw.
Qed.

Lemma predict_bounded (market_id : Z) (features : option (list pynum)) (w : world) :
  cache_bounded w -> cache_bounded (snd (predict market_id features w)).
Proof.
  intros Hw. rewrite predict_cases.
  destruct (prediction_cache (self w) !! market_id) as [cached|]; [exact Hw|].
  destruct (uses_model (self w) features).
  - apply cache_store_bounded; [exact Hw|apply run_onnx_inference_range].
  - destruct (_fallback_prediction _ _ _) as [[c|e] rng] eqn:Hfb; cbn [snd].
    + apply (cache_store_bounded market_id c {| self := self w; np_random := rng |}).
      * exact Hw.
      * pose proof (fallback_prediction_range _ _ _ _ _ Hfb). lia.
    + exact Hw.
Qed.

Lemma update_model_bounded (path : string) (w : world) :
  cache_bounded w -> cache_bounded (snd (update_model path w)).
Proof.
  intros Hw. unfold update_model.
  destruct (InferenceSession path); [|exact Hw].
  intros m c. cbn. rewrite lookup_empty. discriminate.
Qed.

Lemma run_bounded (path : string) (rng : rng_state) (calls : list call) :
  cache_bounded (run path rng calls).
Proof.
  unfold run.
  assert (cache_bounded {| self := __init__ path; np_random := rng |}) as Hinit.
  { intros m c. unfold __init__.
    destruct (try_except _ _) as [[s loaded]|e]; cbn; rewrite lookup_empty; discriminate. }
  revert Hinit. generalize {| self := __init__ path; np_random := rng |}.
  induction calls as [|c calls IH]; intros w Hw; [exact Hw|].
  cbn [fold_left]. apply IH.
  destruct c; [apply predict_bounded|apply update_model_bounded]; exact Hw.
Qed.

(** C4. After [__init__] and any sequence of calls, [predict] returns, for
    every market identifier and feature vector, an integer in [0, 100], and
    one in [5, 95] when the call is answered by the fallback backend; and
    whatever the fallback backend returns, from any state, is in [5, 95]. *)
Theorem predict_range (path : string) (rng : rng_state) (calls : list call)
    (market_id : Z) (features : option (list pynum)) :
  let w := run path rng calls in
  (exists c, fst (predict market_id features w) = Ok c /\
             0 <= c <= 100 /\
             if uses_fallback w market_id features then 5 <= c <= 95 else True) /\
  (forall rng0,
     match fst (_fallback_prediction market_id features rng0) with
     | Ok c => 5 <= c <= 95
     | Raise _ => True
     end).
Proof.
  cbv zeta. split.
  - pose proof (run_bounded path rng calls) as Hw.
    generalize dependent (run path rng calls). intros w Hw.
    rewrite predict_cases. unfold uses_fallback.
    destruct (prediction_cache (self w) !! market_id) as [cached|] eqn:Hcache.
    + exists cached. repeat split; try exact I; apply (Hw _ _ Hcache).
    + destruct (uses_model (self w) features).
      * eexists. split; [reflexivity|].
        split; [apply run_onnx_inference_range|exact I].
      * destruct (_fallback_prediction _ _ _) as [[c|e] rng1] eqn:Hfb.
        -- pose proof (fallback_prediction_range _ _ _ _ _ Hfb).
           exists c. cbn. repeat split; lia.
        -- exists 50. cbn. repeat split; lia.
  - intros rng0.
    destruct (_fallback_prediction _ _ _) as [[c|e] rng1] eqn:Hfb; [|exact I].
    exact (fallback_prediction_range _ _ _ _ _ Hfb).
Qed.

(** A feature vector whose sum is infinite makes the fallback raise, whatever
    the Gaussian draw: the remainder of an infinite sum is not a number. *)
Lemma infinite_features_fail (market_id : Z) (rng : rng_state) :
  exists rng',
    _fallback_prediction market_id (Some [NFloat F64.inf]) rng = (Raise ValueError, rng').
Proof.
  destruct (market_seed_total market_id) as (seed & Hseed & Hrange).
  rewrite (fallback_prediction_seeded _ _ rng seed Hseed Hrange).
  unfold heuristic_confidence. cbn [truthy default].
  unfold mbind, py_bind, lift.
  change (py_sum [NFloat F64.inf] (NInt 0)) with (Ok (NFloat F64.inf)).
  cbv iota. cbv beta.
  change (result_bind _ _ _ (py_mod (NFloat F64.inf) 30)) with (Ok (NFloat F64.nan)).
  cbv iota. cbv beta.
  destruct (random_normal F64.zero (F64.of_Z 10) (MT19937.seed_state seed))
    as [noise rng'].
  exists rng'. reflexivity.
Qed.

(** A cached market is answered from the cache, and the world is untouched. *)
Lemma predict_hit (market_id c : Z) (features : option (list pynum)) (w : world) :
  prediction_cache (self w) !! market_id = Some c ->
  predict market_id features w = (Ok c, w).
Proof. intros Hc. rewrite predict_cases, Hc. reflexivity. Qed.

(** C5, as the code has it. A call to [predict] returns a confidence, and a
    second call with the same features returns it again.  Unless the first
    call misses the cache and its fallback computation raises, the
    confidence is in the cache afterwards and a later call, whatever its
    features, returns it and leaves the service and the generator as they
    were.  When the fallback raises, the call returns 50 and the cache is
    unchanged. *)
Theorem predict_again (market_id : Z) (features later : option (list pynum)) (w : world) :
  exists c w1,
    predict market_id features w = (Ok c, w1) /\
    fst (predict market_id features w1) = Ok c /\
    if computation_fails w market_id features
    then c = 50 /\ prediction_cache (self w1) = prediction_cache (self w)
    else prediction_cache (self w1) !! market_id = Some c /\
         predict market_id later w1 = (Ok c, w1).
Proof.
  unfold computation_fails. rewrite predict_cases.
  destruct (prediction_cache (self w) !! market_id) as [cached|] eqn:Hcache.
  - exists cached, w. rewrite !(predict_hit _ _ _ _ Hcache). auto.
  - destruct (uses_model (self w) features) eqn:Hmodel.
    + eexists _, _. split; [reflexivity|].
      assert (prediction_cache (self (snd (cache_store market_id
                (_run_onnx_inference (self w) (default [] features)) w))) !! market_id
              = Some (_run_onnx_inference (self w) (default [] features))) as Hstored
        by apply lookup_insert_eq.
      rewrite !(predict_hit _ _ _ _ Hstored). auto.
    + destruct (_fallback_prediction market_id features (np_random w))
        as [[c|e] rng] eqn:Hfb; cbn [fst].
      * eexists _, _. split; [reflexivity|].
        assert (prediction_cache (self (snd (cache_store market_id c
                  {| self := self w; np_random := rng |}))) !! market_id = Some c)
          as Hstored by apply lookup_insert_eq.
        rewrite !(predict_hit _ _ _ _ Hstored). auto.
      * exists 50, {| self := self w; np_random := rng |}.
        split; [reflexivity|]. split; [|split; reflexivity].
        rewrite predict_cases. cbn [self np_random]. rewrite Hcache, Hmodel.
        rewrite (fallback_ignores_generator market_id features rng (np_random w)), Hfb.
        reflexivity.
Qed.

(** C6. [update_model] either fails, returning [False] with the world as it
    was, so that every later [predict] behaves as before, or succeeds,
    returning [True] with the new session, its path, the loaded flag set and
    an empty prediction cache. *)
Theorem update_model_atomic (path : string) (w : world) :
  match InferenceSession path with
  | Raise _ =>
      update_model path w = (Ok false, w) /\
      forall market_id features,
        predict market_id features (snd (update_model path w))
          = predict market_id features w
  | Ok new_session =>
      exists w',
        update_model path w = (Ok true, w') /\
        session (self w') = Some new_session /\
        model_path (self w') = path /\
        model_loaded (self w') = true /\
        prediction_cache (self w') = ∅ /\
        np_random w' = np_random w
  end.
Proof.
  unfold update_model.
  destruct (InferenceSession path) as [new_session|e].
  - eexists. repeat split.
  - split; reflexivity.
Qed.

Lemma trunc_toward_zero (s : bool) (m : positive) (e n : Z) :
  F64.trunc (S754_finite s m e) = Some n ->
  exists k, n = cond_Zopp s k /\ 0 <= k /\
            if 0 <=? e then k = Z.pos m * 2 ^ e
            else k * 2 ^ (- e) <= Z.pos m < (k + 1) * 2 ^ (- e).
Proof.
  cbn. intros [= <-].
  destruct (0 <=? e) eqn:He.
  - eexists. split; [reflexivity|]. split; [|reflexivity].
    apply Z.leb_le in He. apply Z.mul_nonneg_nonneg; [lia|].
    apply Z.pow_nonneg. lia.
  - apply Z.leb_gt in He.
    assert (0 < 2 ^ (- e)) as Hpos by (apply Z.pow_pos_nonneg; lia).
    exists (Z.pos m / 2 ^ (- e)). split; [reflexivity|].
    split; [apply Z.div_pos; lia|].
    pose proof (Z.mul_div_le (Z.pos m) _ Hpos).
    pose proof (Z.mul_succ_div_gt (Z.pos m) _ Hpos).
    lia.
Qed.

(** C7, as the code has it. With a session, the confidence is the model's
    raw output times 100 (the product rounded as a float), truncated toward
    zero and clamped into [0, 100]; it is 50 when the session fails or the
    product is not finite. *)
Theorem model_confidence_truncates (s : AIInferenceService) (features : list pynum) :
  _run_onnx_inference s features =
    match session s with
    | None => 50
    | Some sess =>
        match session_run sess features with
        | Raise _ => 50
        | Ok raw =>
            match F64.trunc (times_100 raw) with
            | Some n => clamp 0 100 n
            | None => 50
            end
        end
    end.
Proof.
  unfold _run_onnx_inference, try_except, int_of_float.
  destruct (session s) as [sess|]; cbn [mbind result_bind]; [|reflexivity].
  destruct (session_run sess features) as [raw|]; cbn [mbind result_bind]; [|reflexivity].
  destruct (F64.trunc _) as [n|]; cbn [mbind result_bind]; [reflexivity|].
  destruct (F64.is_nan _); reflexivity.
Qed.

End PredictorFacts.

(** C5, as stated, fails on a host without ONNX Runtime: a first call for
    market 1 with the single feature [inf] returns the neutral 50 and caches
    nothing, and the next call, without features, returns 43. *)
Lemma retry_after_failure_differs :
  let w := {| self := @__init__ no_onnx "./ml/model.onnx";
              np_random := MT19937.seed_state 0 |} in
  let first := @predict no_onnx 1 (Some [NFloat F64.inf]) w in
  fst first = Ok 50 /\
  prediction_cache (self (snd first)) !! 1 = None /\
  fst (@predict no_onnx 1 None (snd first)) = Ok 43.
Proof. vm_compute. repeat split; reflexivity. Qed.

(** C7, as stated, fails at the raw output 0.5078125: the product 50.78125
    is exact in float32 and in float64, the code returns 50 and rounding
    gives 51. *)
Lemma truncation_is_not_rounding :
  let raw := F64.dec 5078125 7 in
  let host := constant_model raw in
  let w single := {| self := @__init__ (host single) "./ml/model.onnx";
                     np_random := MT19937.seed_state 0 |} in
  (fst (@predict (host false) 1 (Some [NFloat F64.zero]) (w false)) = Ok 50 /\
   @rounded_confidence (host false) raw = Ok 51) /\
  (fst (@predict (host true) 1 (Some [NFloat F64.zero]) (w true)) = Ok 50 /\
   @rounded_confidence (host true) raw = Ok 51).
Proof. vm_compute. repeat split; reflexivity. Qed.

(** ** The oracle cache *)

Lemma fetch_forex_price_total (net : network) (self : OracleService) (base quote : string) :
  exists v,
    _fetch_forex_price net self base quote = Ok v /\
    (use_fallback self = false -> v = _get_mock_price (base ++ "_" ++ quote)%string) /\
    (forall e, net (forex_url base) [] = Raise e ->
               v = _get_mock_price (base ++ "_" ++ quote)%string).
Proof.
  unfold _fetch_forex_price, try_except.
  destruct (use_fallback self); [|eexists; repeat split].
  destruct (net (forex_url base) []) as [data|e]; cbn [mbind result_bind].
  - destruct (subscript data "rates") as [rates|]; cbn [mbind result_bind].
    + destruct (get_default rates quote _);
        eexists; repeat split; try discriminate.
    + eexists; repeat split; discriminate.
  - eexists; repeat split.
Qed.

Lemma fetch_crypto_price_total (net : network) (self : OracleService) (crypto_id : string) :
  exists v,
    _fetch_crypto_price net self crypto_id = Ok v /\
    (use_fallback self = false -> v = _get_mock_price crypto_id) /\
    (forall e, net coingecko_url [("ids", crypto_id); ("vs_currencies", "usd")] = Raise e ->
               v = _get_mock_price crypto_id).
Proof.
  unfold _fetch_crypto_price, try_except.
  destruct (use_fallback self); [|eexists; repeat split].
  destruct (net coingecko_url _) as [data|e]; cbn [mbind result_bind].
  - destruct (get_default data crypto_id _) as [quote|]; cbn [mbind result_bind].
    + destruct (get_default quote "usd" _);
        eexists; repeat split; try discriminate.
    + eexists; repeat split; discriminate.
  - eexists; repeat split.
Qed.

Lemma fetch_commodity_price_default (self : OracleService) (commodity : string) :
  commodity = "GOLD" \/ commodity = "OIL" ->
  _fetch_commodity_price self commodity = Ok (_get_mock_price commodity).
Proof.
  unfold _fetch_commodity_price.
  intros [-> | ->]; destruct (use_fallback self); reflexivity.
Qed.

(** C3. [fetch_all_prices] returns a snapshot, never an exception, for every
    behaviour of the upstream sources; every configured asset of every
    category is a key of that category in it; and the value of an asset
    whose upstream request failed, or that has no upstream, or that is read
    with the fallback sources switched off, is its static default. *)
Theorem fetch_all_prices_complete (net : network) (stamp : string) (now : Z)
    (self : OracleService) :
  exists prices self',
    fetch_all_prices net stamp now self = (Ok prices, self') /\
    forall category assets key url,
      In (category, assets) oracles -> In (key, url) assets ->
      exists inner value,
        dict_get prices category = Some (PyDict inner) /\
        dict_get inner key = Some value /\
        (use_fallback self = false -> value = static_default key) /\
        match upstream net key with
        | Some (Raise _) | None => value = static_default key
        | Some (Ok _) => True
        end.
Proof.
  destruct (fetch_forex_price_total net self "USD" "EUR") as (v1 & E1 & D1 & F1).
  destruct (fetch_forex_price_total net self "JPY" "GBP") as (v2 & E2 & D2 & F2).
  destruct (fetch_crypto_price_total net self "bitcoin") as (v5 & E5 & D5 & F5).
  destruct (fetch_crypto_price_total net self "ethereum") as (v6 & E6 & D6 & F6).
  destruct (fetch_crypto_price_total net self "solana") as (v7 & E7 & D7 & F7).
  unfold fetch_all_prices, fetch_each.
  rewrite E1, E2, E5, E6, E7.
  rewrite !fetch_commodity_price_default by auto.
  eexists _, _. split; [reflexivity|].
  intros category assets key url Hcat Hkey.
  unfold oracles in Hcat. cbn [In] in Hcat.
  destruct Hcat as [[= <- <-]|[[= <- <-]|[[= <- <-]|[]]]]; cbn [In] in Hkey.
  - destruct Hkey as [[= <- <-]|[[= <- <-]|[]]];
      eexists _, _; (split; [reflexivity|]); (split; [reflexivity|]).
    + split; [exact D1|]. cbn.
      destruct (net (forex_url "USD") []) as [|e] eqn:E; [exact I|exact (F1 e eq_refl)].
    + split; [exact D2|]. cbn.
      destruct (net (forex_url "JPY") []) as [|e] eqn:E; [exact I|exact (F2 e eq_refl)].
  - destruct Hkey as [[= <- <-]|[[= <- <-]|[]]];
      eexists _, _; (split; [reflexivity|]); (split; [reflexivity|]);
      split; reflexivity.
  - destruct Hkey as [[= <- <-]|[[= <- <-]|[[= <- <-]|[]]]];
      eexists _, _; (split; [reflexivity|]); (split; [reflexivity|]).
    + split; [exact D5|]. cbn.
      destruct (net coingecko_url [("ids", "bitcoin"); ("vs_currencies", "usd")])
        as [|e] eqn:E; [exact I|exact (F5 e eq_refl)].
    + split; [exact D6|]. cbn.
      destruct (net coingecko_url [("ids", "ethereum"); ("vs_currencies", "usd")])
        as [|e] eqn:E; [exact I|exact (F6 e eq_refl)].
    + split; [exact D7|]. cbn.
      destruct (net coingecko_url [("ids", "solana"); ("vs_currencies", "usd")])
        as [|e] eqn:E; [exact I|exact (F7 e eq_refl)].
Qed.

(** With every upstream source unreachable the snapshot holds the seven
    static defaults. *)
Lemma fetch_all_prices_unreachable (stamp : string) (now : Z) :
  fst (fetch_all_prices unreachable stamp now fresh_oracle) =
    Ok [("forex", PyDict [("USD_EUR", PyFloat (F64.dec 92 2));
                          ("JPY_GBP", PyFloat (F64.dec 56 4))]);
        ("commodities", PyDict [("GOLD", PyFloat (F64.dec 204530 2));
                                ("OIL", PyFloat (F64.dec 7350 2))]);
        ("crypto", PyDict [("BTC", PyFloat (F64.dec 4325000 2));
                           ("ETH", PyFloat (F64.dec 228050 2));
                           ("SOL", PyFloat (F64.dec 9875 2))]);
        ("timestamp", PyStr stamp)].
Proof. vm_compute. reflexivity. Qed.

(** * Further properties *)

(** ** The oracle cache: reads *)

(** A refresh stores and returns a snapshot of the seven configured assets
    and records the time. *)
Lemma fetch_all_prices_refreshes (net : network) (stamp : string) (now : Z)
    (self : OracleService) :
  exists v1 v2 v3 v4 v5 v6 v7,
    let prices :=
      [("forex", PyDict [("USD_EUR", v1); ("JPY_GBP", v2)]);
       ("commodities", PyDict [("GOLD", v3); ("OIL", v4)]);
       ("crypto", PyDict [("BTC", v5); ("ETH", v6); ("SOL", v7)]);
       ("timestamp", PyStr stamp)] in
    fetch_all_prices net stamp now self =
      (Ok prices, {| cache := prices; cache_ttl := cache_ttl self;
                     last_update := Some now; use_fallback := use_fallback self |}).
Proof.
  destruct (fetch_forex_price_total net self "USD" "EUR") as (v1 & E1 & _).
  destruct (fetch_forex_price_total net self "JPY" "GBP") as (v2 & E2 & _).
  destruct (fetch_crypto_price_total net self "bitcoin") as (v5 & E5 & _).
  destruct (fetch_crypto_price_total net self "ethereum") as (v6 & E6 & _).
  destruct (fetch_crypto_price_total net self "solana") as (v7 & E7 & _).
  exists v1, v2, (_get_mock_price "GOLD"), (_get_mock_price "OIL"), v5, v6, v7.
  unfold fetch_all_prices, fetch_each.
  rewrite E1, E2, E5, E6, E7.
  rewrite !fetch_commodity_price_default by auto.
  reflexivity.
Qed.

Lemma fetch_all_prices_settled (net : network) (stamp : string) (now : Z)
    (self : OracleService) :
  exists prices self',
    fetch_all_prices net stamp now self = (Ok prices, self') /\
    complete prices = true /\ cache self' = prices /\
    last_update self' = Some now /\ cache_ttl self' = cache_ttl self /\
    dict_get prices "timestamp" = Some (PyStr stamp).
Proof.
  destruct (fetch_all_prices_refreshes net stamp now self)
    as (v1 & v2 & v3 & v4 & v5 & v6 & v7 & Hfetch).
  cbv zeta in Hfetch. eexists _, _. split; [exact Hfetch|].
  repeat split.
Qed.

(** A read serves a complete snapshot and keeps the service settled. *)
Lemma get_cached_prices_settled (net : network) (now : Z) (stamp : string) (refreshed : Z)
    (self : OracleService) :
  settled self ->
  exists prices self',
    get_cached_prices net now stamp refreshed self = (Ok prices, self') /\
    complete prices = true /\ settled self' /\ cache self' = prices /\
    cache_ttl self' = cache_ttl self.
Proof.
  intros Hself. unfold get_cached_prices.
  destruct (fetch_all_prices_settled net stamp refreshed self)
    as (prices & self' & Hfetch & Hcomplete & Hcache & Hupdate & Httl & _).
  assert (settled self') as Hsettled.
  { unfold settled. rewrite Hupdate, Hcache. exact Hcomplete. }
  destruct (is_stale now self) eqn:Hstale; [eauto 10|].
  destruct (cache self) as [|entry rest] eqn:Hc; [eauto 10|].
  exists (entry :: rest), self. split; [reflexivity|].
  assert (complete (cache self) = true) as Hheld.
  { unfold settled in Hself. destruct (last_update self); [exact Hself|congruence]. }
  rewrite Hc in Hheld. repeat split; assumption.
Qed.

Lemma oracle_step_settled (self : OracleService) (c : oracle_call) :
  settled self ->
  settled (oracle_step self c) /\ cache_ttl (oracle_step self c) = cache_ttl self.
Proof.
  intros Hself. destruct c as [net stamp now|net now stamp refreshed
                              |net now stamp refreshed oracle_name]; cbn [oracle_step].
  - destruct (fetch_all_prices_settled net stamp now self)
      as (prices & self' & -> & Hcomplete & Hcache & Hupdate & Httl & _).
    cbn [snd]. split; [|exact Httl].
    unfold settled. rewrite Hupdate, Hcache. exact Hcomplete.
  - destruct (get_cached_prices_settled net now stamp refreshed self Hself)
      as (prices & self' & -> & _ & Hsettled & _ & Httl). auto.
  - unfold get_consensus_price, mbind, py_bind.
    destruct (get_cached_prices_settled net now stamp refreshed self Hself)
      as (prices & self' & -> & _ & Hsettled & _ & Httl).
    unfold lift. destruct (search_categories _ _ _); auto.
Qed.

Lemma oracle_run_settled (ttl : Z) (calls : list oracle_call) :
  settled (oracle_run ttl calls) /\ cache_ttl (oracle_run ttl calls) = ttl.
Proof.
  unfold oracle_run.
  assert (settled (Oracle.__init__ ttl) /\ cache_ttl (Oracle.__init__ ttl) = ttl) as Hinit
    by (split; reflexivity).
  revert Hinit. generalize (Oracle.__init__ ttl).
  induction calls as [|c calls IH]; intros self [Hself Httl]; [auto|].
  cbn [fold_left]. apply IH.
  destruct (oracle_step_settled self c Hself) as [Hsettled Hkeep].
  split; [exact Hsettled|congruence].
Qed.

(** X1. After [__init__] and any sequence of refreshes, reads and lookups,
    whatever the upstream sources answered, [get_cached_prices] returns, and
    never raises, a complete snapshot: the three categories with exactly
    their configured assets, and a string timestamp; and the snapshot
    returned is the one the cache then holds. *)
Theorem cached_prices_complete (ttl : Z) (calls : list oracle_call) (net : network)
    (now : Z) (stamp : string) (refreshed : Z) :
  exists prices self',
    get_cached_prices net now stamp refreshed (oracle_run ttl calls) = (Ok prices, self') /\
    complete prices = true /\
    cache self' = prices.
Proof.
  destruct (oracle_run_settled ttl calls) as [Hsettled _].
  destruct (get_cached_prices_settled net now stamp refreshed _ Hsettled)
    as (prices & self' & Hget & Hcomplete & _ & Hcache & _).
  eauto.
Qed.

(** A complete snapshot, spelled out. *)
Lemma complete_shape (prices : dict) :
  complete prices = true ->
  exists v1 v2 v3 v4 v5 v6 v7 stamp,
    prices =
      [("forex", PyDict [("USD_EUR", v1); ("JPY_GBP", v2)]);
       ("commodities", PyDict [("GOLD", v3); ("OIL", v4)]);
       ("crypto", PyDict [("BTC", v5); ("ETH", v6); ("SOL", v7)]);
       ("timestamp", PyStr stamp)].
Proof.
  unfold complete. intros [Hlayout Hstamp]%andb_prop.
  apply bool_decide_eq_true in Hlayout.
  destruct prices as [|[k1 [| | | | | |d1]] [|[k2 [| | | | | |d2]] [|[k3 [| | | | | |d3]]
                     [|[k4 t] [|? ?]]]]]; try discriminate Hlayout.
  destruct d1 as [|[a1 v1] [|[a2 v2] [|? ?]]]; try discriminate Hlayout.
  destruct d2 as [|[a3 v3] [|[a4 v4] [|? ?]]]; try discriminate Hlayout.
  destruct d3 as [|[a5 v5] [|[a6 v6] [|[a7 v7] [|? ?]]]]; try discriminate Hlayout.
  cbn in Hlayout. simplify_eq.
  destruct t as [| | | |stamp| |]; try discriminate Hstamp.
  eexists _, _, _, _, _, _, _, _. reflexivity.
Qed.

(** The lookup in a complete snapshot. *)
Lemma search_categories_complete (prices : dict) (oracle_name : string) :
  complete prices = true ->
  match category_of oracle_name with
  | Some category =>
      exists inner price,
        dict_get prices category = Some (PyDict inner) /\
        dict_get inner oracle_name = Some price /\
        search_categories prices categories oracle_name = Ok price
  | None => search_categories prices categories oracle_name = Ok PyNone
  end.
Proof.
  intros (v1 & v2 & v3 & v4 & v5 & v6 & v7 & stamp & ->)%complete_shape.
  destruct (String.eqb_spec "USD_EUR" oracle_name) as [<-|N1];
    [vm_compute; eexists _, _; repeat split|].
  destruct (String.eqb_spec "JPY_GBP" oracle_name) as [<-|N2];
    [vm_compute; eexists _, _; repeat split|].
  destruct (String.eqb_spec "GOLD" oracle_name) as [<-|N3];
    [vm_compute; eexists _, _; repeat split|].
  destruct (String.eqb_spec "OIL" oracle_name) as [<-|N4];
    [vm_compute; eexists _, _; repeat split|].
  destruct (String.eqb_spec "BTC" oracle_name) as [<-|N5];
    [vm_compute; eexists _, _; repeat split|].
  destruct (String.eqb_spec "ETH" oracle_name) as [<-|N6];
    [vm_compute; eexists _, _; repeat split|].
  destruct (String.eqb_spec "SOL" oracle_name) as [<-|N7];
    [vm_compute; eexists _, _; repeat split|].
  apply String.eqb_neq in N1, N2, N3, N4, N5, N6, N7.
  assert (category_of oracle_name = None) as ->.
  { unfold category_of, oracles. cbn [find existsb fst snd].
    rewrite N1, N2, N3, N4, N5, N6, N7. reflexivity. }
  unfold categories.
  repeat (cbn [search_categories dict_get default from_option id contains]; decide_literals;
          rewrite ?N1, ?N2, ?N3, ?N4, ?N5, ?N6, ?N7;
          change (bool_decide (is_Some (@None pyval))) with false;
          cbn [mbind result_bind]).
  reflexivity.
Qed.

(** X2. After any history, [get_consensus_price] never raises.  For a
    configured asset it returns the price the served snapshot holds for it
    under its category; for every other name, a category's name or
    [timestamp] among them, it returns [None]; and it leaves the service as
    the read it starts with does. *)
Theorem consensus_price_lookup (ttl : Z) (calls : list oracle_call) (net : network)
    (now : Z) (stamp : string) (refreshed : Z) (oracle_name : string) :
  exists prices self' answer,
    get_cached_prices net now stamp refreshed (oracle_run ttl calls) = (Ok prices, self') /\
    get_consensus_price net now stamp refreshed oracle_name (oracle_run ttl calls)
      = (Ok answer, self') /\
    match category_of oracle_name with
    | Some category =>
        exists inner, dict_get prices category = Some (PyDict inner) /\
                      dict_get inner oracle_name = Some answer
    | None => answer = PyNone
    end.
Proof.
  destruct (oracle_run_settled ttl calls) as [Hsettled _].
  destruct (get_cached_prices_settled net now stamp refreshed _ Hsettled)
    as (prices & self' & Hget & Hcomplete & _).
  pose proof (search_categories_complete prices oracle_name Hcomplete) as Hsearch.
  unfold get_consensus_price, mbind, py_bind, lift. rewrite Hget.
  destruct (category_of oracle_name) as [category|].
  - destruct Hsearch as (inner & price & Hcat & Hprice & ->).
    exists prices, self', price. eauto.
  - rewrite Hsearch. exists prices, self', PyNone. auto.
Qed.

(** ** Rounding, by value *)

(** Shifting zero bits out of an exact record leaves it exact. *)
Lemma shr_1_exact (a : Z) :
  0 <= a ->
  shr_1 {| shr_m := 2 * a; shr_r := false; shr_s := false |}
    = {| shr_m := a; shr_r := false; shr_s := false |}.
Proof. intros Ha. destruct a as [|p|p]; [reflexivity|reflexivity|lia]. Qed.

Lemma iter_shr_exact (p : positive) (c : Z) :
  0 <= c ->
  SpecFloat.iter_pos shr_1 p {| shr_m := c * 2 ^ Z.pos p; shr_r := false; shr_s := false |}
    = {| shr_m := c; shr_r := false; shr_s := false |}.
Proof.
  revert c. induction p as [p IH|p IH|]; intros c Hc; cbn [SpecFloat.iter_pos].
  - replace (c * 2 ^ Z.pos p~1) with (2 * (c * 2 ^ Z.pos p * 2 ^ Z.pos p)).
    + assert (0 <= c * 2 ^ Z.pos p) by (apply Z.mul_nonneg_nonneg; [lia|apply Z.pow_nonneg; lia]).
      rewrite shr_1_exact by (apply Z.mul_nonneg_nonneg; [lia|apply Z.pow_nonneg; lia]).
      rewrite IH by lia. apply IH. exact Hc.
    + replace (Z.pos p~1) with (1 + Z.pos p + Z.pos p) by lia.
      rewrite !Z.pow_add_r by lia. lia.
  - replace (c * 2 ^ Z.pos p~0) with (c * 2 ^ Z.pos p * 2 ^ Z.pos p).
    + assert (0 <= c * 2 ^ Z.pos p) by (apply Z.mul_nonneg_nonneg; [lia|apply Z.pow_nonneg; lia]).
      rewrite IH by lia. apply IH. exact Hc.
    + replace (Z.pos p~0) with (Z.pos p + Z.pos p) by lia.
      rewrite !Z.pow_add_r by lia. lia.
  - replace (c * 2 ^ 1) with (2 * c) by lia. apply shr_1_exact. exact Hc.
Qed.

Lemma shr_fexp_exact (m e : Z) (mrs : shr_record) (e' : Z) :
  0 <= m ->
  shr_fexp 53 1024 m e loc_Exact = (mrs, e') ->
  (2 ^ (e' - e) | m) ->
  loc_of_shr_record mrs = loc_Exact.
Proof.
  intros Hm. unfold shr_fexp, shr. cbn [shr_record_of_loc].
  destruct (fexp 53 1024 (Zdigits2 m + e) - e) as [|p|p] eqn:Hn;
    intros [= <- <-]; try reflexivity.
  replace (e + Z.pos p - e) with (Z.pos p) by lia. intros [c ->].
  rewrite iter_shr_exact; [reflexivity|].
  assert (0 < 2 ^ Z.pos p) by (apply Z.pow_pos_nonneg; lia). nia.
Qed.

(** What rounding returns: with [e1] the exponent the mantissa is brought
    to, the value returned is [m2 * 2^e1] for [m2] the mantissa's quotient
    by [2^(e1 - ex)] or the integer after it, and the quotient itself when
    nothing is lost. *)
Lemma round_aux_value (sx : bool) (mx ex : Z) (lx : location) :
  0 <= mx ->
  let e1 := Z.max ex (Z.max (Zdigits2 mx + ex - 53) (-1074)) in
  let m1 := mx / 2 ^ (e1 - ex) in
  exists m2,
    m1 <= m2 <= m1 + 1 /\
    (lx = loc_Exact -> (2 ^ (e1 - ex) | mx) -> m2 = m1) /\
    match binary_round_aux 53 1024 sx mx ex lx with
    | S754_zero s => s = sx /\ m2 = 0
    | S754_finite s m e =>
        s = sx /\ e1 <= e <= e1 + 1 /\ Z.pos m * 2 ^ (e - e1) = m2 /\
        (m2 < 2 ^ 53 -> e = e1)
    | S754_infinity _ => 971 <= e1
    | S754_nan => False
    end.
Proof.
  intros Hmx e1 m1. unfold binary_round_aux.
  destruct (shr_fexp 53 1024 mx ex lx) as [mrs1 e1'] eqn:H1.
  pose proof H1 as Hshift.
  apply shr_fexp_spec in H1 as [He1 Hm1]; [|exact Hmx].
  fold e1 in He1. subst e1'. fold m1 in Hm1.
  pose proof (Zdigits2_lt mx Hmx) as Hlt.
  assert (0 <= Zdigits2 mx) as Hdig by (destruct mx; cbn; lia).
  assert (0 <= m1 < 2 ^ 53) as Hb1.
  { subst m1. apply (div_pow_small mx (Zdigits2 mx)); lia. }
  rewrite Hm1.
  pose proof (round_nearest_even_bound m1 (loc_of_shr_record mrs1)) as Hr.
  exists (round_nearest_even m1 (loc_of_shr_record mrs1)).
  split; [exact Hr|]. split.
  { intros -> Hdiv. rewrite (shr_fexp_exact _ _ _ _ Hmx Hshift Hdiv). reflexivity. }
  set (m2 := round_nearest_even _ _) in *.
  destruct (shr_fexp 53 1024 m2 e1 loc_Exact) as [mrs2 e2] eqn:H2.
  apply shr_fexp_spec in H2 as [He2 Hm2]; [|lia].
  assert (m2 < 2 ^ 53 \/ m2 = 2 ^ 53) as [Hsmall| ->] by lia.
  - assert (0 <= Zdigits2 m2 <= 53) by (apply Zdigits2_bound; lia).
    assert (e2 = e1) as -> by lia.
    replace (e1 - e1) with 0 in Hm2 by lia. rewrite Z.div_1_r in Hm2.
    rewrite Hm2.
    destruct m2 as [|p|p]; [auto| |lia].
    destruct (e1 <=? 1024 - 53) eqn:Hle.
    + split; [reflexivity|]. split; [lia|]. replace (e1 - e1) with 0 by lia. lia.
    + apply Z.leb_gt in Hle. lia.
  - change (Zdigits2 (2 ^ 53)) with 54 in He2.
    assert (e2 = e1 + 1) as -> by lia.
    replace (e1 + 1 - e1) with 1 in Hm2 by lia.
    change (2 ^ 53 / 2 ^ 1) with 4503599627370496 in Hm2. rewrite Hm2.
    destruct (e1 + 1 <=? 1024 - 53) eqn:Hle.
    + split; [reflexivity|]. split; [lia|]. replace (e1 + 1 - e1) with 1 by lia.
      split; [reflexivity|]. intros Habsurd. exfalso. lia.
    + apply Z.leb_gt in Hle. lia.
Qed.

(** ** The age of the cache *)

(** The seconds in [d] microseconds, for an age below [2^52] microseconds:
    to within one unit of [2^e], for an [e] of at most [-20], and exact for a
    whole number of seconds. *)
Lemma total_seconds_value (d : Z) :
  0 < d < 2 ^ 52 ->
  exists e m2,
    e <= -20 /\
    d * 2 ^ (- e) / 1000000 <= m2 <= d * 2 ^ (- e) / 1000000 + 1 /\
    ((1000000 | d) -> m2 = d * 2 ^ (- e) / 1000000) /\
    match total_seconds d with
    | S754_zero _ => m2 = 0
    | S754_finite s m e2 =>
        s = false /\ e <= e2 <= e + 1 /\ Z.pos m * 2 ^ (e2 - e) = m2
    | _ => False
    end.
Proof.
  intros [Hpos Hlt]. destruct d as [|p|p]; try lia.
  unfold total_seconds.
  change (Z.pos p <? 0) with false. change (Z.to_pos (Z.abs (Z.pos p))) with p.
  change (F64.of_Z 1000000) with (S754_finite false 8589934592000000 (-33)).
  unfold F64.div, F64.prec, F64.emax, SFdiv, SFdiv_core_binary.
  change (Zdigits2 8589934592000000) with 53.
  change (fexp 53 1024 (Zdigits2 (Z.pos p) + 0 - (53 + -33)))
    with (Z.max (Zdigits2 (Z.pos p) + 0 - (53 + -33) - 53) (-1074)).
  pose proof (Zdigits2_lt (Z.pos p) ltac:(lia)) as Hdlt.
  assert (0 <= Zdigits2 (Z.pos p) <= 52) as Hd by (apply Zdigits2_bound; lia).
  assert (1 <= Zdigits2 (Z.pos p)) as Hd1 by (cbn; lia).
  set (dd := Zdigits2 (Z.pos p)) in *.
  replace (Z.min (Z.max (dd + 0 - (53 + -33) - 53) (-1074)) (0 - -33)) with (dd - 73) by lia.
  replace (0 - -33 - (dd - 73)) with (106 - dd) by lia.
  set (s := 106 - dd).
  assert (0 < s) as Hs by (subst s; lia).
  set (m' := match s with Z0 => Z.pos p | Z.pos _ => Z.shiftl (Z.pos p) s | Z.neg _ => 0 end).
  assert (m' = Z.pos p * 2 ^ s) as Hm'.
  { subst m'. destruct s as [|k|k] eqn:Hsp; [lia| |lia]. apply Z.shiftl_mul_pow2. lia. }
  clearbody m'.
  pose proof (Z_div_mod m' 8589934592000000 eq_refl) as Hdm.
  destruct (Z.div_eucl m' 8589934592000000) as [q r]. destruct Hdm as [Hq Hr].
  assert (0 < 2 ^ s) as Hpow by (apply Z.pow_pos_nonneg; lia).
  assert (0 <= q) as Hq0 by nia.
  assert (q < 2 ^ 54) as Hq54.
  { assert (Z.pos p * 2 ^ s < 2 ^ 106).
    { replace 106 with (dd + s) by (subst s; lia). rewrite Z.pow_add_r by lia.
      apply Z.mul_lt_mono_pos_r; lia. }
    change (2 ^ 106) with (4503599627370496 * 2 ^ 54) in H.
    change (2 ^ 54) with 18014398509481984 in *. lia. }
  assert (0 <= Zdigits2 q <= 54) as Hdq by (apply Zdigits2_bound; lia).
  cbn [xorb].
  pose proof (round_aux_value false q (dd - 73) (new_location 8589934592000000 r) Hq0)
    as Hround.
  cbv zeta in Hround.
  set (e := Z.max (dd - 73) (Z.max (Zdigits2 q + (dd - 73) - 53) (-1074))) in *.
  assert (dd - 73 <= e <= -20) as He by (subst e; lia).
  destruct Hround as (m2 & Hm2 & Hexact & Hresult).
  assert (0 < 2 ^ (e - (dd - 73))) as Hpk by (apply Z.pow_pos_nonneg; lia).
  assert (0 < 2 ^ (- e)) as Hpe by (apply Z.pow_pos_nonneg; lia).
  assert (2 ^ s = 2 ^ (- e) * (8589934592 * 2 ^ (e - (dd - 73)))) as Hsplit.
  { change 8589934592 with (2 ^ 33). rewrite <- !Z.pow_add_r by lia.
    f_equal. subst s. lia. }
  assert (q / 2 ^ (e - (dd - 73)) = Z.pos p * 2 ^ (- e) / 1000000) as Hm1.
  { assert (q = m' / 8589934592000000) as -> by (apply Z.div_unique_pos with r; lia).
    rewrite Z.div_div by lia. rewrite Hm', Hsplit.
    replace (Z.pos p * (2 ^ (- e) * (8589934592 * 2 ^ (e - (dd - 73)))))
      with (Z.pos p * 2 ^ (- e) * (8589934592 * 2 ^ (e - (dd - 73)))) by lia.
    replace (8589934592000000 * 2 ^ (e - (dd - 73)))
      with (1000000 * (8589934592 * 2 ^ (e - (dd - 73)))) by lia.
    apply Z.div_mul_cancel_r; lia. }
  rewrite Hm1 in Hm2, Hexact.
  exists e, m2. split; [lia|]. split; [exact Hm2|]. split.
  - intros [c Hc]. 
    assert (r = 0 /\ q = c * 2 ^ (- e) * 2 ^ (e - (dd - 73))) as [-> Hqc].
    { assert (m' = 8589934592000000 * (c * 2 ^ (- e) * 2 ^ (e - (dd - 73))) + 0) as Huniq.
      { rewrite Hm', Hsplit, Hc. lia. }
      assert (0 <= 0 < 8589934592000000) as Hzero by lia.
      destruct (Z.div_mod_unique 8589934592000000 q (c * 2 ^ (- e) * 2 ^ (e - (dd - 73)))
                  r 0 ltac:(lia) ltac:(lia)) as [Hqq Hrr]; [lia|].
      split; assumption. }
    apply Hexact; [reflexivity|].
    exists (c * 2 ^ (- e)). exact Hqc.
  - revert Hresult.
    destruct (binary_round_aux 53 1024 false q (dd - 73) _) as [sz|sz| |sz mz ez];
      intros Hresult; try tauto; try lia.
Qed.

(** An age of at most [n] seconds is not above [n], and one of a
    microsecond more is. *)
Lemma total_seconds_le (d n : Z) :
  0 <= n < 2 ^ 32 -> d <= n * 1000000 -> float_gt_int (total_seconds d) n = false.
Proof.
  intros Hn Hd.
  destruct (Z.lt_trichotomy d 0) as [Hneg|[->|Hpos]].
  - destruct d as [|p|p]; try lia. unfold total_seconds.
    change (Z.neg p <? 0) with true.
    change (F64.of_Z 1000000) with (S754_finite false 8589934592000000 (-33)).
    unfold F64.div, F64.prec, F64.emax, SFdiv.
    destruct (SFdiv_core_binary _ _ _ _ _ _) as [[mz ez] lz]. cbn [xorb].
    destruct (binary_round_aux_sign true mz ez lz) as [E|E]; cbv zeta in E;
      unfold F64.prec, F64.emax in E.
    + rewrite E. reflexivity.
    + destruct (binary_round_aux 53 1024 true mz ez lz) as [sz|sz| |sz m e];
        cbn in E; subst; cbn [float_gt_int negb cond_Zopp]; try reflexivity.
      * apply Z.ltb_ge. lia.
      * destruct (0 <=? e) eqn:He.
        -- apply Z.ltb_ge. assert (0 <= Z.pos m * 2 ^ e); [|lia].
           apply Z.mul_nonneg_nonneg; [lia|]. apply Z.pow_nonneg. lia.
        -- apply Z.ltb_ge. assert (0 <= n * 2 ^ (- e)); [|lia].
           apply Z.mul_nonneg_nonneg; [lia|]. apply Z.pow_nonneg. lia.
  - cbn. apply Z.ltb_ge. lia.
  - assert (d < 2 ^ 52) as Hlt.
    { change (2 ^ 32) with 4294967296 in Hn. change (2 ^ 52) with 4503599627370496. lia. }
    destruct (total_seconds_value d (conj Hpos Hlt)) as (e & m2 & He & Hm2 & Hexact & Hres).
    assert (0 < 2 ^ (- e)) as Hpe by (apply Z.pow_pos_nonneg; lia).
    assert (m2 <= n * 2 ^ (- e)) as Hbound.
    { destruct (Z.eq_dec d (n * 1000000)) as [->|Hne].
      - rewrite Hexact by (exists n; reflexivity).
        replace (n * 1000000 * 2 ^ (- e)) with (n * 2 ^ (- e) * 1000000) by lia.
        rewrite Z.div_mul by lia. lia.
      - assert (d * 2 ^ (- e) / 1000000 < n * 2 ^ (- e)); [|lia].
        apply Z.div_lt_upper_bound; [lia|]. nia. }
    destruct (total_seconds d) as [sz|sz| |sz m e2]; try tauto.
    + cbn. apply Z.ltb_ge. lia.
    + destruct Hres as (-> & He2 & Hm).
      cbn [float_gt_int cond_Zopp].
      replace (0 <=? e2) with false by (symmetry; apply Z.leb_gt; lia).
      apply Z.ltb_ge.
      assert (e2 = e \/ e2 = e + 1) as [->| ->] by lia.
      * replace (e - e) with 0 in Hm by lia. lia.
      * replace (e + 1 - e) with 1 in Hm by lia.
        replace (- e) with (1 + - (e + 1)) in Hbound by lia.
        rewrite Z.pow_add_r in Hbound by lia. lia.
Qed.

Lemma total_seconds_gt (d n : Z) :
  0 <= n -> n * 1000000 < d < 2 ^ 52 -> float_gt_int (total_seconds d) n = true.
Proof.
  intros Hn [Hd Hlt].
  destruct (total_seconds_value d ltac:(lia)) as (e & m2 & He & Hm2 & _ & Hres).
  assert (0 < 2 ^ (- e)) as Hpe by (apply Z.pow_pos_nonneg; lia).
  assert (1000000 <= 2 ^ (- e)) as Hfine.
  { apply Z.le_trans with (2 ^ 20); [vm_compute; discriminate|].
    apply Z.pow_le_mono_r; lia. }
  assert (n * 2 ^ (- e) + 1 <= m2) as Hbound.
  { assert (n * 2 ^ (- e) + 1 <= d * 2 ^ (- e) / 1000000); [|lia].
    apply Z.div_le_lower_bound; [lia|]. nia. }
  destruct (total_seconds d) as [sz|sz| |sz m e2]; try tauto.
  - nia.
  - destruct Hres as (-> & He2 & Hm).
    cbn [float_gt_int cond_Zopp].
    replace (0 <=? e2) with false by (symmetry; apply Z.leb_gt; lia).
    apply Z.ltb_lt.
    assert (e2 = e \/ e2 = e + 1) as [->| ->] by lia.
    + replace (e - e) with 0 in Hm by lia. lia.
    + replace (e + 1 - e) with 1 in Hm by lia.
      replace (- e) with (1 + - (e + 1)) in Hbound by lia.
      rewrite Z.pow_add_r in Hbound by lia. lia.
Qed.

(** X3. A snapshot no older than the time to live is served from the
    cache.  After any history that has refreshed the cache at clock reading
    [updated], a read at a reading at most [cache_ttl] seconds later (or
    earlier, should the clock have stepped back) returns the cached snapshot
    and leaves the service unchanged, whatever the upstream sources would
    answer: no request is made.  Readings are in microseconds; the bound is
    met exactly, the rounding of the age to a float notwithstanding. *)
Theorem fresh_cache_served (ttl : Z) (calls : list oracle_call) (net : network)
    (now : Z) (stamp : string) (refreshed updated : Z) :
  0 <= ttl < 2 ^ 32 ->
  last_update (oracle_run ttl calls) = Some updated ->
  now - updated <= ttl * 1000000 ->
  get_cached_prices net now stamp refreshed (oracle_run ttl calls)
    = (Ok (cache (oracle_run ttl calls)), oracle_run ttl calls).
Proof.
  intros Httl Hupdated Hage.
  destruct (oracle_run_settled ttl calls) as [Hsettled Hkeep].
  unfold get_cached_prices, is_stale. rewrite Hupdated, Hkeep.
  rewrite total_seconds_le by assumption.
  unfold settled in Hsettled. rewrite Hupdated in Hsettled.
  destruct (cache (oracle_run ttl calls)); [discriminate Hsettled|reflexivity].
Qed.

Lemma fresh_cache_served_witness :
  get_cached_prices unreachable 60000000 "2024-01-01T00:01:00" 60000000
      (oracle_run 60 [FetchAllPrices unreachable "2024-01-01T00:00:00" 0])
    = (Ok (cache (oracle_run 60 [FetchAllPrices unreachable "2024-01-01T00:00:00" 0])),
       oracle_run 60 [FetchAllPrices unreachable "2024-01-01T00:00:00" 0]).
Proof.
  apply (fresh_cache_served 60 [FetchAllPrices unreachable "2024-01-01T00:00:00" 0]
           unreachable 60000000 "2024-01-01T00:01:00" 60000000 0).
  - lia.
  - reflexivity.
  - lia.
Defined.

(** X4. A snapshot older than the time to live is refreshed.  After any
    history that has refreshed the cache at reading [updated], a read more
    than [cache_ttl] seconds later, by a microsecond or more, is a call of
    [fetch_all_prices]: it returns the new snapshot, stores it and records
    the time of the refresh. *)
Theorem stale_cache_refreshed (ttl : Z) (calls : list oracle_call) (net : network)
    (now : Z) (stamp : string) (refreshed updated : Z) :
  0 <= ttl ->
  last_update (oracle_run ttl calls) = Some updated ->
  ttl * 1000000 < now - updated < 2 ^ 52 ->
  get_cached_prices net now stamp refreshed (oracle_run ttl calls)
    = fetch_all_prices net stamp refreshed (oracle_run ttl calls) /\
  exists prices self',
    get_cached_prices net now stamp refreshed (oracle_run ttl calls) = (Ok prices, self') /\
    cache self' = prices /\ last_update self' = Some refreshed /\
    dict_get prices "timestamp" = Some (PyStr stamp).
Proof.
  intros Httl Hupdated Hage.
  destruct (oracle_run_settled ttl calls) as [_ Hkeep].
  assert (get_cached_prices net now stamp refreshed (oracle_run ttl calls)
          = fetch_all_prices net stamp refreshed (oracle_run ttl calls)) as Hget.
  { unfold get_cached_prices, is_stale. rewrite Hupdated, Hkeep.
    rewrite total_seconds_gt by assumption. reflexivity. }
  split; [exact Hget|]. rewrite Hget.
  destruct (fetch_all_prices_settled net stamp refreshed (oracle_run ttl calls))
    as (prices & self' & Hfetch & _ & Hcache & Hupdate & _ & Hstamp).
  eauto 10.
Qed.

Lemma stale_cache_refreshed_witness :
  get_cached_prices unreachable 60000001 "2024-01-01T00:01:00" 60000002
      (oracle_run 60 [FetchAllPrices unreachable "2024-01-01T00:00:00" 0])
    = fetch_all_prices unreachable "2024-01-01T00:01:00" 60000002
        (oracle_run 60 [FetchAllPrices unreachable "2024-01-01T00:00:00" 0]) /\
  exists prices self',
    get_cached_prices unreachable 60000001 "2024-01-01T00:01:00" 60000002
        (oracle_run 60 [FetchAllPrices unreachable "2024-01-01T00:00:00" 0])
      = (Ok prices, self') /\
    cache self' = prices /\ last_update self' = Some 60000002 /\
    dict_get prices "timestamp" = Some (PyStr "2024-01-01T00:01:00").
Proof.
  apply (stale_cache_refreshed 60 [FetchAllPrices unreachable "2024-01-01T00:00:00" 0]
           unreachable 60000001 "2024-01-01T00:01:00" 60000002 0).
  - lia.
  - reflexivity.
  - lia.
Defined.

(** ** The generator's words *)

Lemma word32_log2 (x : Z) : 0 <= x -> (x < 2 ^ 32 <-> Z.log2 x < 32).
Proof.
  intros Hx. destruct (Z.eq_dec x 0) as [->|Hne]; [split; intros _; reflexivity|].
  apply Z.log2_lt_pow2. lia.
Qed.

Lemma lxor_word32 (x y : Z) : word32 x -> word32 y -> word32 (Z.lxor x y).
Proof.
  intros [Hx Hxb] [Hy Hyb].
  assert (0 <= Z.lxor x y) as Hz by (apply Z.lxor_nonneg; tauto).
  split; [exact Hz|]. apply word32_log2; [exact Hz|].
  apply word32_log2 in Hxb, Hyb; try assumption.
  pose proof (Z.log2_lxor x y Hx Hy). lia.
Qed.

Lemma lor_word32 (x y : Z) : word32 x -> word32 y -> word32 (Z.lor x y).
Proof.
  intros [Hx Hxb] [Hy Hyb].
  assert (0 <= Z.lor x y) as Hz by (apply Z.lor_nonneg; tauto).
  split; [exact Hz|]. apply word32_log2; [exact Hz|].
  apply word32_log2 in Hxb, Hyb; try assumption.
  pose proof (Z.log2_lor x y Hx Hy). lia.
Qed.

Lemma land_word32 (x mask : Z) : 0 <= x -> word32 mask -> word32 (Z.land x mask).
Proof.
  intros Hx [Hm Hmb].
  assert (0 <= Z.land x mask) as Hz by (apply Z.land_nonneg; tauto).
  split; [exact Hz|]. apply word32_log2; [exact Hz|].
  apply word32_log2 in Hmb; try assumption.
  pose proof (Z.log2_land x mask Hx Hm). lia.
Qed.

Lemma shiftr_word32 (x n : Z) : word32 x -> 0 <= n -> word32 (Z.shiftr x n).
Proof.
  intros [Hx Hxb] Hn. rewrite Z.shiftr_div_pow2 by exact Hn.
  assert (0 < 2 ^ n) by (apply Z.pow_pos_nonneg; lia).
  split; [apply Z.div_pos; lia|].
  apply Z.le_lt_trans with x; [|exact Hxb].
  apply Z.div_le_upper_bound; [lia|]. nia.
Qed.

Lemma nth_word32 (k : list Z) (i : nat) : Forall word32 k -> word32 (nth i k 0).
Proof.
  intros Hk. destruct (nth_in_or_default i k 0) as [Hin| ->].
  - rewrite List.Forall_forall in Hk. apply Hk, Hin.
  - split; [lia|reflexivity].
Qed.

Lemma init_key_word32 (count : nat) (position seed : Z) :
  word32 seed -> Forall word32 (MT19937.init_key count position seed).
Proof.
  revert position seed. induction count as [|count IH]; intros position seed Hseed;
    cbn [MT19937.init_key]; constructor; [exact Hseed|].
  apply IH. apply Z.mod_pos_bound. reflexivity.
Qed.

Lemma seed_state_word32 (seed : Z) : Forall word32 (key (MT19937.seed_state seed)).
Proof.
  cbn [MT19937.seed_state key]. apply init_key_word32.
  change 4294967295 with (Z.ones 32). rewrite Z.land_ones by lia.
  apply Z.mod_pos_bound. reflexivity.
Qed.

Lemma twist_word32 (k : list Z) (i next src : nat) :
  Forall word32 k -> Forall word32 (MT19937.twist k i next src).
Proof.
  intros Hk. unfold MT19937.twist. apply Forall_insert; [exact Hk|].
  pose proof (nth_word32 k i Hk) as Hi.
  pose proof (nth_word32 k next Hk) as Hnext.
  pose proof (nth_word32 k src Hk) as Hsrc.
  assert (word32 (Z.lor (Z.land (nth i k 0) MT19937.UPPER_MASK)
                        (Z.land (nth next k 0) MT19937.LOWER_MASK))) as Hy.
  { apply lor_word32; apply land_word32; try (split; [discriminate|reflexivity]).
    - apply Hi.
    - apply Hnext. }
  apply lxor_word32; [apply lxor_word32|].
  - exact Hsrc.
  - apply shiftr_word32; [exact Hy|lia].
  - destruct (Z.odd _); split; try discriminate; reflexivity.
Qed.

Lemma fold_twist_word32 (f : nat -> nat * nat) (indices : list nat) (k : list Z) :
  Forall word32 k ->
  Forall word32
    (fold_left (fun k i => MT19937.twist k i (fst (f i)) (snd (f i))) indices k).
Proof.
  revert k. induction indices as [|i indices IH]; intros k Hk; [exact Hk|].
  cbn [fold_left]. apply IH, twist_word32, Hk.
Qed.

Lemma gen_word32 (k : list Z) : Forall word32 k -> Forall word32 (MT19937.gen k).
Proof.
  intros Hk. unfold MT19937.gen. apply twist_word32.
  apply (fold_twist_word32 (fun i => ((i + 1)%nat, (i + MT19937.M - MT19937.N)%nat))).
  apply (fold_twist_word32 (fun i => ((i + 1)%nat, (i + MT19937.M)%nat))).
  exact Hk.
Qed.

Lemma temper_word32 (y : Z) : word32 y -> word32 (MT19937.temper y).
Proof.
  intros Hy. unfold MT19937.temper.
  assert (forall z mask n, word32 z -> word32 mask -> 0 <= n ->
                           word32 (Z.lxor z (Z.land (Z.shiftl z n) mask))) as Hstep.
  { intros z mask n Hz Hmask Hn. apply lxor_word32; [exact Hz|].
    apply land_word32; [|exact Hmask]. apply Z.shiftl_nonneg, Hz. }
  assert (forall z n, word32 z -> 0 <= n -> word32 (Z.lxor z (Z.shiftr z n))) as Hshift.
  { intros z n Hz Hn. apply lxor_word32; [exact Hz|]. apply shiftr_word32; assumption. }
  apply Hshift; [|lia]. apply Hstep; [|split; [discriminate|reflexivity]|lia].
  apply Hstep; [|split; [discriminate|reflexivity]|lia].
  apply Hshift; [exact Hy|lia].
Qed.

Lemma next_word32 (st : rng_state) :
  Forall word32 (key st) ->
  word32 (fst (MT19937.next st)) /\ Forall word32 (key (snd (MT19937.next st))).
Proof.
  intros Hk. unfold MT19937.next.
  destruct (MT19937.N <=? pos st)%nat; cbn [fst snd key].
  - pose proof (gen_word32 _ Hk) as Hgen.
    split; [apply temper_word32, nth_word32, Hgen|exact Hgen].
  - split; [apply temper_word32, nth_word32, Hk|exact Hk].
Qed.

(** ** Rounding between grid points *)

(** A nonnegative mantissa at exponent [ex], of value below [2^(E+53)] for an
    [E] not below [ex], is rounded on the grid of [2^E] or a finer one:
    the result does not cross a multiple of [2^E], and a value that is
    such a multiple is returned unchanged, with an exponent of at most [E]. *)
Lemma round_ticks (E mx ex : Z) :
  0 <= mx -> -2200 <= ex -> ex <= E -> -1074 <= E -> E < 971 ->
  mx * 2 ^ (ex + 2200) < 2 ^ (E + 2253) ->
  exists t,
    has_ticks (binary_round_aux 53 1024 false mx ex loc_Exact) t /\
    (forall c, mx * 2 ^ (ex + 2200) = c * 2 ^ (E + 2200) ->
               t = c * 2 ^ (E + 2200) /\
               moderate E (binary_round_aux 53 1024 false mx ex loc_Exact) = true) /\
    (forall c,
       (mx * 2 ^ (ex + 2200) <= c * 2 ^ (E + 2200) -> t <= c * 2 ^ (E + 2200)) /\
       (c * 2 ^ (E + 2200) <= mx * 2 ^ (ex + 2200) -> c * 2 ^ (E + 2200) <= t)).
Proof.
  intros Hmx Hlo Hex HE Hhi Hvalue.
  assert (0 < 2 ^ (ex + 2200)) as HP by (apply Z.pow_pos_nonneg; lia).
  assert (mx < 2 ^ (E + 53 - ex)) as Hbound.
  { apply (Z.mul_lt_mono_pos_r (2 ^ (ex + 2200))); [exact HP|].
    rewrite <- Z.pow_add_r by lia.
    replace (E + 53 - ex + (ex + 2200)) with (E + 2253) by lia. exact Hvalue. }
  assert (0 <= Zdigits2 mx <= E + 53 - ex) as Hdigits by (apply Zdigits2_bound; lia).
  pose proof (Zdigits2_lt mx Hmx) as Hlt.
  pose proof (round_aux_value false mx ex loc_Exact Hmx) as Hround.
  cbv zeta in Hround.
  set (e1 := Z.max ex (Z.max (Zdigits2 mx + ex - 53) (-1074))) in *.
  assert (ex <= e1 <= E) as He1 by (subst e1; lia).
  assert (-1074 <= e1) as He1lo by (subst e1; lia).
  assert (0 <= mx / 2 ^ (e1 - ex) < 2 ^ 53) as Hm1.
  { apply (div_pow_small mx (Zdigits2 mx)); lia. }
  destruct Hround as (m2 & Hm2 & Hexact & Hresult).
  assert (0 < 2 ^ (e1 - ex)) as HK by (apply Z.pow_pos_nonneg; lia).
  assert (0 < 2 ^ (E - e1)) as HD by (apply Z.pow_pos_nonneg; lia).
  assert (2 ^ (e1 + 2200) = 2 ^ (e1 - ex) * 2 ^ (ex + 2200)) as Hgrid1.
  { rewrite <- Z.pow_add_r by lia. f_equal. lia. }
  assert (2 ^ (E + 2200) = 2 ^ (E - e1) * 2 ^ (e1 + 2200)) as Hgrid.
  { rewrite <- Z.pow_add_r by lia. f_equal. lia. }
  assert (0 < 2 ^ (e1 + 2200)) as HG1 by (apply Z.pow_pos_nonneg; lia).
  assert (forall c,
            (mx * 2 ^ (ex + 2200) <= c * 2 ^ (E + 2200) ->
             m2 * 2 ^ (e1 + 2200) <= c * 2 ^ (E + 2200)) /\
            (c * 2 ^ (E + 2200) <= mx * 2 ^ (ex + 2200) ->
             c * 2 ^ (E + 2200) <= m2 * 2 ^ (e1 + 2200))) as Hbounds.
  { intros c. rewrite Hgrid.
    replace (c * (2 ^ (E - e1) * 2 ^ (e1 + 2200)))
      with (c * 2 ^ (E - e1) * 2 ^ (e1 + 2200)) by lia.
    set (c' := c * 2 ^ (E - e1)).
    rewrite Hgrid1.
    replace (c' * (2 ^ (e1 - ex) * 2 ^ (ex + 2200)))
      with (c' * 2 ^ (e1 - ex) * 2 ^ (ex + 2200)) by lia.
    replace (m2 * (2 ^ (e1 - ex) * 2 ^ (ex + 2200)))
      with (m2 * 2 ^ (e1 - ex) * 2 ^ (ex + 2200)) by lia.
    split; intros Hc.
    - apply Z.mul_le_mono_pos_r in Hc; [|exact HP].
      apply Z.mul_le_mono_nonneg_r; [lia|].
      apply Z.mul_le_mono_nonneg_r; [lia|].
      destruct (Z.eq_dec mx (c' * 2 ^ (e1 - ex))) as [Heq|Hne].
      + rewrite Hexact; [|reflexivity|exists c'; exact Heq].
        rewrite Heq, Z.div_mul by lia. lia.
      + assert (mx / 2 ^ (e1 - ex) < c'); [|lia].
        apply Z.div_lt_upper_bound; [exact HK|]. lia.
    - apply Z.mul_le_mono_pos_r in Hc; [|exact HP].
      apply Z.mul_le_mono_nonneg_r; [lia|].
      apply Z.mul_le_mono_nonneg_r; [lia|].
      assert (c' <= mx / 2 ^ (e1 - ex)); [|lia].
      apply Z.div_le_lower_bound; [exact HK|]. lia. }
  exists (m2 * 2 ^ (e1 + 2200)).
  destruct (binary_round_aux 53 1024 false mx ex loc_Exact) as [s|s| |s m e].
  - destruct Hresult as [_ ->]. split; [reflexivity|]. split; [|exact Hbounds].
    intros c Hc. split; [|reflexivity].
    destruct (Hbounds c) as [Hle Hge].
    apply Z.le_antisymm; [apply Hle|apply Hge]; rewrite Hc; apply Z.le_refl.
  - lia.
  - contradiction.
  - destruct Hresult as (-> & He & Hm & Hsame).
    assert (m2 * 2 ^ (e1 + 2200) = Z.pos m * 2 ^ (e + 2200)) as Hticks.
    { rewrite <- Hm.
      replace (e + 2200) with ((e - e1) + (e1 + 2200)) by lia.
      rewrite (Z.pow_add_r 2 (e - e1) (e1 + 2200)) by lia. ring. }
    split; [split; [lia|exact Hticks]|]. split; [|exact Hbounds].
    intros c Hc. destruct (Hbounds c) as [Hle Hge].
    split; [apply Z.le_antisymm; [apply Hle|apply Hge]; rewrite Hc; apply Z.le_refl|].
    assert (m2 = mx / 2 ^ (e1 - ex)) as Hm2exact.
    { apply Hexact; [reflexivity|].
      exists (c * 2 ^ (E - e1)).
      apply (Z.mul_reg_r _ _ (2 ^ (ex + 2200))); [lia|].
      rewrite Hc, Hgrid, Hgrid1. lia. }
    assert (e = e1) as -> by (apply Hsame; lia).
    replace (e1 - e1) with 0 in Hm by lia.
    cbn [moderate]. apply andb_true_intro. split; apply Z.leb_le; [|lia].
    apply (Zdigits2_bound (Z.pos m) 53); lia.
Qed.

(** An integer below [2^53] converts exactly. *)
Lemma of_Z_ticks (a : Z) :
  0 <= a < 2 ^ 53 ->
  has_ticks (F64.of_Z a) (a * 2 ^ 2200) /\ moderate 0 (F64.of_Z a) = true.
Proof.
  intros [Hlo Hhi]. destruct a as [|p|p]; [split; reflexivity| |lia].
  unfold F64.of_Z, F64.prec, F64.emax, binary_normalize, binary_round.
  pose proof (shl_align_spec p 0 (fexp 53 1024 (Z.pos (digits2_pos p) + 0))) as Halign.
  destruct (shl_align _ _ _) as [mz ez]. destruct Halign as [Hez Hmz].
  change (fexp 53 1024 (Z.pos (digits2_pos p) + 0))
    with (Z.max (Z.pos (digits2_pos p) + 0 - 53) (-1074)) in Hez.
  assert (-1074 <= ez <= 0) as Hrange by lia.
  assert (Z.pos mz * 2 ^ (ez + 2200) = Z.pos p * 2 ^ (0 + 2200)) as Hvalue.
  { rewrite Hmz. replace (0 + 2200) with ((0 - ez) + (ez + 2200)) by lia.
    rewrite (Z.pow_add_r 2 (0 - ez) (ez + 2200)) by lia. ring. }
  assert (Z.pos mz * 2 ^ (ez + 2200) < 2 ^ (0 + 2253)) as Hsmall.
  { rewrite Hvalue. change (0 + 2253) with (53 + (0 + 2200)).
    rewrite (Z.pow_add_r 2 53) by lia.
    apply Z.mul_lt_mono_pos_r; [apply Z.pow_pos_nonneg; lia|exact Hhi]. }
  destruct (round_ticks 0 (Z.pos mz) ez ltac:(lia) ltac:(lia) ltac:(lia) ltac:(lia)
              ltac:(lia) Hsmall) as (t & Hticks & Hexact & _).
  destruct (Hexact (Z.pos p) Hvalue) as [-> Hmoderate].
  split; [exact Hticks|exact Hmoderate].
Qed.

Lemma scale_bounds (T t G W c : Z) :
  0 < W ->
  (T <= c * G -> t <= c * G) /\ (c * G <= T -> c * G <= t) ->
  (T * W <= c * (G * W) -> t <= c * G) /\ (c * (G * W) <= T * W -> c * G <= t).
Proof.
  intros HW [Hle Hge].
  replace (c * (G * W)) with (c * G * W) by ring.
  split; intros H; [apply Hle|apply Hge]; apply (Z.mul_le_mono_pos_r _ _ W); assumption.
Qed.

(** The product of two nonnegative floats. *)
Lemma mul_ticks (E1 E2 E : Z) (x y : float) (tx ty : Z) :
  has_ticks x tx -> has_ticks y ty ->
  moderate E1 x = true -> moderate E2 y = true ->
  E1 + E2 <= E -> -1074 <= E -> E < 971 ->
  tx * ty < 2 ^ (E + 4453) ->
  exists t,
    has_ticks (F64.mul x y) t /\
    (forall c, tx * ty = c * 2 ^ (E + 4400) ->
               t = c * 2 ^ (E + 2200) /\ moderate E (F64.mul x y) = true) /\
    (forall c,
       (tx * ty <= c * 2 ^ (E + 4400) -> t <= c * 2 ^ (E + 2200)) /\
       (c * 2 ^ (E + 4400) <= tx * ty -> c * 2 ^ (E + 2200) <= t)).
Proof.
  intros Hx Hy Hmx Hmy HE Hlo Hhi Hsmall.
  assert (0 < 2 ^ 2200) as HW by (apply Z.pow_pos_nonneg; lia).
  assert (0 < 2 ^ (E + 2200)) as HG by (apply Z.pow_pos_nonneg; lia).
  assert (2 ^ (E + 4400) = 2 ^ (E + 2200) * 2 ^ 2200) as Hgrid.
  { rewrite <- Z.pow_add_r by lia. f_equal. lia. }
  assert (2 ^ (E + 4453) = 2 ^ (E + 2253) * 2 ^ 2200) as Htop.
  { rewrite <- Z.pow_add_r by lia. f_equal. lia. }
  rewrite Hgrid. rewrite Htop in Hsmall.
  assert (tx * ty = 0 ->
          exists t,
            has_ticks (S754_zero false) t /\
            (forall c, tx * ty = c * (2 ^ (E + 2200) * 2 ^ 2200) ->
                       t = c * 2 ^ (E + 2200) /\ true = true) /\
            (forall c,
               (tx * ty <= c * (2 ^ (E + 2200) * 2 ^ 2200) -> t <= c * 2 ^ (E + 2200)) /\
               (c * (2 ^ (E + 2200) * 2 ^ 2200) <= tx * ty -> c * 2 ^ (E + 2200) <= t)))
    as Hzero.
  { intros ->. exists 0. split; [reflexivity|].
    assert (forall c,
              (0 <= c * (2 ^ (E + 2200) * 2 ^ 2200) -> 0 <= c * 2 ^ (E + 2200)) /\
              (c * (2 ^ (E + 2200) * 2 ^ 2200) <= 0 -> c * 2 ^ (E + 2200) <= 0)) as Hb.
    { intros c. change 0 with (0 * 2 ^ 2200) at 1 3.
      apply scale_bounds; [exact HW|]. auto. }
    split; [|exact Hb]. intros c Hc. split; [|reflexivity].
    destruct (Hb c) as [Hle Hge].
    apply Z.le_antisymm; [apply Hle|apply Hge]; rewrite <- Hc; apply Z.le_refl. }
  destruct x as [sx|sx| |[] mx ex]; try contradiction;
    destruct y as [sy|sy| |[] my ey]; try contradiction; cbn [has_ticks] in Hx, Hy.
  - subst tx. exact (Hzero eq_refl).
  - subst tx. exact (Hzero eq_refl).
  - subst ty. exact (Hzero (Z.mul_0_r _)).
  - clear Hzero. destruct Hx as [Hex ->], Hy as [Hey ->].
    apply moderate_finite in Hmx as [_ Hex1], Hmy as [_ Hey1].
    unfold F64.mul, F64.prec, F64.emax, SFmul. cbn [xorb].
    assert (Z.pos mx * 2 ^ (ex + 2200) * (Z.pos my * 2 ^ (ey + 2200))
            = Z.pos (mx * my) * 2 ^ (ex + ey + 2200) * 2 ^ 2200) as Hproduct.
    { assert (2 ^ (ex + 2200) * 2 ^ (ey + 2200) = 2 ^ (ex + ey + 2200) * 2 ^ 2200) as Hpow.
      { rewrite <- !Z.pow_add_r by lia. f_equal. lia. }
      rewrite Pos2Z.inj_mul.
      replace (Z.pos mx * 2 ^ (ex + 2200) * (Z.pos my * 2 ^ (ey + 2200)))
        with (Z.pos mx * Z.pos my * (2 ^ (ex + 2200) * 2 ^ (ey + 2200))) by ring.
      rewrite Hpow. ring. }
    rewrite Hproduct in Hsmall |- *.
    apply Z.mul_lt_mono_pos_r in Hsmall; [|exact HW].
    destruct (round_ticks E (Z.pos (mx * my)) (ex + ey) ltac:(lia) ltac:(lia) ltac:(lia)
                Hlo Hhi Hsmall) as (t & Hticks & Hexact & Hbounds).
    exists t. split; [exact Hticks|]. split.
    + intros c Hc. apply Hexact.
      apply (Z.mul_reg_r _ _ (2 ^ 2200)); [lia|]. rewrite Hc. ring.
    + intros c. apply scale_bounds; [exact HW|]. apply Hbounds.
Qed.

(** The sum of two nonnegative floats. *)
Lemma add_ticks (E : Z) (x y : float) (tx ty : Z) :
  has_ticks x tx -> has_ticks y ty -> moderate E x = true ->
  -1074 <= E -> E < 971 -> tx + ty < 2 ^ (E + 2253) ->
  exists t,
    has_ticks (F64.add x y) t /\
    (forall c, tx + ty = c * 2 ^ (E + 2200) -> moderate E y = true ->
               t = c * 2 ^ (E + 2200) /\ moderate E (F64.add x y) = true) /\
    (forall c,
       (tx + ty <= c * 2 ^ (E + 2200) -> t <= c * 2 ^ (E + 2200)) /\
       (c * 2 ^ (E + 2200) <= tx + ty -> c * 2 ^ (E + 2200) <= t)).
Proof.
  intros Hx Hy Hmx Hlo Hhi Hsmall.
  destruct x as [sx|sx| |[] mx ex]; try contradiction;
    destruct y as [sy|sy| |[] my ey]; try contradiction; cbn [has_ticks] in Hx, Hy.
  - subst tx ty. exists 0. split; [destruct sx, sy; reflexivity|].
    split; [|auto]. intros c <- _. split; [reflexivity|]. destruct sx, sy; reflexivity.
  - subst tx. cbn [F64.add SFadd]. exists ty. rewrite Z.add_0_l.
    split; [exact Hy|]. split; [|auto]. intros c <- Hmy. auto.
  - subst ty. cbn [F64.add SFadd]. exists tx. rewrite Z.add_0_r.
    split; [exact Hx|]. split; [|auto]. intros c <- _. auto.
  - destruct Hx as [Hex ->], Hy as [Hey ->].
    apply moderate_finite in Hmx as [_ Hex1].
    unfold F64.add, F64.prec, F64.emax, SFadd. cbn [cond_Zopp].
    pose proof (shl_align_spec mx ex (Z.min ex ey)) as Hax.
    pose proof (shl_align_spec my ey (Z.min ex ey)) as Hay.
    destruct (shl_align mx ex (Z.min ex ey)) as [ax ex'].
    destruct (shl_align my ey (Z.min ex ey)) as [ay ey'].
    destruct Hax as [-> Hax], Hay as [-> Hay]. cbn [fst].
    replace (Z.min ex (Z.min ex ey)) with (Z.min ex ey) in Hax by lia.
    replace (Z.min ey (Z.min ex ey)) with (Z.min ex ey) in Hay by lia.
    set (emin := Z.min ex ey) in *.
    change (Z.pos ax + Z.pos ay) with (Z.pos (ax + ay)).
    unfold binary_normalize, binary_round.
    pose proof (shl_align_spec (ax + ay) emin
                  (fexp 53 1024 (Z.pos (digits2_pos (ax + ay)) + emin))) as Hz.
    destruct (shl_align (ax + ay) emin _) as [mz ez]. destruct Hz as [Hez Hmz].
    change (fexp 53 1024 (Z.pos (digits2_pos (ax + ay)) + emin))
      with (Z.max (Z.pos (digits2_pos (ax + ay)) + emin - 53) (-1074)) in Hez.
    assert (-1074 <= emin <= ex /\ emin <= ey) as [Hemin Hemin'] by (subst emin; lia).
    assert (-1074 <= ez <= emin) as Hrange by lia.
    assert (Z.pos mx * 2 ^ (ex + 2200) + Z.pos my * 2 ^ (ey + 2200)
            = Z.pos mz * 2 ^ (ez + 2200)) as Hsum.
    { rewrite Hmz, Pos2Z.inj_add, Hax, Hay.
      replace (ex + 2200) with ((ex - emin) + (emin - ez) + (ez + 2200)) by lia.
      replace (ey + 2200) with ((ey - emin) + (emin - ez) + (ez + 2200)) by lia.
      rewrite (Z.pow_add_r 2 (ex - emin + (emin - ez)) (ez + 2200)) by lia.
      rewrite (Z.pow_add_r 2 (ex - emin) (emin - ez)) by lia.
      rewrite (Z.pow_add_r 2 (ey - emin + (emin - ez)) (ez + 2200)) by lia.
      rewrite (Z.pow_add_r 2 (ey - emin) (emin - ez)) by lia.
      ring. }
    rewrite Hsum in Hsmall |- *.
    destruct (round_ticks E (Z.pos mz) ez ltac:(lia) ltac:(lia) ltac:(lia) Hlo Hhi Hsmall)
      as (t & Hticks & Hexact & Hbounds).
    exists t. split; [exact Hticks|]. split; [|exact Hbounds].
    intros c Hc _. exact (Hexact c Hc).
Qed.

Lemma Zdigits2_ge (p : positive) : 2 ^ (Zdigits2 (Z.pos p) - 1) <= Z.pos p.
Proof.
  cbn [Zdigits2]. rewrite digits2_log2.
  replace (Z.log2 (Z.pos p) + 1 - 1) with (Z.log2 (Z.pos p)) by lia.
  apply Z.log2_spec. reflexivity.
Qed.

(** An integer below [2^53] divides by [2^53] exactly. *)
Lemma div_2_53_ticks (E : Z) (x : float) (n : Z) :
  has_ticks x (n * 2 ^ 2200) -> 0 <= n < 2 ^ 53 -> moderate E x = true ->
  has_ticks (F64.div x (F64.of_Z 9007199254740992)) (n * 2 ^ 2147) /\
  moderate (-53) (F64.div x (F64.of_Z 9007199254740992)) = true.
Proof.
  intros Hx Hn Hmx.
  change (F64.of_Z 9007199254740992) with (S754_finite false 4503599627370496 1).
  assert (0 < 2 ^ 2200) as HW by (apply Z.pow_pos_nonneg; lia).
  assert (0 < 2 ^ 2147) as HV by (apply Z.pow_pos_nonneg; lia).
  assert (2 ^ 2200 = 2 ^ 2147 * 2 ^ 53) as Hsplit by (rewrite <- Z.pow_add_r by lia; reflexivity).
  destruct x as [sx|sx| |[] m e]; try contradiction; cbn [has_ticks] in Hx.
  - assert (n = 0) as -> by nia. split; reflexivity.
  - destruct Hx as [He Hvalue].
    apply moderate_finite in Hmx as [Hm _].
    pose proof (Zdigits2_lt (Z.pos m) ltac:(lia)) as Hdlt.
    pose proof (Zdigits2_ge m) as Hdge.
    assert (0 <= Zdigits2 (Z.pos m) <= 53) as Hd by (apply Zdigits2_bound; lia).
    assert (1 <= Zdigits2 (Z.pos m)) as Hd1 by (cbn; lia).
    set (d1 := Zdigits2 (Z.pos m)) in *.
    assert (0 < 2 ^ (e + 2200)) as HP by (apply Z.pow_pos_nonneg; lia).
    assert (-53 < e) as Helo.
    { assert (2 ^ 2200 < 2 ^ (e + 2253)) as Hpow.
      { apply Z.le_lt_trans with (n * 2 ^ 2200); [nia|].
        rewrite Hvalue. replace (e + 2253) with (53 + (e + 2200)) by lia.
        rewrite (Z.pow_add_r 2 53) by lia.
        apply Z.mul_lt_mono_pos_r; [exact HP|exact Hm]. }
      apply Z.pow_lt_mono_r_iff in Hpow; lia. }
    assert (d1 + e <= 53) as Hehi.
    { assert (2 ^ (d1 - 1 + (e + 2200)) < 2 ^ 2253) as Hpow.
      { rewrite Z.pow_add_r by lia.
        apply Z.le_lt_trans with (Z.pos m * 2 ^ (e + 2200));
          [apply Z.mul_le_mono_nonneg_r; [lia|exact Hdge]|].
        rewrite <- Hvalue. change 2253 with (53 + 2200).
        rewrite (Z.pow_add_r 2 53) by lia.
        apply Z.mul_lt_mono_pos_r; [exact HW|lia]. }
      apply Z.pow_lt_mono_r_iff in Hpow; lia. }
    unfold F64.div, F64.prec, F64.emax, SFdiv, SFdiv_core_binary.
    change (Zdigits2 4503599627370496) with 53. fold d1.
    change (fexp 53 1024 (d1 + e - (53 + 1)))
      with (Z.max (d1 + e - (53 + 1) - 53) (-1074)).
    replace (Z.min (Z.max (d1 + e - (53 + 1) - 53) (-1074)) (e - 1)) with (d1 + e - 107)
      by lia.
    replace (e - 1 - (d1 + e - 107)) with (106 - d1) by lia.
    set (s := 106 - d1).
    assert (53 <= s) as Hs by (subst s; lia).
    set (m' := match s with Z0 => Z.pos m | Z.pos _ => Z.shiftl (Z.pos m) s | Z.neg _ => 0 end).
    assert (m' = 4503599627370496 * (Z.pos m * 2 ^ (s - 52)) + 0) as Hm'.
    { subst m'. destruct s as [|k|k] eqn:Hsk; [lia| |lia].
      rewrite Z.shiftl_mul_pow2 by lia.
      replace (Z.pos k) with (52 + (Z.pos k - 52)) at 1 by lia.
      rewrite Z.pow_add_r by lia. change (2 ^ 52) with 4503599627370496. ring. }
    clearbody m'.
    pose proof (Z_div_mod m' 4503599627370496 eq_refl) as Hdm.
    destruct (Z.div_eucl m' 4503599627370496) as [q r]. destruct Hdm as [Hq Hr].
    assert (0 <= Z.pos m * 2 ^ (s - 52)) as Hq0
      by (apply Z.mul_nonneg_nonneg; [lia|apply Z.pow_nonneg; lia]).
    destruct (Z.div_mod_unique 4503599627370496 q (Z.pos m * 2 ^ (s - 52)) r 0
                ltac:(lia) ltac:(lia) ltac:(lia)) as [-> ->].
    change (new_location 4503599627370496 0) with loc_Exact. cbn [xorb].
    assert (Z.pos m * 2 ^ (s - 52) * 2 ^ (d1 + e - 107 + 2200) = n * 2 ^ (-53 + 2200))
      as Hexactly.
    { apply (Z.mul_reg_r _ _ (2 ^ 53)); [lia|].
      change (-53 + 2200) with 2147.
      replace (n * 2 ^ 2147 * 2 ^ 53) with (n * (2 ^ 2147 * 2 ^ 53)) by ring.
      rewrite <- Hsplit, Hvalue.
      replace (e + 2200) with ((s - 52) + (d1 + e - 107 + 2200) + 53) by (subst s; lia).
      rewrite (Z.pow_add_r 2 (s - 52 + (d1 + e - 107 + 2200)) 53) by lia.
      rewrite (Z.pow_add_r 2 (s - 52) (d1 + e - 107 + 2200)) by lia.
      ring. }
    assert (Z.pos m * 2 ^ (s - 52) * 2 ^ (d1 + e - 107 + 2200) < 2 ^ (-53 + 2253))
      as Hsmall.
    { rewrite Hexactly. change (-53 + 2200) with 2147. change (-53 + 2253) with 2200.
      rewrite Hsplit. rewrite (Z.mul_comm (2 ^ 2147)).
      apply Z.mul_lt_mono_pos_r; [exact HV|lia]. }
    destruct (round_ticks (-53) (Z.pos m * 2 ^ (s - 52)) (d1 + e - 107) Hq0 ltac:(lia)
                ltac:(lia) ltac:(lia) ltac:(lia) Hsmall) as (t & Hticks & Hexact & _).
    destruct (Hexact n Hexactly) as [-> Hmoderate].
    split; [exact Hticks|exact Hmoderate].
Qed.

(** Truncating a float between two integers. *)
Lemma trunc_ticks (x : float) (t lo hi : Z) :
  has_ticks x t -> lo * 2 ^ 2200 <= t <= hi * 2 ^ 2200 ->
  exists z, F64.trunc x = Some z /\ lo <= z <= hi.
Proof.
  intros Hx [Hlo Hhi].
  assert (0 < 2 ^ 2200) as HW by (apply Z.pow_pos_nonneg; lia).
  destruct x as [s|s| |[] m e]; try contradiction; cbn [has_ticks] in Hx.
  - subst t. exists 0. split; [reflexivity|].
    split; apply (Z.mul_le_mono_pos_r _ _ (2 ^ 2200)); try exact HW; lia.
  - destruct Hx as [He ->]. cbn [F64.trunc cond_Zopp]. eexists. split; [reflexivity|].
    destruct (0 <=? e) eqn:Hsign.
    + apply Z.leb_le in Hsign.
      rewrite Z.pow_add_r, Z.mul_assoc in Hlo, Hhi by lia.
      split; apply (Z.mul_le_mono_pos_r _ _ (2 ^ 2200)); assumption.
    + apply Z.leb_gt in Hsign.
      assert (0 < 2 ^ (- e)) as Hne by (apply Z.pow_pos_nonneg; lia).
      assert (0 < 2 ^ (e + 2200)) as HP by (apply Z.pow_pos_nonneg; lia).
      assert (2 ^ 2200 = 2 ^ (- e) * 2 ^ (e + 2200)) as Hsplit.
      { rewrite <- Z.pow_add_r by lia. f_equal. lia. }
      rewrite Hsplit, Z.mul_assoc in Hlo, Hhi.
      apply Z.mul_le_mono_pos_r in Hlo, Hhi; try exact HP.
      split.
      * apply Z.div_le_lower_bound; [exact Hne|]. lia.
      * apply Z.div_le_upper_bound; [exact Hne|]. lia.
Qed.

(** ** The uniform draw *)

(** The double drawn from two 32-bit outputs is [n / 2^53] for an integer
    [n] from 0 to [2^53 - 1], exactly: a value in [0, 1). *)
Lemma next_double_unit (st : rng_state) :
  Forall word32 (key st) ->
  exists n, 0 <= n < 2 ^ 53 /\
            has_ticks (fst (MT19937.next_double st)) (n * 2 ^ 2147) /\
            moderate (-53) (fst (MT19937.next_double st)) = true.
Proof.
  intros Hk. unfold MT19937.next_double.
  destruct (next_word32 st Hk) as [Ha Hk1].
  destruct (MT19937.next st) as [a st1]. cbn [fst snd] in Ha, Hk1.
  destruct (next_word32 st1 Hk1) as [Hb _].
  destruct (MT19937.next st1) as [b st2]. cbn [fst snd] in Hb |- *.
  assert (0 <= Z.shiftr a 5 < 2 ^ 27) as Ha'.
  { rewrite Z.shiftr_div_pow2 by lia. destruct Ha as [Hlo Hhi].
    split; [apply Z.div_pos; lia|]. apply Z.div_lt_upper_bound; [lia|exact Hhi]. }
  assert (0 <= Z.shiftr b 6 < 2 ^ 26) as Hb'.
  { rewrite Z.shiftr_div_pow2 by lia. destruct Hb as [Hlo Hhi].
    split; [apply Z.div_pos; lia|]. apply Z.div_lt_upper_bound; [lia|exact Hhi]. }
  generalize dependent (Z.shiftr a 5). generalize dependent (Z.shiftr b 6).
  clear a b Ha Hb. intros b Hb a Ha.
  assert (0 < 2 ^ 2200) as HW by (apply Z.pow_pos_nonneg; lia).
  assert (2 ^ (0 + 4400) = 2 ^ 2200 * 2 ^ 2200) as Hsquare
    by (rewrite <- Z.pow_add_r by lia; reflexivity).
  destruct (of_Z_ticks a) as [HA HAm]; [lia|].
  destruct (of_Z_ticks 67108864) as [HC HCm]; [lia|].
  destruct (of_Z_ticks b) as [HB HBm]; [lia|].
  assert (a * 2 ^ 2200 * (67108864 * 2 ^ 2200) < 2 ^ (0 + 4453)) as Hsmall.
  { change (0 + 4453) with (53 + (0 + 4400)). rewrite (Z.pow_add_r 2 53), Hsquare by lia.
    replace (a * 2 ^ 2200 * (67108864 * 2 ^ 2200))
      with (a * 67108864 * (2 ^ 2200 * 2 ^ 2200)) by ring.
    apply Z.mul_lt_mono_pos_r; [lia|]. lia. }
  destruct (mul_ticks 0 0 0 _ _ _ _ HA HC HAm HCm ltac:(lia) ltac:(lia) ltac:(lia) Hsmall)
    as (tp & HP & HPexact & _).
  destruct (HPexact (a * 67108864)) as [-> HPm].
  { rewrite Hsquare. ring. }
  change (0 + 2200) with 2200 in HP.
  assert (a * 67108864 * 2 ^ 2200 + b * 2 ^ 2200 < 2 ^ (0 + 2253)) as Hsum.
  { change (0 + 2253) with (53 + 2200). rewrite (Z.pow_add_r 2 53) by lia.
    replace (a * 67108864 * 2 ^ 2200 + b * 2 ^ 2200)
      with ((a * 67108864 + b) * 2 ^ 2200) by ring.
    apply Z.mul_lt_mono_pos_r; [exact HW|]. lia. }
  destruct (add_ticks 0 _ _ _ _ HP HB HPm ltac:(lia) ltac:(lia) Hsum)
    as (ts & HS & HSexact & _).
  destruct (HSexact (a * 67108864 + b)) as [-> HSm]; [change (0 + 2200) with 2200; ring|exact HBm|].
  change (0 + 2200) with 2200 in HS.
  exists (a * 67108864 + b). split; [lia|].
  exact (div_2_53_ticks 0 _ _ HS ltac:(lia) HSm).
Qed.

(** [uniform(40, 80)] lies between 40 and 80, both included. *)
Lemma random_uniform_range (st : rng_state) :
  Forall word32 (key st) ->
  exists z, F64.trunc (fst (random_uniform (F64.of_Z 40) (F64.of_Z 80) st)) = Some z /\
            40 <= z <= 80.
Proof.
  intros Hk. unfold random_uniform.
  destruct (next_double_unit st Hk) as (n & Hn & Hu & Hum).
  destruct (MT19937.next_double st) as [u st1]. cbn [fst] in Hu, Hum |- *.
  change (F64.sub (F64.of_Z 80) (F64.of_Z 40)) with (F64.of_Z 40).
  assert (0 < 2 ^ 2200) as HW by (apply Z.pow_pos_nonneg; lia).
  assert (0 < 2 ^ 2147) as HV by (apply Z.pow_pos_nonneg; lia).
  assert (2 ^ 2200 = 2 ^ 2147 * 2 ^ 53) as Hsplit
    by (rewrite <- Z.pow_add_r by lia; reflexivity).
  assert (2 ^ (3 + 2200) = 8 * 2 ^ 2200) as Hgrid
    by (rewrite Z.pow_add_r by lia; reflexivity).
  assert (2 ^ (3 + 4400) = 8 * 2 ^ 2200 * 2 ^ 2200) as Hgrid2.
  { replace (3 + 4400) with (3 + 2200 + 2200) by lia.
    rewrite !Z.pow_add_r by lia. reflexivity. }
  destruct (of_Z_ticks 40) as [H40 H40m]; [lia|].
  assert (40 * 2 ^ 2200 * (n * 2 ^ 2147) <= 5 * 2 ^ (3 + 4400)) as Hproduct.
  { rewrite Hgrid2.
    replace (5 * (8 * 2 ^ 2200 * 2 ^ 2200)) with (40 * 2 ^ 2200 * 2 ^ 2200) by ring.
    apply Z.mul_le_mono_nonneg_l; [lia|].
    rewrite Hsplit, (Z.mul_comm n).
    apply Z.mul_le_mono_nonneg_l; lia. }
  assert (40 * 2 ^ 2200 * (n * 2 ^ 2147) < 2 ^ (3 + 4453)) as Hsmall.
  { apply Z.le_lt_trans with (5 * 2 ^ (3 + 4400)); [exact Hproduct|].
    change (3 + 4453) with (53 + (3 + 4400)). rewrite (Z.pow_add_r 2 53) by lia.
    apply Z.mul_lt_mono_pos_r; [apply Z.pow_pos_nonneg; lia|reflexivity]. }
  destruct (mul_ticks 0 (-53) 3 _ _ _ _ H40 Hu H40m Hum ltac:(lia) ltac:(lia) ltac:(lia)
              Hsmall) as (tp & Hp & _ & Hpb).
  assert (0 <= tp <= 40 * 2 ^ 2200) as Htp.
  { split.
    - destruct (Hpb 0) as [_ Hge]. rewrite !Z.mul_0_l in Hge. apply Hge.
      apply Z.mul_nonneg_nonneg; [lia|]. apply Z.mul_nonneg_nonneg; lia.
    - destruct (Hpb 5) as [Hle _]. rewrite Hgrid in Hle.
      replace (5 * (8 * 2 ^ 2200)) with (40 * 2 ^ 2200) in Hle by ring.
      apply Hle, Hproduct. }
  assert (40 * 2 ^ 2200 + tp < 2 ^ (3 + 2253)) as Hsum.
  { change (3 + 2253) with (56 + 2200). rewrite (Z.pow_add_r 2 56) by lia.
    apply Z.le_lt_trans with (80 * 2 ^ 2200); [lia|].
    apply Z.mul_lt_mono_pos_r; [exact HW|reflexivity]. }
  destruct (add_ticks 3 _ _ _ _ H40 Hp (moderate_mono 0 3 _ ltac:(lia) H40m)
              ltac:(lia) ltac:(lia) Hsum) as (tr & Hr & _ & Hrb).
  apply (trunc_ticks _ tr); [exact Hr|]. rewrite Hgrid in Hrb. split.
  - destruct (Hrb 5) as [_ Hge].
    replace (5 * (8 * 2 ^ 2200)) with (40 * 2 ^ 2200) in Hge by ring.
    apply Hge. lia.
  - destruct (Hrb 10) as [Hle _].
    replace (10 * (8 * 2 ^ 2200)) with (80 * 2 ^ 2200) in Hle by ring.
    apply Hle. lia.
Qed.

(** ** The predictor: reports, pinning and what [predict] leaves alone *)

Section PredictorReports.
Context `{Runtime}.

(** Without features the fallback never raises, and the clamp leaves the
    truncated draw as it is. *)
Lemma fallback_without_features (market_id : Z) (rng : rng_state) :
  exists seed c rng',
    market_seed market_id = Ok seed /\
    F64.trunc (fst (random_uniform (F64.of_Z 40) (F64.of_Z 80) (MT19937.seed_state seed)))
      = Some c /\
    _fallback_prediction market_id None rng = (Ok c, rng') /\ 40 <= c <= 80.
Proof.
  destruct (market_seed_total market_id) as (seed & Hseed & Hrange).
  exists seed.
  rewrite (fallback_prediction_seeded _ _ rng seed Hseed Hrange).
  unfold heuristic_confidence. cbn [truthy]. unfold mbind, py_bind, lift, int_of_float.
  destruct (random_uniform_range _ (seed_state_word32 seed)) as (z & Hz & Hbounds).
  cbv beta.
  destruct (random_uniform (F64.of_Z 40) (F64.of_Z 80) (MT19937.seed_state seed))
    as [u rng']. cbn [fst] in Hz |- *. rewrite Hz.
  exists z, rng'. split; [exact Hseed|]. split; [reflexivity|].
  split; [|exact Hbounds]. unfold mret, py_ret, clamp. do 2 f_equal. lia.
Qed.

(** X26. Without features the fallback returns a confidence from 40 to 80,
    both included, whatever the market and the state of the generator: it
    is the draw of [uniform(40, 80)] from the generator seeded with the
    market's hash, truncated, and the final clamp to [5, 95] never changes
    it.  The draw can be 80.0 itself, by rounding, but nothing above. *)
Theorem featureless_confidence_range (market_id : Z) (rng : rng_state) :
  exists seed c rng',
    market_seed market_id = Ok seed /\
    F64.trunc (fst (random_uniform (F64.of_Z 40) (F64.of_Z 80) (MT19937.seed_state seed)))
      = Some c /\
    _fallback_prediction market_id None rng = (Ok c, rng') /\
    40 <= c <= 80 /\
    clamp 5 95 c = c.
Proof.
  destruct (fallback_without_features market_id rng)
    as (seed & c & rng' & Hseed & Hdraw & Hfallback & Hc).
  exists seed, c, rng'. repeat split; try assumption; try lia.
  unfold clamp. lia.
Qed.

(** One call to [predict] keeps the session, the path and the flag, and
    keeps every cached confidence. *)
Lemma predict_frame (market_id : Z) (features : option (list pynum)) (w : world) :
  let w' := snd (predict market_id features w) in
  prediction_cache (self w) ⊆ prediction_cache (self w') /\
  session (self w') = session (self w) /\
  model_path (self w') = model_path (self w) /\
  model_loaded (self w') = model_loaded (self w).
Proof.
  cbv zeta. rewrite predict_cases.
  destruct (prediction_cache (self w) !! market_id) as [cached|] eqn:Hcache; [auto|].
  destruct (uses_model (self w) features).
  - cbn. repeat split. apply insert_subseteq. exact Hcache.
  - destruct (_fallback_prediction _ _ _) as [[c|e] rng]; cbn; [|auto].
    repeat split. apply insert_subseteq. exact Hcache.
Qed.

Lemma predict_all_frame (queries : list (Z * option (list pynum))) (w : world) :
  prediction_cache (self w) ⊆ prediction_cache (self (predict_all queries w)) /\
  session (self (predict_all queries w)) = session (self w) /\
  model_path (self (predict_all queries w)) = model_path (self w) /\
  model_loaded (self (predict_all queries w)) = model_loaded (self w).
Proof.
  unfold predict_all. revert w.
  induction queries as [|[market_id features] queries IH]; intros w; [auto|].
  cbn [fold_left fst snd].
  destruct (predict_frame market_id features w) as (Hsub & Hsession & Hpath & Hflag).
  destruct (IH (snd (predict market_id features w))) as (Hsub' & Hsession' & Hpath' & Hflag').
  repeat split; try congruence.
  etransitivity; [exact Hsub|exact Hsub'].
Qed.

(** The flag and the session agree from [__init__] on. *)
Lemma init_flag_agrees (path : string) : flag_agrees (__init__ path).
Proof.
  unfold flag_agrees, __init__, try_except.
  destruct (path_exists path); [|reflexivity].
  destruct (InferenceSession path); reflexivity.
Qed.

Lemma step_flag_agrees (w : world) (c : call) :
  flag_agrees (self w) -> flag_agrees (self (step w c)).
Proof.
  unfold flag_agrees. intros Hw. destruct c as [market_id features|path]; cbn [step].
  - destruct (predict_frame market_id features w) as (_ & -> & _ & ->). exact Hw.
  - unfold update_model. destruct (InferenceSession path); [reflexivity|exact Hw].
Qed.

Lemma run_flag_agrees (path : string) (rng : rng_state) (calls : list call) :
  flag_agrees (self (run path rng calls)).
Proof.
  unfold run.
  assert (flag_agrees (self {| self := __init__ path; np_random := rng |})) as Hinit
    by apply init_flag_agrees.
  revert Hinit. generalize {| self := __init__ path; np_random := rng |}.
  induction calls as [|c calls IH]; intros w Hw; [exact Hw|].
  cbn [fold_left]. apply IH, step_flag_agrees, Hw.
Qed.

(** X5. What [get_model_info] reports is what [predict] does.  After
    [__init__] and any sequence of [predict] and [update_model] calls, the
    report says loaded exactly when a session is held, and its type is ONNX
    then and Fallback otherwise.  A call to [predict] for a cached market
    returns the cached confidence and changes nothing, whatever the report
    says.  For a market that is not cached, the call returns the answer of
    [_run_onnx_inference] and leaves the global generator alone when the
    report says ONNX and the features are non-empty; otherwise it returns
    the answer of [_fallback_prediction], or 50 when that raises, and the
    generator is left as the fallback left it. *)
Theorem model_info_consistent (path : string) (rng : rng_state) (calls : list call) :
  let w := run path rng calls in
  let s := self w in
  let held := bool_decide (is_Some (session s)) in
  dict_get (get_model_info s) "loaded" = Some (PyBool held) /\
  dict_get (get_model_info s) "type" = Some (PyStr (if held then "ONNX" else "Fallback")) /\
  dict_get (get_model_info s) "path" = Some (PyStr (model_path s)) /\
  forall market_id features,
    let outcome := predict market_id features w in
    match prediction_cache s !! market_id with
    | Some cached => outcome = (Ok cached, w)
    | None =>
        if held && truthy features
        then fst outcome = Ok (_run_onnx_inference s (default [] features)) /\
             np_random (snd outcome) = np_random w
        else
          let fallback := _fallback_prediction market_id features (np_random w) in
          fst outcome = Ok (match fst fallback with Ok c => c | Raise _ => 50 end) /\
          np_random (snd outcome) = snd fallback
    end.
Proof.
  cbv zeta. pose proof (run_flag_agrees path rng calls) as Hflag.
  unfold flag_agrees in Hflag. unfold get_model_info.
  cbn [dict_get String.eqb Ascii.eqb Bool.eqb]. rewrite Hflag.
  do 3 (split; [reflexivity|]). intros market_id features.
  rewrite predict_cases. unfold uses_model. rewrite Hflag, andb_diag.
  destruct (prediction_cache _ !! market_id) as [cached|]; [reflexivity|].
  destruct (bool_decide _ && truthy features).
  - split; reflexivity.
  - destruct (_fallback_prediction _ _ _) as [[c|e] rng']; split; reflexivity.
Qed.

(** X6. The number of cached markets that [get_model_info] reports grows by
    one with a call to [predict] that misses the cache and whose computation
    does not raise, stays as it is with every other call to [predict] and
    with a failed [update_model], and is zero after a successful
    [update_model]. *)
Theorem cache_size_accounting (w : world) :
  (forall market_id features,
     dict_get (get_model_info (self (snd (predict market_id features w)))) "cache_size"
       = Some (PyInt (Z.of_nat (size (prediction_cache (self w))
                                + cache_growth w market_id features)))) /\
  (forall path,
     dict_get (get_model_info (self (snd (update_model path w)))) "cache_size"
       = Some (PyInt (match InferenceSession path with
                      | Ok _ => 0
                      | Raise _ => Z.of_nat (size (prediction_cache (self w)))
                      end))).
Proof.
  split.
  - intros market_id features. unfold get_model_info, cache_growth, computation_fails.
    cbn [dict_get String.eqb Ascii.eqb Bool.eqb]. do 3 f_equal.
    rewrite predict_cases.
    destruct (prediction_cache (self w) !! market_id) as [cached|] eqn:Hcache; [cbn; lia|].
    destruct (uses_model (self w) features).
    + cbn. rewrite map_size_insert_None by exact Hcache. lia.
    + destruct (_fallback_prediction _ _ _) as [[c|e] rng]; cbn; [|lia].
      rewrite map_size_insert_None by exact Hcache. lia.
  - intros path. unfold get_model_info, update_model.
    cbn [dict_get String.eqb Ascii.eqb Bool.eqb].
    destruct (InferenceSession path); reflexivity.
Qed.

(** X7. A call to [predict] without features, the way the periodic job
    calls it, never falls back to the neutral 50 of the exception handler:
    from every state it returns a confidence that is then cached, in [40, 80]
    when the market was not cached before; and after it, whatever other
    [predict] calls come in between, every call for that market returns
    that confidence, whatever features it passes. *)
Theorem featureless_prediction_pinned (w : world) (market_id : Z)
    (queries : list (Z * option (list pynum))) (later : option (list pynum)) :
  exists c w1,
    predict market_id None w = (Ok c, w1) /\
    prediction_cache (self w1) !! market_id = Some c /\
    computation_fails w market_id None = false /\
    match prediction_cache (self w) !! market_id with
    | Some cached => c = cached
    | None => 40 <= c <= 80
    end /\
    fst (predict market_id later (predict_all queries w1)) = Ok c.
Proof.
  assert (forall c w1, prediction_cache (self w1) !! market_id = Some c ->
                       fst (predict market_id later (predict_all queries w1)) = Ok c) as Hlater.
  { intros c w1 Hc. destruct (predict_all_frame queries w1) as (Hsub & _).
    rewrite (predict_hit market_id c); [reflexivity|].
    exact (lookup_weaken _ _ _ _ Hc Hsub). }
  unfold computation_fails. rewrite predict_cases.
  destruct (prediction_cache (self w) !! market_id) as [cached|] eqn:Hcache.
  - exists cached, w. repeat split; auto.
  - replace (uses_model (self w) None) with false
      by (unfold uses_model; cbn [truthy]; rewrite andb_false_r; reflexivity).
    destruct (fallback_without_features market_id (np_random w))
      as (seed & c & rng & _ & _ & Hfb & Hc).
    rewrite Hfb. cbn [fst].
    assert (prediction_cache (self (snd (cache_store market_id c
              {| self := self w; np_random := rng |}))) !! market_id = Some c) as Hstored
      by apply lookup_insert_eq.
    eexists _, _. repeat split; try exact Hstored; try lia.
    apply Hlater. exact Hstored.
Qed.

(** X8. [predict] only ever adds to the cache.  Over any sequence of calls
    to [predict], no cached confidence is dropped or replaced, so that a
    market once cached is answered with the same confidence from then on,
    and the session, the model path and the loaded flag stay as they were:
    only [update_model] changes them or empties the cache. *)
Theorem predict_only_adds (queries : list (Z * option (list pynum))) (w : world) :
  let w' := predict_all queries w in
  (forall market_id c features,
     prediction_cache (self w) !! market_id = Some c ->
     prediction_cache (self w') !! market_id = Some c /\
     predict market_id features w' = (Ok c, w')) /\
  (size (prediction_cache (self w)) <= size (prediction_cache (self w')))%nat /\
  session (self w') = session (self w) /\
  model_path (self w') = model_path (self w) /\
  model_loaded (self w') = model_loaded (self w).
Proof.
  cbv zeta.
  destruct (predict_all_frame queries w) as (Hsub & Hsession & Hpath & Hflag).
  split; [|split; [|auto]].
  - intros market_id c features Hc.
    pose proof (lookup_weaken _ _ _ _ Hc Hsub) as Hc'.
    split; [exact Hc'|]. apply predict_hit, Hc'.
  - apply map_subseteq_size. exact Hsub.
Qed.

End PredictorReports.

(** ** The indicators of a price series *)

Lemma py_index_nth (xs : list float) (i : nat) (x : float) :
  nth_error xs i = Some x -> py_index xs (Z.of_nat i) = Ok x.
Proof.
  intros Hx. unfold py_index.
  assert (i < length xs)%nat as Hi by (apply nth_error_Some; congruence).
  replace (Z.of_nat i <? 0) with false by (symmetry; apply Z.ltb_ge; lia).
  replace (Z.of_nat i <? 0) with false by (symmetry; apply Z.ltb_ge; lia).
  replace (Z.of_nat (length xs) <=? Z.of_nat i) with false
    by (symmetry; apply Z.leb_gt; lia).
  cbn [orb]. rewrite Nat2Z.id, Hx. reflexivity.
Qed.

Lemma nth_error_firstn_lt (xs : list float) (i n : nat) :
  (i < n)%nat -> nth_error (firstn n xs) i = nth_error xs i.
Proof.
  revert i n. induction xs as [|x xs IH]; intros i n Hi.
  - rewrite firstn_nil. reflexivity.
  - destruct n as [|n]; [lia|]. destruct i as [|i]; [reflexivity|].
    cbn. apply IH. lia.
Qed.

(** The computation on a series of fourteen prices or more, step by step. *)
Lemma calculate_technical_indicators_long (prices : list float) :
  (14 <= length prices)%nat ->
  exists first seventh,
    nth_error prices 0 = Some first /\ nth_error prices 6 = Some seventh /\
    let mean := F64.div (float_sum (firstn 7 prices)) (F64.of_Z 7) in
    calculate_technical_indicators prices =
      match sum_squares (firstn 7 prices) mean F64.zero with
      | Ok squares =>
          Ok [("sma_7", NFloat mean);
              ("sma_14", NFloat (F64.div (float_sum (firstn 14 prices)) (F64.of_Z 14)));
              ("momentum", NFloat (F64.sub first seventh));
              ("volatility", float_pow_half (F64.div squares (F64.of_Z 7)));
              ("trend", NInt (if F64.ltb seventh first then 1 else -1))]
      | Raise e => Raise e
      end.
Proof.
  intros Hlen.
  destruct (nth_error prices 0) as [first|] eqn:H0;
    [|apply nth_error_None in H0; lia].
  destruct (nth_error prices 6) as [seventh|] eqn:H6;
    [|apply nth_error_None in H6; lia].
  exists first, seventh. split; [reflexivity|]. split; [reflexivity|].
  cbv zeta. unfold calculate_technical_indicators.
  replace (length prices <? 14)%nat with false by (symmetry; apply Nat.ltb_ge; exact Hlen).
  rewrite !seven_nonzero.
  change (float_div (float_sum (firstn 14 prices)) (F64.of_Z 14))
    with (Ok (F64.div (float_sum (firstn 14 prices)) (F64.of_Z 14))).
  change 0 with (Z.of_nat 0) at 1. rewrite (py_index_nth _ _ _ H0).
  change 6 with (Z.of_nat 6). rewrite (py_index_nth _ _ _ H6).
  cbn [mbind result_bind].
  destruct (sum_squares _ _ _) as [squares|e]; reflexivity.
Qed.

(** X9. [calculate_technical_indicators] returns the empty dictionary for
    fewer than fourteen prices.  For fourteen or more it returns exactly
    the five entries sma_7, sma_14, momentum, volatility and trend, in that
    order, the first four floats (the volatility is never complex) and the
    trend 1 when the first price is above the seventh and -1 otherwise, so
    also -1 for a flat series or one with a price that is not a number; or
    it raises [OverflowError], from squaring a deviation, and never any
    other exception. *)
Theorem indicators_outcomes (prices : list float) :
  match calculate_technical_indicators prices with
  | Ok [] => (length prices < 14)%nat
  | Ok indicators =>
      (14 <= length prices)%nat /\
      exists sma_7 sma_14 momentum volatility first seventh,
        nth_error prices 0 = Some first /\ nth_error prices 6 = Some seventh /\
        indicators =
          [("sma_7", NFloat sma_7); ("sma_14", NFloat sma_14);
           ("momentum", NFloat momentum); ("volatility", NFloat volatility);
           ("trend", NInt (if F64.ltb seventh first then 1 else -1))]
  | Raise e => (14 <= length prices)%nat /\ e = OverflowError
  end.
Proof.
  destruct (Nat.lt_ge_cases (length prices) 14) as [Hshort|Hlong].
  - unfold calculate_technical_indicators.
    replace (length prices <? 14)%nat with true by (symmetry; apply Nat.ltb_lt; exact Hshort).
    exact Hshort.
  - destruct (calculate_technical_indicators_long prices Hlong)
      as (first & seventh & H0 & H6 & ->).
    destruct (sum_squares _ _ _) as [squares|e] eqn:Hsq.
    + destruct (pow_half_real (F64.div squares (F64.of_Z 7))) as [v ->].
      { apply nonneg_div_7. exact (nonneg_sum_squares _ _ F64.zero _ eq_refl Hsq). }
      split; [exact Hlong|]. eauto 10.
    + split; [exact Hlong|]. exact (sum_squares_raises _ _ _ _ Hsq).
Qed.

(** X10. Only the first fourteen prices count: the indicators of a series
    are those of its first fourteen prices, whatever follows them. *)
Theorem indicators_use_first_fourteen (prices : list float) :
  calculate_technical_indicators prices
    = calculate_technical_indicators (firstn 14 prices).
Proof.
  destruct (Nat.lt_ge_cases (length prices) 14) as [Hshort|Hlong].
  - rewrite firstn_all2 by lia. reflexivity.
  - assert (14 <= length (firstn 14 prices))%nat as Hlong'
      by (rewrite length_firstn; lia).
    destruct (calculate_technical_indicators_long prices Hlong)
      as (first & seventh & H0 & H6 & ->).
    destruct (calculate_technical_indicators_long _ Hlong')
      as (first' & seventh' & H0' & H6' & ->).
    rewrite nth_error_firstn_lt in H0', H6' by lia.
    rewrite !firstn_firstn. cbn [Nat.min]. simplify_eq. reflexivity.
Qed.

(** X11. The oracle's indicators and the predictor's features agree.  For
    a window of seven prices followed by seven or more, the sma_7, the
    momentum and the volatility of [calculate_technical_indicators] are the
    moving average, the momentum and the volatility that [prepare_features]
    computes on that window (the features at positions 7, 8 and 9), bit
    for bit; and where the feature computation returns, so does the
    indicator computation. *)
Theorem indicators_agree_with_features (window rest : list float)
    (features : list pynum) :
  length window = 7%nat -> (7 <= length rest)%nat ->
  technical_indicators window = Ok features ->
  exists indicators,
    calculate_technical_indicators (window ++ rest) = Ok indicators /\
    indicator indicators "sma_7" = nth_error features 0 /\
    indicator indicators "momentum" = nth_error features 1 /\
    indicator indicators "volatility" = nth_error features 2.
Proof.
  intros Hwindow Hrest Hfeatures.
  assert (14 <= length (window ++ rest))%nat as Hlong by (rewrite length_app; lia).
  destruct (calculate_technical_indicators_long _ Hlong)
    as (first & seventh & H0 & H6 & ->).
  assert (firstn 7 (window ++ rest) = window) as ->.
  { rewrite firstn_app, Hwindow, Nat.sub_diag, firstn_O, app_nil_r.
    apply firstn_all2. lia. }
  destruct window as [|a [|b [|c [|d [|e [|f [|g [|? ?]]]]]]]]; try discriminate Hwindow.
  cbn in H0, H6. simplify_eq.
  unfold technical_indicators in Hfeatures.
  change (F64.of_Z (Z.of_nat (length [first; b; c; d; e; f; seventh])))
    with (F64.of_Z 7) in Hfeatures.
  rewrite !seven_nonzero in Hfeatures.
  change (py_index [first; b; c; d; e; f; seventh] 0) with (Ok first) in Hfeatures.
  change (py_index [first; b; c; d; e; f; seventh] (-1)) with (Ok seventh) in Hfeatures.
  cbn [mbind result_bind] in Hfeatures.
  destruct (sum_squares _ _ _) as [squares|err]; [|discriminate Hfeatures].
  cbn [mbind result_bind] in Hfeatures. rewrite seven_nonzero in Hfeatures.
  cbn [mbind result_bind] in Hfeatures.
  destruct (py_max _); [|discriminate Hfeatures]. cbn [mbind result_bind] in Hfeatures.
  destruct (py_min _); [|discriminate Hfeatures]. cbn [mbind result_bind] in Hfeatures.
  destruct (price_ratio _ _); [|discriminate Hfeatures].
  cbn [mbind result_bind] in Hfeatures.
  destruct (price_range _ _); [|discriminate Hfeatures].
  cbn [mbind result_bind] in Hfeatures.
  injection Hfeatures as <-.
  eexists. split; [reflexivity|]. repeat split.
Qed.

Lemma indicators_agree_with_features_witness :
  exists indicators,
    calculate_technical_indicators
      (example_window ++ map F64.of_Z [8; 9; 10; 11; 12; 13; 14]) = Ok indicators /\
    indicator indicators "sma_7" = nth_error (skipn 7 example_features) 0 /\
    indicator indicators "momentum" = nth_error (skipn 7 example_features) 1 /\
    indicator indicators "volatility" = nth_error (skipn 7 example_features) 2.
Proof.
  apply (indicators_agree_with_features example_window
           (map F64.of_Z [8; 9; 10; 11; 12; 13; 14]) (skipn 7 example_features)).
  - reflexivity.
  - cbn. lia.
  - vm_compute. reflexivity.
Defined.

(** X12. Within range there is no overflow: when the first seven prices
    are finite and below [2^453] in magnitude, [calculate_technical_indicators]
    returns its dictionary, whatever the later prices are. *)
Theorem indicators_total (prices : list float) :
  Forall (fun x => moderate 400 x = true) (firstn 7 prices) ->
  exists indicators, calculate_technical_indicators prices = Ok indicators.
Proof.
  intros Hprices.
  destruct (Nat.lt_ge_cases (length prices) 14) as [Hshort|Hlong].
  - unfold calculate_technical_indicators.
    replace (length prices <? 14)%nat with true by (symmetry; apply Nat.ltb_lt; exact Hshort).
    eauto.
  - destruct (calculate_technical_indicators_long prices Hlong)
      as (first & seventh & _ & _ & ->).
    assert (length (firstn 7 prices) = 7%nat) as Hlen by (rewrite length_firstn; lia).
    assert (moderate 415 (F64.div (float_sum (firstn 7 prices)) (F64.of_Z 7)) = true)
      as Hmean.
    { apply (div_7_moderate 414); try lia.
      pose proof (float_sum_moderate 400 400 _ F64.zero Hprices eq_refl) as Hsum.
      rewrite Hlen in Hsum. apply Hsum; lia. }
    destruct (sum_squares_total 415 (firstn 7 prices)
                (F64.div (float_sum (firstn 7 prices)) (F64.of_Z 7)) F64.zero)
      as [squares ->]; try lia; try assumption; [|eauto].
    eapply Forall_impl; [exact Hprices|]. intros x Hx.
    apply (moderate_mono 400); [lia|exact Hx].
Qed.

Lemma indicators_total_witness :
  exists indicators,
    calculate_technical_indicators
      (example_window ++ map F64.of_Z [8; 9; 10; 11; 12; 13; 14]) = Ok indicators.
Proof.
  apply (indicators_total (example_window ++ map F64.of_Z [8; 9; 10; 11; 12; 13; 14])).
  repeat constructor.
Defined.

(** ** The feature builder, continued *)

Lemma append_numeric_closed (items : dict) (acc values : list float) :
  append_numeric items acc = Ok values ->
  values = acc ++ map as_float (List.filter isinstance_int_float (map snd items)).
Proof.
  revert acc. induction items as [|[k v] items IH]; intros acc;
    cbn [append_numeric map snd List.filter].
  - intros [= <-]. cbn. rewrite app_nil_r. reflexivity.
  - destruct (isinstance_int_float v) eqn:Hnum.
    + destruct (py_float v) as [x|e] eqn:Hx; cbn [mbind result_bind]; [|discriminate].
      intros Hrest. apply IH in Hrest. rewrite Hrest, <- app_assoc. cbn [map app].
      do 2 f_equal.
      destruct v as [|[]|n|y|s|l|d]; try discriminate Hnum; cbn in Hx |- *;
        try congruence.
      unfold float_of_int in Hx. destruct (F64.is_inf _); congruence.
    + apply IH.
Qed.

Lemma extract_oracle_values_closed (oracle_prices : dict) (cats : list string)
    (acc values : list float) :
  extract_oracle_values oracle_prices cats acc = Ok values ->
  values = acc ++ concat (map (numeric_values oracle_prices) cats).
Proof.
  revert acc. induction cats as [|c cats IH]; intros acc; cbn [extract_oracle_values].
  - intros [= <-]. cbn. rewrite app_nil_r. reflexivity.
  - unfold category_items, numeric_values at 1. cbn [map concat].
    fold (numeric_values oracle_prices).
    destruct (dict_get oracle_prices c) as [[| | | | | |d]|]; cbn [mbind result_bind];
      try discriminate.
    + destruct (append_numeric d acc) as [acc'|e] eqn:Happend; cbn [mbind result_bind];
        [|discriminate].
      intros Hrest. apply IH in Hrest. apply append_numeric_closed in Happend.
      rewrite Hrest, Happend, <- app_assoc. reflexivity.
    + cbn [append_numeric]. intros Hrest. apply IH in Hrest. exact Hrest.
Qed.

(** What the builder returns is the window in closed form followed by the
    indicators of that window. *)
Lemma prepare_features_window (oracle_prices market_data : dict) (features : list pynum) :
  prepare_features oracle_prices market_data = Ok features ->
  exists indicators,
    technical_indicators (window_of oracle_prices) = Ok indicators /\
    features = firstn 21 (map NFloat (window_of oracle_prices) ++ indicators).
Proof.
  unfold prepare_features, window_of. intros Hf.
  destruct (extract_oracle_values _ _ _) as [values|err] eqn:Hvalues; [|discriminate Hf].
  apply extract_oracle_values_closed in Hvalues. rewrite app_nil_l in Hvalues.
  subst values. cbn [mbind result_bind] in Hf.
  rewrite pad_window_length in Hf. cbn [Nat.leb] in Hf.
  destruct (technical_indicators _) as [indicators|err]; [|discriminate Hf].
  cbn [mbind result_bind] in Hf. injection Hf as <-.
  exists indicators. split; reflexivity.
Qed.

(** C8. The window of the builder is the closed form [window_of], seven
    floats, and whenever the builder returns a vector its first seven slots
    are that window, slot 16 is 1.0 when the window's last value equals zero
    and first/last otherwise, and slot 17 is 0.0 when the window's maximum
    equals zero and (max - min)/max otherwise, with first, last, max and min
    those of that window.  On prices within range the builder does return
    a vector. *)
Theorem guarded_indicators (oracle_prices market_data : dict) :
  let w := window_of oracle_prices in
  exists first last hi lo,
    length w = 7%nat /\
    py_index w 0 = Ok first /\ py_index w (-1) = Ok last /\
    py_max w = Ok hi /\ py_min w = Ok lo /\
    (forall features,
       prepare_features oracle_prices market_data = Ok features ->
       firstn 7 features = map NFloat w /\
       nth 16 features NComplex =
         NFloat (if F64.eqb last F64.zero then F64.one else F64.div first last) /\
       nth 17 features NComplex =
         NFloat (if F64.eqb hi F64.zero then F64.zero else F64.div (F64.sub hi lo) hi)) /\
    (moderate_prices oracle_prices = true ->
     exists features, prepare_features oracle_prices market_data = Ok features).
Proof.
  cbv zeta.
  assert (length (window_of oracle_prices) = 7%nat) as Hlen
    by apply pad_window_length.
  destruct (window_of oracle_prices) as [|a [|b [|c [|d [|e [|f [|g [|? ?]]]]]]]] eqn:Hw;
    try discriminate Hlen.
  exists a, g.
  destruct (py_max [a; b; c; d; e; f; g]) as [hi|err] eqn:Hhi; [|discriminate Hhi].
  destruct (py_min [a; b; c; d; e; f; g]) as [lo|err] eqn:Hlo; [|discriminate Hlo].
  exists hi, lo. do 5 (split; [reflexivity|]). split.
  - intros features Hf.
    destruct (prepare_features_window _ _ _ Hf) as (indicators & Hind & ->).
    rewrite Hw in Hind |- *.
    destruct (technical_indicators_shape _ _ Hlen Hind)
      as (first & last & hi' & lo' & ? & ? & ? & ? & ?
          & [= <-] & [= <-] & Hhi' & Hlo' & ->).
    rewrite Hhi in Hhi'. rewrite Hlo in Hlo'.
    injection Hhi' as <-. injection Hlo' as <-.
    repeat split.
  - intros Hprices.
    destruct (extract_moderate oracle_prices categories [] Hprices)
      as (values & Hextract & Hvalues); [constructor|].
    destruct (technical_indicators_total _ (pad_window_length values)
                (pad_window_moderate _ Hvalues)) as [indicators Hind].
    eexists. unfold prepare_features. rewrite Hextract. cbn [mbind result_bind].
    rewrite pad_window_length. cbn [Nat.leb]. rewrite Hind. reflexivity.
Qed.

Lemma guarded_indicators_witness :
  moderate_prices example_snapshot = true /\
  exists features,
    prepare_features example_snapshot [] = Ok features /\
    firstn 7 features = map NFloat (window_of example_snapshot) /\
    nth 16 features NComplex = NFloat F64.one /\
    nth 17 features NComplex = NFloat F64.one.
Proof.
  split; [reflexivity|].
  destruct (guarded_indicators example_snapshot [])
    as (first & last & hi & lo & _ & Hfirst & Hlast & Hhi & Hlo & Hslots & Htotal).
  destruct (Htotal eq_refl) as [features Hf]. exists features.
  destruct (Hslots features Hf) as (Hwindow & Hratio & Hrange).
  vm_compute in Hfirst, Hlast, Hhi, Hlo.
  injection Hfirst as <-. injection Hlast as <-. injection Hhi as <-. injection Hlo as <-.
  split; [exact Hf|]. split; [exact Hwindow|]. split; [exact Hratio|exact Hrange].
Defined.

(** X13. The ways [prepare_features] can end.  It returns a vector of
    exactly 21 numbers, ints and floats and never a complex number, or it
    raises [OverflowError] (a price or a squared deviation beyond the float
    range) or [AttributeError] (a category that is not a mapping), and
    nothing else; and the market metadata passed to it has no influence on
    the outcome. *)
Theorem prepare_features_outcomes (oracle_prices market_data other : dict) :
  match prepare_features oracle_prices market_data with
  | Ok features =>
      length features = 21%nat /\ Forall (fun a => a <> NComplex) features
  | Raise e => e = OverflowError \/ e = AttributeError
  end /\
  prepare_features oracle_prices market_data = prepare_features oracle_prices other.
Proof.
  split; [|reflexivity].
  destruct (prepare_features oracle_prices market_data) as [features|e] eqn:Hf.
  - split; [exact (prepare_features_length _ _ _ Hf)|exact (prepare_features_real _ _ _ Hf)].
  - exact (prepare_features_raises _ _ _ Hf).
Qed.

(** X14. The first seven features are the window in closed form: the
    numeric prices of forex, then of commodities, then of crypto, each
    category in the order of its own mapping and whatever the order of the
    categories in the snapshot, values that are not numbers skipped and
    booleans counted as 1.0 and 0.0, cut after the seventh and filled up
    with 0.0. *)
Theorem window_is_first_seven (oracle_prices market_data : dict) (features : list pynum) :
  prepare_features oracle_prices market_data = Ok features ->
  firstn 7 features = map NFloat (window_of oracle_prices) /\
  length (window_of oracle_prices) = 7%nat.
Proof.
  unfold prepare_features, window_of. intros Hf.
  destruct (extract_oracle_values _ _ _) as [values|err] eqn:Hvalues; [|discriminate Hf].
  apply extract_oracle_values_closed in Hvalues. rewrite app_nil_l in Hvalues.
  subst values.
  cbn [mbind result_bind] in Hf.
  pose proof (pad_window_length (concat (map (numeric_values oracle_prices) categories)))
    as Hlen.
  split; [|exact Hlen].
  remember (pad_window (concat (map (numeric_values oracle_prices) categories)))
    as window eqn:Hwindow. clear Hwindow.
  rewrite Hlen in Hf. cbn [Nat.leb] in Hf.
  destruct (technical_indicators _) as [indicators|err]; [|discriminate Hf].
  cbn [mbind result_bind] in Hf. injection Hf as <-.
  rewrite firstn_firstn. cbn [Nat.min].
  rewrite firstn_app, length_map, Hlen. cbn [Nat.sub firstn]. rewrite app_nil_r.
  apply firstn_all2. rewrite length_map, Hlen. lia.
Qed.

Lemma window_is_first_seven_witness :
  firstn 7 example_features = map NFloat (window_of example_snapshot) /\
  length (window_of example_snapshot) = 7%nat.
Proof.
  apply (window_is_first_seven example_snapshot [] example_features).
  vm_compute. reflexivity.
Defined.

Lemma append_numeric_overflows (items : dict) (acc : list float) (key : string) (n : Z) :
  In (key, PyInt n) items -> F64.is_inf (F64.of_Z n) = true ->
  append_numeric items acc = Raise OverflowError.
Proof.
  intros Hin Hinf. destruct (append_numeric items acc) as [values|e] eqn:Happend.
  - exfalso. revert acc values Happend.
    induction items as [|[k v] items IH]; intros acc values; [destruct Hin|].
    cbn [append_numeric]. destruct Hin as [[= -> ->]|Hin].
    + cbn [isinstance_int_float py_float]. unfold float_of_int. rewrite Hinf. discriminate.
    + destruct (isinstance_int_float v); [|exact (IH Hin _ _)].
      destruct (py_float v); cbn [mbind result_bind]; [exact (IH Hin _ _)|discriminate].
  - f_equal. exact (append_numeric_raises _ _ _ Happend).
Qed.

(** X15. Every numeric price is converted before the window is cut, so one
    int too large for a float anywhere in a category's mapping, be it the
    eighth numeric value or later, which the features would not include,
    makes [prepare_features] raise instead of returning a vector. *)
Theorem overflow_beyond_window (oracle_prices market_data : dict) (category : string)
    (items : dict) (key : string) (n : Z) :
  In category categories ->
  dict_get oracle_prices category = Some (PyDict items) ->
  In (key, PyInt n) items ->
  F64.is_inf (F64.of_Z n) = true ->
  prepare_features oracle_prices market_data = Raise OverflowError \/
  prepare_features oracle_prices market_data = Raise AttributeError.
Proof.
  intros Hcat Hitems Hin Hinf.
  assert (forall cats acc, In category cats ->
            exists e, extract_oracle_values oracle_prices cats acc = Raise e) as Hraise.
  { induction cats as [|c cats IH]; intros acc; [intros []|].
    cbn [extract_oracle_values]. intros [->|Hlater].
    - unfold category_items. rewrite Hitems. cbn [mbind result_bind].
      rewrite (append_numeric_overflows items acc key n Hin Hinf). eauto.
    - destruct (category_items oracle_prices c) as [d|e]; cbn [mbind result_bind]; [|eauto].
      destruct (append_numeric d acc) as [acc'|e]; cbn [mbind result_bind]; [|eauto].
      apply IH, Hlater. }
  destruct (prepare_features oracle_prices market_data) as [features|e] eqn:Hf.
  - exfalso. unfold prepare_features in Hf.
    destruct (Hraise categories [] Hcat) as [e He]. rewrite He in Hf. discriminate Hf.
  - destruct (prepare_features_raises _ _ _ Hf) as [-> | ->]; auto.
Qed.

Lemma overflow_beyond_window_witness :
  prepare_features
      [("forex", PyDict [("A", PyInt 1); ("B", PyInt 2); ("C", PyInt 3); ("D", PyInt 4)]);
       ("crypto", PyDict [("E", PyInt 5); ("F", PyInt 6); ("G", PyInt 7); ("H", PyInt 8);
                          ("I", PyInt (10 ^ 400))])] []
    = Raise OverflowError \/
  prepare_features
      [("forex", PyDict [("A", PyInt 1); ("B", PyInt 2); ("C", PyInt 3); ("D", PyInt 4)]);
       ("crypto", PyDict [("E", PyInt 5); ("F", PyInt 6); ("G", PyInt 7); ("H", PyInt 8);
                          ("I", PyInt (10 ^ 400))])] []
    = Raise AttributeError.
Proof.
  apply (overflow_beyond_window _ [] "crypto"
           [("E", PyInt 5); ("F", PyInt 6); ("G", PyInt 7); ("H", PyInt 8);
            ("I", PyInt (10 ^ 400))] "I" (10 ^ 400)).
  - cbn. auto.
  - reflexivity.
  - cbn. auto 10.
  - vm_compute. reflexivity.
Defined.

(** Comparison the other way round gives the opposite answer. *)
Lemma SFcompare_antisym (x y : float) :
  SFcompare y x = option_map CompOpp (SFcompare x y).
Proof.
  destruct x as [sx|sx| |sx mx ex], y as [sy|sy| |sy my ey]; cbn [SFcompare option_map];
    try reflexivity;
    try (destruct sx; reflexivity); try (destruct sy; reflexivity);
    try (destruct sx, sy; reflexivity).
  pose proof (Pos.compare_cont_antisym mx my Eq) as Hm. cbn [CompOpp] in Hm.
  rewrite (Z.compare_antisym ex ey), <- Hm.
  destruct sx, sy; try reflexivity;
    destruct (ex ?= ey); cbn [CompOpp]; try reflexivity;
    destruct (Pos.compare_cont Eq mx my); reflexivity.
Qed.

(** A float is not both below and above another. *)
Lemma ltb_asymmetric (x y : float) : F64.ltb x y = true -> F64.ltb y x = false.
Proof.
  unfold F64.ltb, SFltb. rewrite (SFcompare_antisym x y).
  destruct (SFcompare x y) as [[]|]; cbn; congruence.
Qed.

Lemma count_adjacent_bounds (xs : list float) :
  0 <= count_adjacent float_gt xs /\ 0 <= count_adjacent float_lt xs /\
  count_adjacent float_gt xs + count_adjacent float_lt xs
    <= Z.max 0 (Z.of_nat (length xs) - 1).
Proof.
  assert (forall rel x y rest,
            count_adjacent rel (x :: y :: rest)
              = (if rel x y then 1 else 0) + count_adjacent rel (y :: rest)) as Hcons
    by reflexivity.
  induction xs as [|x [|y rest] IH]; [cbn; lia|cbn; lia|].
  rewrite !Hcons. cbn [length] in IH |- *.
  generalize dependent (count_adjacent float_gt (y :: rest)).
  generalize dependent (count_adjacent float_lt (y :: rest)).
  intros downs ups IH. unfold float_gt, float_lt.
  destruct (F64.ltb y x) eqn:Hgt, (F64.ltb x y) eqn:Hlt; try lia.
  rewrite (ltb_asymmetric _ _ Hgt) in Hlt. discriminate.
Qed.

(** X16. The two counts among the features, of adjacent pairs of the
    window in which the price falls and in which it rises, are ints from 0
    to 6, and together at most 6: no pair is counted twice. *)
Theorem adjacent_counts_bounded (oracle_prices market_data : dict) (features : list pynum) :
  prepare_features oracle_prices market_data = Ok features ->
  exists ups downs,
    nth_error features 14 = Some (NInt ups) /\
    nth_error features 15 = Some (NInt downs) /\
    ups = count_adjacent float_gt (window_of oracle_prices) /\
    downs = count_adjacent float_lt (window_of oracle_prices) /\
    0 <= ups /\ 0 <= downs /\ ups + downs <= 6.
Proof.
  unfold prepare_features, window_of. intros Hf.
  destruct (extract_oracle_values _ _ _) as [values|err] eqn:Hvalues; [|discriminate Hf].
  apply extract_oracle_values_closed in Hvalues. rewrite app_nil_l in Hvalues.
  subst values. cbn [mbind result_bind] in Hf.
  pose proof (pad_window_length (concat (map (numeric_values oracle_prices) categories)))
    as Hlen.
  remember (pad_window (concat (map (numeric_values oracle_prices) categories)))
    as window eqn:Hwindow. clear Hwindow.
  pose proof (count_adjacent_bounds window) as (Hups & Hdowns & Hsum).
  rewrite Hlen in Hsum, Hf. cbn [Nat.leb] in Hf.
  destruct (technical_indicators window) as [indicators|err] eqn:Hind; [|discriminate Hf].
  cbn [mbind result_bind] in Hf. injection Hf as <-.
  destruct window as [|a [|b [|c [|d [|e [|f [|g [|? ?]]]]]]]]; try discriminate Hlen.
  unfold technical_indicators in Hind.
  change (F64.of_Z (Z.of_nat (length [a; b; c; d; e; f; g]))) with (F64.of_Z 7) in Hind.
  rewrite !seven_nonzero in Hind.
  change (py_index [a; b; c; d; e; f; g] 0) with (Ok a) in Hind.
  change (py_index [a; b; c; d; e; f; g] (-1)) with (Ok g) in Hind.
  cbn [mbind result_bind] in Hind.
  destruct (sum_squares _ _ _) as [squares|err]; [|discriminate Hind].
  cbn [mbind result_bind] in Hind. rewrite seven_nonzero in Hind.
  cbn [mbind result_bind] in Hind.
  destruct (py_max _); [|discriminate Hind]. cbn [mbind result_bind] in Hind.
  destruct (py_min _); [|discriminate Hind]. cbn [mbind result_bind] in Hind.
  destruct (price_ratio _ _); [|discriminate Hind]. cbn [mbind result_bind] in Hind.
  destruct (price_range _ _); [|discriminate Hind]. cbn [mbind result_bind] in Hind.
  injection Hind as <-.
  eexists _, _. split; [reflexivity|]. split; [reflexivity|].
  split; [reflexivity|]. split; [reflexivity|].
  cbn [count_adjacent] in Hups, Hdowns, Hsum. lia.
Qed.

Lemma adjacent_counts_bounded_witness :
  exists ups downs,
    nth_error example_features 14 = Some (NInt ups) /\
    nth_error example_features 15 = Some (NInt downs) /\
    ups = count_adjacent float_gt (window_of example_snapshot) /\
    downs = count_adjacent float_lt (window_of example_snapshot) /\
    0 <= ups /\ 0 <= downs /\ ups + downs <= 6.
Proof.
  apply (adjacent_counts_bounded example_snapshot [] example_features).
  vm_compute. reflexivity.
Defined.

(** ** The HTTP routes *)

Lemma technical_indicators_raises (w : list float) (e : exn) :
  length w = 7%nat -> technical_indicators w = Raise e -> e = OverflowError.
Proof.
  intros Hlen.
  destruct w as [|a [|b [|c [|d [|x [|f [|g [|? ?]]]]]]]]; try discriminate Hlen.
  unfold technical_indicators.
  change (F64.of_Z (Z.of_nat (length [a; b; c; d; x; f; g]))) with (F64.of_Z 7).
  rewrite !seven_nonzero.
  change (py_index [a; b; c; d; x; f; g] 0) with (Ok a).
  change (py_index [a; b; c; d; x; f; g] (-1)) with (Ok g).
  cbn [mbind result_bind].
  destruct (sum_squares _ _ _) as [squares|e'] eqn:Hsq; cbn [mbind result_bind].
  2:{ intros [= <-]. exact (sum_squares_raises _ _ _ _ Hsq). }
  rewrite seven_nonzero. cbn [mbind result_bind py_max py_min].
  unfold price_ratio, price_range, float_ne_0, float_div.
  destruct (F64.eqb g F64.zero), (F64.eqb (fold_left _ _ a) F64.zero);
    cbn [negb mbind result_bind]; discriminate.
Qed.

(** On a complete snapshot the builder can fail by overflow only. *)
Lemma prepare_features_complete (prices market_data : dict) (e : exn) :
  complete prices = true ->
  prepare_features prices market_data = Raise e -> e = OverflowError.
Proof.
  intros (v1 & v2 & v3 & v4 & v5 & v6 & v7 & stamp & ->)%complete_shape.
  unfold prepare_features, categories.
  cbn [extract_oracle_values category_items dict_get String.eqb Ascii.eqb Bool.eqb
       mbind result_bind].
  destruct (append_numeric _ []) as [acc1|e1] eqn:H1; cbn [mbind result_bind].
  2:{ intros [= <-]. exact (append_numeric_raises _ _ _ H1). }
  destruct (append_numeric _ acc1) as [acc2|e2] eqn:H2; cbn [mbind result_bind].
  2:{ intros [= <-]. exact (append_numeric_raises _ _ _ H2). }
  destruct (append_numeric _ acc2) as [acc3|e3] eqn:H3; cbn [mbind result_bind].
  2:{ intros [= <-]. exact (append_numeric_raises _ _ _ H3). }
  pose proof (pad_window_length acc3) as Hlen. rewrite Hlen. cbn [Nat.leb].
  destruct (technical_indicators _) as [indicators|e'] eqn:Hind; cbn [mbind result_bind];
    [discriminate|].
  intros [= <-]. exact (technical_indicators_raises _ _ Hlen Hind).
Qed.

Section RouteFacts.
Context `{Runtime}.
Variable message : exn -> string.

(** [predict] never raises. *)
Lemma predict_returns (market_id : Z) (features : option (list pynum)) (w : world) :
  exists c w', predict market_id features w = (Ok c, w').
Proof.
  rewrite predict_cases.
  destruct (prediction_cache (self w) !! market_id); [eauto|].
  destruct (uses_model (self w) features); [eauto|].
  destruct (_fallback_prediction _ _ _) as [[c|e] rng]; eauto.
Qed.

(** With the cache within bounds, so is what [predict] returns. *)
Lemma predict_in_range (market_id : Z) (features : option (list pynum)) (w : world) :
  cache_bounded w ->
  exists c, fst (predict market_id features w) = Ok c /\ 0 <= c <= 100.
Proof.
  intros Hw. rewrite predict_cases.
  destruct (prediction_cache (self w) !! market_id) as [cached|] eqn:Hcache.
  - exists cached. split; [reflexivity|]. exact (Hw _ _ Hcache).
  - destruct (uses_model (self w) features).
    + eexists. split; [reflexivity|]. apply run_onnx_inference_range.
    + destruct (_fallback_prediction _ _ _) as [[c|e] rng] eqn:Hfb.
      * pose proof (fallback_prediction_range _ _ _ _ _ Hfb).
        exists c. split; [reflexivity|]. lia.
      * exists 50. split; [reflexivity|]. lia.
Qed.

(** A read never raises, from any state of the service. *)
Lemma get_cached_prices_returns (net : network) (now : Z) (stamp : string) (refreshed : Z)
    (o : OracleService) :
  exists prices o', get_cached_prices net now stamp refreshed o = (Ok prices, o').
Proof.
  unfold get_cached_prices.
  destruct (fetch_all_prices_settled net stamp refreshed o) as (prices & o' & -> & _).
  destruct (is_stale now o); [eauto|].
  destruct (cache o); eauto.
Qed.

(** The prediction endpoint, step by step, with both services there. *)
Lemma get_ai_prediction_steps (net : network) (now : Z) (stamp : string) (refreshed : Z)
    (chain : option (Z -> result pyval)) (market_id : Z)
    (a : AIInferenceService) (o : OracleService) (rng : rng_state) :
  exists prices o',
    get_cached_prices net now stamp refreshed o = (Ok prices, o') /\
    let s' := {| Routes.ai_service := Some a; Routes.oracle_service := Some o';
                 Routes.generator := rng |} in
    Routes.get_ai_prediction message net now stamp refreshed chain market_id
        {| Routes.ai_service := Some a; Routes.oracle_service := Some o;
           Routes.generator := rng |} =
      match match chain with
            | Some get_market => get_market market_id
            | None => Ok (PyDict [])
            end with
      | Raise e => (Ok (Routes.error (message e) 500), s')
      | Ok market_data =>
          match prepare_features prices [] with
          | Raise e => (Ok (Routes.error (message e) 500), s')
          | Ok features =>
              let outcome :=
                predict market_id (Some features) {| self := a; np_random := rng |} in
              (Ok (PyDict [("confidence",
                            PyInt (match fst outcome with Ok c => c | Raise _ => 50 end));
                           ("reasoning", PyStr "Based on 21 features from 7 oracles");
                           ("last_updated", default PyNone (dict_get prices "timestamp"))],
                   200),
               {| Routes.ai_service := Some (self (snd outcome));
                  Routes.oracle_service := Some o';
                  Routes.generator := np_random (snd outcome) |})
          end
      end.
Proof.
  destruct (get_cached_prices_returns net now stamp refreshed o) as (prices & o' & Hget).
  exists prices, o'. split; [exact Hget|]. cbv zeta.
  unfold Routes.get_ai_prediction, try_catch, mbind, py_bind, get, mret, py_ret, lift.
  cbn [Routes.ai_service Routes.oracle_service Routes.absent orb].
  unfold Routes.on_oracle at 1. cbn [Routes.ai_service Routes.oracle_service Routes.generator].
  rewrite Hget.
  destruct (match chain with Some get_market => get_market market_id | None => Ok (PyDict []) end)
    as [market_data|e]; [|reflexivity].
  change (prepare_features prices match market_data with PyDict d => d | _ => [] end)
    with (prepare_features prices []).
  destruct (prepare_features prices []) as [features|e] eqn:Hf; [|reflexivity].
  rewrite (prepare_features_length _ _ _ Hf).
  unfold Routes.on_ai. cbn [Routes.ai_service Routes.oracle_service Routes.generator].
  destruct (predict_returns market_id (Some features) {| self := a; np_random := rng |})
    as (c & w' & ->).
  reflexivity.
Qed.

(** X17. The prediction endpoint always answers, with one of three status
    codes.  It answers 503 exactly when the predictor or the oracle
    service is missing, and then touches nothing.  Otherwise it answers 200
    with a body of exactly the entries confidence (an int), reasoning and
    last_updated, the reasoning always naming 21 features, or 500 with an
    error entry carrying the exception's message. *)
Theorem ai_prediction_responses (net : network) (now : Z) (stamp : string) (refreshed : Z)
    (chain : option (Z -> result pyval)) (market_id : Z) (s : Routes.services) :
  exists body status s',
    Routes.get_ai_prediction message net now stamp refreshed chain market_id s
      = (Ok (body, status), s') /\
    if Routes.absent (Routes.ai_service s) || Routes.absent (Routes.oracle_service s)
    then status = 503 /\ body = PyDict [("error", PyStr "AI service not available")] /\
         s' = s
    else
      (status = 200 /\
       exists c last,
         body = PyDict [("confidence", PyInt c);
                        ("reasoning", PyStr "Based on 21 features from 7 oracles");
                        ("last_updated", last)]) \/
      (status = 500 /\ exists e, body = PyDict [("error", PyStr (message e))]).
Proof.
  destruct s as [[a|] [o|] rng]; cbn [Routes.absent Routes.ai_service Routes.oracle_service orb];
    try (eexists _, _, _; split; [reflexivity|]; repeat split).
  destruct (get_ai_prediction_steps net now stamp refreshed chain market_id a o rng)
    as (prices & o' & _ & ->).
  destruct (match chain with Some get_market => get_market market_id | None => Ok (PyDict []) end)
    as [market_data|e].
  - destruct (prepare_features prices []) as [features|e].
    + eexists _, _, _. split; [reflexivity|]. left. split; [reflexivity|]. eauto.
    + eexists _, _, _. split; [reflexivity|]. right. split; [reflexivity|]. eauto.
  - eexists _, _, _. split; [reflexivity|]. right. split; [reflexivity|]. eauto.
Qed.

(** X18. On services that have run from their [__init__] through any
    histories of calls, the prediction endpoint answers 200 with a
    confidence in [0, 100] and the served snapshot's timestamp, a string, as
    last_updated; or it answers 500, and that only when the market lookup
    raised or a price of the served snapshot is beyond the float range
    ([OverflowError]).  It never answers 503 there. *)
Theorem ai_prediction_on_running_services (path : string) (rng : rng_state)
    (calls : list call) (ttl : Z) (oracle_calls : list oracle_call)
    (net : network) (now : Z) (stamp : string) (refreshed : Z)
    (chain : option (Z -> result pyval)) (market_id : Z) :
  let s := {| Routes.ai_service := Some (self (run path rng calls));
              Routes.oracle_service := Some (oracle_run ttl oracle_calls);
              Routes.generator := np_random (run path rng calls) |} in
  exists body s',
    (Routes.get_ai_prediction message net now stamp refreshed chain market_id s
       = (Ok (body, 200), s') /\
     exists c updated,
       body = PyDict [("confidence", PyInt c);
                      ("reasoning", PyStr "Based on 21 features from 7 oracles");
                      ("last_updated", PyStr updated)] /\
       0 <= c <= 100) \/
    (Routes.get_ai_prediction message net now stamp refreshed chain market_id s
       = (Ok (body, 500), s') /\
     exists e,
       body = PyDict [("error", PyStr (message e))] /\
       (e = OverflowError \/
        exists get_market, chain = Some get_market /\ get_market market_id = Raise e)).
Proof.
  cbv zeta.
  destruct (get_ai_prediction_steps net now stamp refreshed chain market_id
              (self (run path rng calls)) (oracle_run ttl oracle_calls)
              (np_random (run path rng calls)))
    as (prices & o' & Hget & ->).
  destruct (oracle_run_settled ttl oracle_calls) as [Hsettled _].
  destruct (get_cached_prices_settled net now stamp refreshed _ Hsettled)
    as (prices' & o'' & Hget' & Hcomplete & _).
  rewrite Hget in Hget'. injection Hget' as <- <-.
  destruct chain as [get_market|].
  - destruct (get_market market_id) as [market_data|e] eqn:Hmarket.
    2:{ eexists _, _. right. split; [reflexivity|]. exists e. split; [reflexivity|].
        right. eauto. }
    destruct (prepare_features prices []) as [features|e] eqn:Hf.
    2:{ eexists _, _. right. split; [reflexivity|]. exists e. split; [reflexivity|].
        left. exact (prepare_features_complete _ _ _ Hcomplete Hf). }
    eexists _, _. left. split; [reflexivity|].
    destruct (complete_shape _ Hcomplete) as (? & ? & ? & ? & ? & ? & ? & updated & ->).
    eexists _, updated. split; [reflexivity|].
    replace {| self := self (run path rng calls); np_random := np_random (run path rng calls) |}
      with (run path rng calls) by (destruct (run path rng calls); reflexivity).
    destruct (predict_in_range market_id (Some features) _ (run_bounded path rng calls))
      as (c & -> & Hc).
    exact Hc.
  - destruct (prepare_features prices []) as [features|e] eqn:Hf.
    2:{ eexists _, _. right. split; [reflexivity|]. exists e. split; [reflexivity|].
        left. exact (prepare_features_complete _ _ _ Hcomplete Hf). }
    eexists _, _. left. split; [reflexivity|].
    destruct (complete_shape _ Hcomplete) as (? & ? & ? & ? & ? & ? & ? & updated & ->).
    eexists _, updated. split; [reflexivity|].
    replace {| self := self (run path rng calls); np_random := np_random (run path rng calls) |}
      with (run path rng calls) by (destruct (run path rng calls); reflexivity).
    destruct (predict_in_range market_id (Some features) _ (run_bounded path rng calls))
      as (c & -> & Hc).
    exact Hc.
Qed.

(** X19. With both services fresh from their [__init__], every upstream
    source unreachable and no chain to look the market up on, the
    prediction endpoint answers 200 for every market: the features are
    built from the seven static default prices, the confidence is in
    [0, 100], last_updated is the timestamp of the refresh the call made,
    and the oracle service is left holding that snapshot. *)
Theorem offline_prediction (path : string) (rng : rng_state) (ttl : Z)
    (now : Z) (stamp : string) (refreshed : Z) (market_id : Z) :
  let s := {| Routes.ai_service := Some (__init__ path);
              Routes.oracle_service := Some (Oracle.__init__ ttl);
              Routes.generator := rng |} in
  exists c s' o',
    Routes.get_ai_prediction message unreachable now stamp refreshed None market_id s
      = (Ok (PyDict [("confidence", PyInt c);
                     ("reasoning", PyStr "Based on 21 features from 7 oracles");
                     ("last_updated", PyStr stamp)], 200), s') /\
    0 <= c <= 100 /\
    Routes.oracle_service s' = Some o' /\
    last_update o' = Some refreshed /\
    cache o' =
      [("forex", PyDict [("USD_EUR", PyFloat (F64.dec 92 2));
                         ("JPY_GBP", PyFloat (F64.dec 56 4))]);
       ("commodities", PyDict [("GOLD", PyFloat (F64.dec 204530 2));
                               ("OIL", PyFloat (F64.dec 7350 2))]);
       ("crypto", PyDict [("BTC", PyFloat (F64.dec 4325000 2));
                          ("ETH", PyFloat (F64.dec 228050 2));
                          ("SOL", PyFloat (F64.dec 9875 2))]);
       ("timestamp", PyStr stamp)].
Proof.
  cbv zeta.
  destruct (get_ai_prediction_steps unreachable now stamp refreshed None market_id
              (__init__ path) (Oracle.__init__ ttl) rng)
    as (prices & o' & Hget & ->).
  assert (get_cached_prices unreachable now stamp refreshed (Oracle.__init__ ttl)
          = fetch_all_prices unreachable stamp refreshed (Oracle.__init__ ttl)) as Hcold
    by reflexivity.
  rewrite Hcold in Hget. vm_compute in Hget. injection Hget as <- <-.
  destruct (prepare_features _ []) as [features|e] eqn:Hf;
    [|vm_compute in Hf; discriminate Hf].
  assert (cache_bounded {| self := __init__ path; np_random := rng |}) as Hbounded
    by exact (run_bounded path rng []).
  destruct (predict_in_range market_id (Some features) _ Hbounded) as (c & Hc & Hrange).
  cbv zeta. rewrite Hc. eexists c, _, _. split; [reflexivity|]. split; [exact Hrange|].
  split; [reflexivity|]. split; [reflexivity|]. vm_compute. reflexivity.
Qed.

(** X20. The price endpoint answers 503, touching nothing, when the oracle
    service is missing; and on a service that has run from its [__init__]
    through any history it answers 200 with a complete snapshot, whatever
    the upstream sources do, and the service then holds that snapshot. *)
Theorem oracle_prices_route (net : network) (now : Z) (stamp : string) (refreshed : Z)
    (a : option AIInferenceService) (rng : rng_state) (ttl : Z)
    (calls : list oracle_call) :
  Routes.get_oracle_prices message net now stamp refreshed
      {| Routes.ai_service := a; Routes.oracle_service := None; Routes.generator := rng |}
    = (Ok (PyDict [("error", PyStr "Oracle service not available")], 503),
       {| Routes.ai_service := a; Routes.oracle_service := None;
          Routes.generator := rng |}) /\
  exists prices o',
    Routes.get_oracle_prices message net now stamp refreshed
        {| Routes.ai_service := a; Routes.oracle_service := Some (oracle_run ttl calls);
           Routes.generator := rng |}
      = (Ok (PyDict prices, 200),
         {| Routes.ai_service := a; Routes.oracle_service := Some o';
            Routes.generator := rng |}) /\
    complete prices = true /\ cache o' = prices.
Proof.
  split; [reflexivity|].
  destruct (oracle_run_settled ttl calls) as [Hsettled _].
  destruct (get_cached_prices_settled net now stamp refreshed _ Hsettled)
    as (prices & o' & Hget & Hcomplete & _ & Hcache & _).
  exists prices, o'. split; [|auto].
  unfold Routes.get_oracle_prices, try_catch, mbind, py_bind, get, mret, py_ret.
  cbn [Routes.oracle_service Routes.absent].
  unfold Routes.on_oracle. cbn [Routes.ai_service Routes.oracle_service Routes.generator].
  rewrite Hget. reflexivity.
Qed.

End RouteFacts.

(** ** What the fetchers store when an answer lacks the price *)

(** X21. A forex answer that is well formed but does not list the quote
    currency among its rates puts the price 0.0 into the snapshot, not the
    static default, which is used only when the request raises or the
    answer is malformed. *)
Theorem forex_rate_missing_is_zero (net : network) (self : OracleService)
    (base quote : string) (data rates : dict) :
  use_fallback self = true ->
  net (forex_url base) [] = Ok (PyDict data) ->
  dict_get data "rates" = Some (PyDict rates) ->
  dict_get rates quote = None ->
  _fetch_forex_price net self base quote = Ok (PyFloat F64.zero).
Proof.
  intros Hfallback Hnet Hrates Hquote.
  unfold _fetch_forex_price. rewrite Hfallback, Hnet.
  cbn [mbind result_bind subscript]. rewrite Hrates.
  cbn [mbind result_bind get_default]. rewrite Hquote. reflexivity.
Qed.

Lemma forex_rate_missing_is_zero_witness :
  _fetch_forex_price empty_rates fresh_oracle "USD" "EUR" = Ok (PyFloat F64.zero).
Proof.
  apply (forex_rate_missing_is_zero empty_rates fresh_oracle "USD" "EUR"
           [("rates", PyDict [])] []); reflexivity.
Defined.

(** X22. A crypto answer that is an object but does not list the asset, or
    lists it as an object without a usd entry, puts the price 0.0 into the
    snapshot, not the static default. *)
Theorem crypto_price_missing_is_zero (net : network) (self : OracleService)
    (crypto_id : string) (data : dict) :
  use_fallback self = true ->
  net coingecko_url [("ids", crypto_id); ("vs_currencies", "usd")] = Ok (PyDict data) ->
  dict_get data crypto_id = None \/
  (exists quote, dict_get data crypto_id = Some (PyDict quote) /\
                 dict_get quote "usd" = None) ->
  _fetch_crypto_price net self crypto_id = Ok (PyFloat F64.zero).
Proof.
  intros Hfallback Hnet Hquote.
  unfold _fetch_crypto_price. rewrite Hfallback, Hnet.
  cbn [mbind result_bind get_default].
  destruct Hquote as [->|(quote & -> & Husd)];
    cbn [default from_option id mbind result_bind get_default dict_get];
    [|rewrite Husd]; reflexivity.
Qed.

Lemma crypto_price_missing_is_zero_witness :
  _fetch_crypto_price empty_rates fresh_oracle "bitcoin" = Ok (PyFloat F64.zero).
Proof.
  apply (crypto_price_missing_is_zero empty_rates fresh_oracle "bitcoin"
           [("rates", PyDict [])]); [reflexivity|reflexivity|].
  left. reflexivity.
Defined.

(** ** Validation of request bodies *)

Section ValidationFacts.
Context `{Runtime}.
Variable message : exn -> string.

(** X23. The market creation endpoint on a body that is a JSON object
    answers 400 naming the first of question, deadline and oracle_address
    that the object lacks, and 200 when it has all three; it never looks at
    their values and never answers 500 there.  A body that is null, false
    or zero is answered 400 for the question; a body that is a non-zero
    number or true is answered 500, the membership test raising
    [TypeError]; so is a body that could not be decoded; and a string or a
    list is answered 200 or 400. *)
Theorem create_market_validation (body : result pyval) :
  let missing_question := Routes.error "Missing required field: question" 400 in
  let type_error := Routes.error (message TypeError) 500 in
  match body with
  | Ok (PyDict d) =>
      Routes.create_market message body =
        if negb (has_key d "question") then missing_question
        else if negb (has_key d "deadline")
        then Routes.error "Missing required field: deadline" 400
        else if negb (has_key d "oracle_address")
        then Routes.error "Missing required field: oracle_address" 400
        else (PyDict [("success", PyBool true);
                      ("message", PyStr "Market creation requires wallet signature");
                      ("market_id", PyNone);
                      ("tx_hash", PyNone)], 200)
  | Ok PyNone => Routes.create_market message body = missing_question
  | Ok (PyBool b) =>
      Routes.create_market message body = if b then type_error else missing_question
  | Ok (PyInt n) =>
      Routes.create_market message body = if n =? 0 then missing_question else type_error
  | Ok (PyFloat x) =>
      Routes.create_market message body
        = if float_ne_0 x then type_error else missing_question
  | Ok (PyStr _ | PyList _) =>
      snd (Routes.create_market message body) = 200 \/
      snd (Routes.create_market message body) = 400
  | Raise e => Routes.create_market message body = Routes.error (message e) 500
  end.
Proof.
  cbv zeta. destruct body as [[|b|n|x|s|l|d]|e]; try reflexivity.
  - destruct b; reflexivity.
  - unfold Routes.create_market. cbn [mbind result_bind truth].
    destruct (n =? 0); reflexivity.
  - unfold Routes.create_market. cbn [mbind result_bind truth].
    destruct (float_ne_0 x); reflexivity.
  - unfold Routes.create_market. cbn [mbind result_bind truth contains].
    destruct (negb (String.eqb s EmptyString)); cbn [negb mbind result_bind];
      [|right; reflexivity].
    destruct (is_substring "question" s); cbn [negb mbind result_bind]; [|right; reflexivity].
    destruct (is_substring "deadline" s); cbn [negb mbind result_bind]; [|right; reflexivity].
    destruct (is_substring "oracle_address" s); cbn [negb mbind result_bind];
      [left|right]; reflexivity.
  - unfold Routes.create_market. cbn [mbind result_bind contains].
    destruct (truth (PyList l)); cbn [negb mbind result_bind]; [|right; reflexivity].
    destruct (existsb _ l); cbn [negb mbind result_bind]; [|right; reflexivity].
    destruct (existsb _ l); cbn [negb mbind result_bind]; [|right; reflexivity].
    destruct (existsb _ l); cbn [negb mbind result_bind]; [left|right]; reflexivity.
  - unfold Routes.create_market, has_key. cbn [mbind result_bind contains].
    destruct d as [|entry d]; [reflexivity|]. cbn [truth negb mbind result_bind].
    destruct (bool_decide (is_Some (dict_get (entry :: d) "question")));
      cbn [negb mbind result_bind]; [|reflexivity].
    destruct (bool_decide (is_Some (dict_get (entry :: d) "deadline")));
      cbn [negb mbind result_bind]; [|reflexivity].
    destruct (bool_decide (is_Some (dict_get (entry :: d) "oracle_address"))); reflexivity.
Qed.

(** X24. The staking endpoint on a body that is a JSON object answers 400
    naming the first of address, choice and amount that the object lacks
    and 200 when it has all three: the signature its documentation lists is
    not required, and the values are not looked at.  A body that is null, a
    number or a boolean is answered 500, not 400: the membership test raises
    [TypeError] on it. *)
Theorem stake_validation (market_id : Z) (body : result pyval) :
  match body with
  | Ok (PyDict d) =>
      Routes.stake_on_market message market_id body =
        if negb (has_key d "address")
        then Routes.error "Missing required field: address" 400
        else if negb (has_key d "choice")
        then Routes.error "Missing required field: choice" 400
        else if negb (has_key d "amount")
        then Routes.error "Missing required field: amount" 400
        else (PyDict [("success", PyBool true);
                      ("message", PyStr "Stake requires wallet signature");
                      ("tx_hash", PyNone)], 200)
  | Ok (PyNone | PyBool _ | PyInt _ | PyFloat _) =>
      Routes.stake_on_market message market_id body = Routes.error (message TypeError) 500
  | Ok (PyStr _ | PyList _) =>
      snd (Routes.stake_on_market message market_id body) = 200 \/
      snd (Routes.stake_on_market message market_id body) = 400
  | Raise e =>
      Routes.stake_on_market message market_id body = Routes.error (message e) 500
  end.
Proof.
  destruct body as [[|b|n|x|s|l|d]|e]; try reflexivity.
  - unfold Routes.stake_on_market. cbn [mbind result_bind first_missing contains].
    destruct (is_substring "address" s); cbn [mbind result_bind]; [|right; reflexivity].
    destruct (is_substring "choice" s); cbn [mbind result_bind]; [|right; reflexivity].
    destruct (is_substring "amount" s); cbn [mbind result_bind];
      [left|right]; reflexivity.
  - unfold Routes.stake_on_market. cbn [mbind result_bind first_missing contains].
    destruct (existsb _ l); cbn [mbind result_bind]; [|right; reflexivity].
    destruct (existsb _ l); cbn [mbind result_bind]; [|right; reflexivity].
    destruct (existsb _ l); cbn [mbind result_bind]; [left|right]; reflexivity.
  - unfold Routes.stake_on_market, has_key.
    cbn [mbind result_bind first_missing contains].
    destruct (bool_decide (is_Some (dict_get d "address"))); cbn [negb mbind result_bind];
      [|reflexivity].
    destruct (bool_decide (is_Some (dict_get d "choice"))); cbn [negb mbind result_bind];
      [|reflexivity].
    destruct (bool_decide (is_Some (dict_get d "amount"))); reflexivity.
Qed.

End ValidationFacts.

(** ** A new model takes effect at once *)

Section ModelUpdates.
Context `{Runtime}.

(** X25. A successful [update_model] empties the cache, so the new model
    answers from the next call on: after it, [predict] for any market with a
    non-empty feature vector, cached under the old model or not, runs the
    new session on those features and returns its raw output times 100,
    truncated and clamped into [0, 100] (50 when the run fails or the
    product is not finite), and caches that. *)
Theorem new_model_takes_effect (path : string) (w : world) (new_session : onnx_session)
    (market_id : Z) (features : list pynum) :
  InferenceSession path = Ok new_session ->
  features <> [] ->
  exists c w',
    predict market_id (Some features) (snd (update_model path w)) = (Ok c, w') /\
    c = match session_run new_session features with
        | Raise _ => 50
        | Ok raw =>
            match F64.trunc (times_100 raw) with
            | Some n => clamp 0 100 n
            | None => 50
            end
        end /\
    prediction_cache (self w') = {[ market_id := c ]}.
Proof.
  intros Hsession Hfeatures. unfold update_model. rewrite Hsession. cbn [snd].
  rewrite predict_cases. cbn [self prediction_cache]. rewrite lookup_empty.
  assert (truthy (Some features) = true) as Htruthy
    by (destruct features; [contradiction|reflexivity]).
  unfold uses_model. cbn [model_loaded session]. rewrite Htruthy.
  replace (bool_decide (is_Some (Some new_session))) with true
    by (symmetry; apply bool_decide_eq_true; eauto).
  cbn [andb default from_option id].
  eexists _, _. split; [reflexivity|]. split.
  - unfold _run_onnx_inference, try_except, int_of_float. cbn [session mbind result_bind].
    destruct (session_run new_session features) as [raw|]; cbn [mbind result_bind];
      [|reflexivity].
    destruct (F64.trunc _) as [n|]; cbn [mbind result_bind]; [reflexivity|].
    destruct (F64.is_nan _); reflexivity.
  - cbn. apply insert_empty.
Qed.

End ModelUpdates.

Lemma new_model_takes_effect_witness :
  exists c w',
    @predict (constant_model (F64.dec 5078125 7) false) 1 (Some [NFloat F64.zero])
        (snd (@update_model (constant_model (F64.dec 5078125 7) false) "new.onnx"
                {| self := @__init__ (constant_model (F64.dec 5078125 7) false) "old.onnx";
                   np_random := MT19937.seed_state 0 |}))
      = (Ok c, w') /\
    c = match @session_run (constant_model (F64.dec 5078125 7) false) tt [NFloat F64.zero] with
        | Raise _ => 50
        | Ok raw =>
            match F64.trunc (@times_100 (constant_model (F64.dec 5078125 7) false) raw) with
            | Some n => clamp 0 100 n
            | None => 50
            end
        end /\
    prediction_cache (self w') = {[ 1 := c ]}.
Proof.
  apply (@new_model_takes_effect (constant_model (F64.dec 5078125 7) false) "new.onnx"
           {| self := @__init__ (constant_model (F64.dec 5078125 7) false) "old.onnx";
              np_random := MT19937.seed_state 0 |} tt 1 [NFloat F64.zero]).
  - reflexivity.
  - discriminate.
Defined.
